(** * 4over6 VPN client: a shallow embedding of [native-lib.cpp]

    The C++ backend keeps its session in global variables and talks to the
    kernel through [send], [recv], [connect], [read], [write], [shutdown] and
    [usleep].  The embedding below threads the globals through every function
    as a record [state], and the kernel as a record [world] that holds, for
    each system call that returns something, the finite script of the results
    the successive calls will get, together with the log of the calls made.

    Integers are [Z]; the wrap-around of [u32] and the conversions between
    [int] and [u32] that the C++ comparisons perform are written out with
    [to_u32].  Buffers are [list byte]; a [Message] is the byte image of the
    struct, read and written through [(u8 * ) &message] exactly as the code
    does.  The target is little-endian (every Android ABI is).

    Each function is given the meaning it has when it runs alone: the flags
    [running] and [ip_requesting] are read from the globals it is given.  The
    loops of the two threads, which end only when another thread clears
    [running], are given by their bodies; the relation [run] interleaves
    them with the ticks of the supervisor. *)

From Stdlib Require Import String Ascii Strings.Byte DecimalString.
From Stdlib Require Import DecimalFacts DecimalPos.
From Stdlib Require Import NArith ZArith List Bool Lia.
Import ListNotations.

Local Open Scope Z_scope.

(* ================================================================== *)
(** ** Machine integers *)

Definition u32_modulus : Z := 2 ^ 32.

(** Conversion to [u32] (what an assignment or a usual arithmetic conversion
    of an [int] does). *)
Definition to_u32 (z : Z) : Z := z mod u32_modulus.

(** Conversion to [int] (two's complement). *)
Definition to_int (z : Z) : Z := (z + 2 ^ 31) mod u32_modulus - 2 ^ 31.

Definition is_u32 (z : Z) : Prop := 0 <= z < u32_modulus.

(* ================================================================== *)
(** ** Results of running a piece of the program *)

Inductive result (A : Type) : Type :=
| Ok (a : A)
| Starved     (* a system call was made and its script had no result left *)
| Undefined   (* undefined behaviour: access outside an object, null string,
                 division by zero *)
| Aborted     (* a failed [assert] *)
| OutOfFuel.  (* the iteration bound given to a loop of the model was reached *)

Arguments Ok {A} a.
Arguments Starved {A}.
Arguments Undefined {A}.
Arguments Aborted {A}.
Arguments OutOfFuel {A}.

Definition bind {A B} (r : result A) (k : A -> result B) : result B :=
  match r with
  | Ok a => k a
  | Starved => Starved
  | Undefined => Undefined
  | Aborted => Aborted
  | OutOfFuel => OutOfFuel
  end.

Declare Scope prog_scope.
Delimit Scope prog_scope with prog.
Notation "' p <- c1 ;; c2" := (bind c1 (fun p => c2))
  (at level 61, p pattern, c1 at next level, right associativity) : prog_scope.
Notation "x <- c1 ;; c2" := (bind c1 (fun x => c2))
  (at level 61, c1 at next level, right associativity) : prog_scope.
Local Open Scope prog_scope.

(* ================================================================== *)
(** ** Parameters (the [# define]s) *)

Definition DATA_MAX_LENGTH : Z := 4096.
Definition PRINT_BUFFER_LENGTH : Z := 128.
Definition REQUEST_TIMEOUT_USEC : Z := 2000000.
Definition REQUEST_CHECK_INTERVAL_USEC : Z := 5000.
Definition RECV_CHECK_INTEVAL : Z := 100.
Definition RECONNECT_LIMIT : Z := 3.
Definition SOCKET_TIMEOUT : Z := 2000.

Definition IP_REQUEST : Z := 100.
Definition IP_REPLY : Z := 101.
Definition NET_REQUEST : Z := 102.
Definition NET_REPLY : Z := 103.
Definition HEARTBEAT : Z := 104.

Definition sizeof_u32 : Z := 4.
Definition sizeof_u8 : Z := 1.

(* ================================================================== *)
(** ** Utilities: [pretty], [prettySize], [prettyTime] *)

(** The loop [while (value > scale && count < m - 1)] with its body
    [value /= scale; count += 1]; the division of a [u32] by zero is
    undefined.  [count] grows by one at each turn, so [m] turns are enough
    ([pretty_loop_fuel]). *)
Fixpoint pretty_loop (fuel : nat) (value scale count m : Z) : result (Z * Z) :=
  if (value >? scale) && (count <? m - 1) then
    match fuel with
    | O => OutOfFuel
    | S fuel' =>
        if scale =? 0 then Undefined
        else pretty_loop fuel' (to_u32 (value / scale)) scale (count + 1) m
    end
  else Ok (value, count).

(** [sprintf(buffer, "%d")]: the [u32] is printed as an [int]. *)
Definition print_d (value : Z) : string :=
  NilZero.string_of_int (Z.to_int (to_int value)).

Definition newline : string := String (ascii_of_nat 10) EmptyString.

(** [sprintf] into a [char] array of [size] bytes, [text] being what the
    format and its arguments give: the characters of [text] and the zero
    byte that ends them are written from the start of the array, and
    writing past its end is undefined.  The string read back from the array
    is [text]. *)
Definition sprintf (size : Z) (text : string) : result string :=
  if Z.of_nat (String.length text) <? size then Ok text else Undefined.

(** [units] is an array of C strings; [None] is a null pointer.  Reading
    past the array, or printing a null pointer with [%s], is undefined. *)
Definition pretty (value scale : Z) (units : list (option string)) (m : Z)
  : result string :=
  '(value, count) <- pretty_loop (Z.to_nat m) value scale 0 m ;;
  match nth_error units (Z.to_nat count) with
  | Some (Some unit) =>
      sprintf PRINT_BUFFER_LENGTH
        (print_d value ++ " " ++ unit ++ newline)%string
  | _ => Undefined
  end.

(** [static const char* units[5]] with four initialisers: the fifth entry is
    a null pointer. *)
Definition size_units : list (option string) :=
  [Some "Bytes"; Some "KBytes"; Some "MBytes"; Some "GBytes"; None]%string.

Definition time_units : list (option string) :=
  [Some "s"; Some "min(s)"]%string.

Definition prettySize (size : Z) : result string :=
  pretty size 1024 size_units 5.

Definition prettyTime (time : Z) : result string :=
  pretty time 60 time_units 2.


(* ================================================================== *)
(** ** Bytes and objects in memory *)

Definition Z_of_byte (b : byte) : Z := Z.of_N (Byte.to_N b).

(** Conversion to [u8]. *)
Definition byte_of_Z (z : Z) : byte :=
  match Byte.of_N (Z.to_N (z mod 256)) with
  | Some b => b
  | None => x00
  end.

(** The four bytes of a [u32] in memory, least significant first. *)
Definition le32_bytes (n : Z) : list byte :=
  [byte_of_Z n; byte_of_Z (n / 2 ^ 8); byte_of_Z (n / 2 ^ 16);
   byte_of_Z (n / 2 ^ 24)].

Definition le32_value (bs : list byte) : Z :=
  match bs with
  | [b0; b1; b2; b3] =>
      Z_of_byte b0 + 2 ^ 8 * Z_of_byte b1 + 2 ^ 16 * Z_of_byte b2
      + 2 ^ 24 * Z_of_byte b3
  | _ => 0
  end.

(** An object is the list of its bytes.  Writing [bs] at [obj + off] and
    reading [len] bytes from [obj + off]; outside the object both are
    undefined behaviour. *)
Definition store (obj : list byte) (off : Z) (bs : list byte)
  : result (list byte) :=
  if (0 <=? off) && (off + Z.of_nat (length bs) <=? Z.of_nat (length obj))
  then Ok (firstn (Z.to_nat off) obj ++ bs
           ++ skipn (Z.to_nat off + length bs) obj)
  else Undefined.

Definition load (obj : list byte) (off len : Z) : result (list byte) :=
  if (0 <=? off) && (0 <=? len) && (off + len <=? Z.of_nat (length obj))
  then Ok (firstn (Z.to_nat len) (skipn (Z.to_nat off) obj))
  else Undefined.

(** The bytes of the C string at the start of [bs], without its
    terminator.  A string that is not terminated inside the object is read
    past its end. *)
Fixpoint c_string (bs : list byte) : result (list byte) :=
  match bs with
  | [] => Undefined
  | b :: bs' =>
      if Byte.eqb b x00 then Ok []
      else s <- c_string bs' ;; Ok (b :: s)
  end.

(* ================================================================== *)
(** ** [struct Message] *)

(** [u32 length] at offset 0, [u8 type] at offset 4, [u8 data[4096]] at
    offset 5, three bytes of padding: [sizeof(Message)] is 4104. *)
Definition Message : Type := list byte.

Definition sizeof_Message : Z := 4104.
Definition offset_type : Z := 4.
Definition offset_data : Z := 5.

Definition msg_length (m : Message) : Z := le32_value (firstn 4 m).
Definition msg_type (m : Message) : Z := Z_of_byte (nth 4 m x00).
Definition msg_data (m : Message) : list byte :=
  firstn (Z.to_nat DATA_MAX_LENGTH) (skipn 5 m).

Definition set_msg_length (m : Message) (n : Z) : Message :=
  le32_bytes n ++ skipn 4 m.
Definition set_msg_type (m : Message) (t : Z) : Message :=
  firstn 4 m ++ byte_of_Z t :: skipn 5 m.

(** [memset(&message, 0, sizeof(message))]. *)
Definition zero_Message : Message := repeat x00 (Z.to_nat sizeof_Message).

(** An aggregate initialiser [{length, type}]: the rest is zero. *)
Definition init_Message (length type : Z) : Message :=
  set_msg_type (set_msg_length zero_Message length) type.

Definition ip_request : Message := init_Message (sizeof_u32 + sizeof_u8) IP_REQUEST.
Definition heartbeat : Message := init_Message (sizeof_u32 + sizeof_u8) HEARTBEAT.

(** What the protocol puts on the wire for a type and a payload: the first
    [length] bytes of a [Message] whose [length] field is the payload length
    plus five. *)
Definition frame (type : byte) (payload : list byte) : list byte :=
  le32_bytes (Z.of_nat (length payload) + sizeof_u32 + sizeof_u8)
  ++ type :: payload.

(* ================================================================== *)
(** ** The global variables *)

Record state : Type := mkState {
  sockfd : Z;
  tunfd : Z;
  time_connected : Z;
  time_last_heartbeat : Z;
  time_send_heartbeat : Z;
  bytes_sent : Z;
  bytes_recv : Z;
  running : bool;
  ip_requesting : bool
}.

Definition set_sockfd (st : state) (v : Z) : state :=
  mkState v (tunfd st) (time_connected st) (time_last_heartbeat st)
    (time_send_heartbeat st) (bytes_sent st) (bytes_recv st) (running st)
    (ip_requesting st).
Definition set_tunfd (st : state) (v : Z) : state :=
  mkState (sockfd st) v (time_connected st) (time_last_heartbeat st)
    (time_send_heartbeat st) (bytes_sent st) (bytes_recv st) (running st)
    (ip_requesting st).
Definition set_time_connected (st : state) (v : Z) : state :=
  mkState (sockfd st) (tunfd st) v (time_last_heartbeat st)
    (time_send_heartbeat st) (bytes_sent st) (bytes_recv st) (running st)
    (ip_requesting st).
Definition set_time_last_heartbeat (st : state) (v : Z) : state :=
  mkState (sockfd st) (tunfd st) (time_connected st) v
    (time_send_heartbeat st) (bytes_sent st) (bytes_recv st) (running st)
    (ip_requesting st).
Definition set_time_send_heartbeat (st : state) (v : Z) : state :=
  mkState (sockfd st) (tunfd st) (time_connected st) (time_last_heartbeat st)
    v (bytes_sent st) (bytes_recv st) (running st) (ip_requesting st).
Definition set_bytes_sent (st : state) (v : Z) : state :=
  mkState (sockfd st) (tunfd st) (time_connected st) (time_last_heartbeat st)
    (time_send_heartbeat st) v (bytes_recv st) (running st)
    (ip_requesting st).
Definition set_bytes_recv (st : state) (v : Z) : state :=
  mkState (sockfd st) (tunfd st) (time_connected st) (time_last_heartbeat st)
    (time_send_heartbeat st) (bytes_sent st) v (running st)
    (ip_requesting st).
Definition set_running (st : state) (v : bool) : state :=
  mkState (sockfd st) (tunfd st) (time_connected st) (time_last_heartbeat st)
    (time_send_heartbeat st) (bytes_sent st) (bytes_recv st) v
    (ip_requesting st).
Definition set_ip_requesting (st : state) (v : bool) : state :=
  mkState (sockfd st) (tunfd st) (time_connected st) (time_last_heartbeat st)
    (time_send_heartbeat st) (bytes_sent st) (bytes_recv st) (running st) v.

(** The values of the globals when the library is loaded. *)
Definition initial_state : state :=
  mkState (-1) (-1) 0 0 0 0 0 false false.

(* ================================================================== *)
(** ** The kernel *)

(** What one call of [recv] finds: a failure (the receive timeout; the call
    returns -1), or up to [n] bytes of the stream ready to be taken (none
    ready, or the stream over, makes the call return 0). *)
Inductive recv_outcome : Type :=
| RecvFail
| RecvAvail (n : nat).

(** What one call of [read] on the tun device finds: a failure (the call
    returns -1) or a packet. *)
Inductive tun_outcome : Type :=
| TunFail
| TunPacket (packet : list byte).

(** The calls that act on the outside, with their arguments and, where the
    kernel chooses it, their result. *)
Inductive syscall : Type :=
| SysSend (fd : Z) (bytes : list byte) (ret : Z)
| SysConnect (fd : Z)
| SysUsleep (usec : Z)
| SysShutdown (fd : Z)
| SysTunWrite (fd : Z) (bytes : list byte) (ret : Z).

Record world : Type := mkWorld {
  incoming : list byte;             (* the peer's stream, not yet received *)
  recv_script : list recv_outcome;  (* what the next calls of [recv] find *)
  send_script : list Z;             (* what the next calls of [send] return *)
  tun_script : list tun_outcome;    (* what the next [read]s of the tun find *)
  tun_write_script : list Z;        (* what the next [write]s to it return *)
  log : list syscall                (* the calls made, oldest first *)
}.

Definition emit (w : world) (e : syscall) : world :=
  mkWorld (incoming w) (recv_script w) (send_script w) (tun_script w)
    (tun_write_script w) (log w ++ [e]).
Definition set_incoming (w : world) (v : list byte) : world :=
  mkWorld v (recv_script w) (send_script w) (tun_script w)
    (tun_write_script w) (log w).
Definition set_recv_script (w : world) (v : list recv_outcome) : world :=
  mkWorld (incoming w) v (send_script w) (tun_script w)
    (tun_write_script w) (log w).
Definition set_send_script (w : world) (v : list Z) : world :=
  mkWorld (incoming w) (recv_script w) v (tun_script w)
    (tun_write_script w) (log w).
Definition set_tun_script (w : world) (v : list tun_outcome) : world :=
  mkWorld (incoming w) (recv_script w) (send_script w) v
    (tun_write_script w) (log w).
Definition set_tun_write_script (w : world) (v : list Z) : world :=
  mkWorld (incoming w) (recv_script w) (send_script w) (tun_script w)
    v (log w).

(** [recv(sockfd, ., len, 0)] on a given outcome: the value returned, the
    bytes written to the buffer and what is left of the stream. *)
Definition sys_recv (ev : recv_outcome) (stream : list byte) (len : Z)
  : Z * list byte * list byte :=
  match ev with
  | RecvFail => (-1, [], stream)
  | RecvAvail n =>
      let got := firstn (Nat.min n (Z.to_nat len)) stream in
      (Z.of_nat (length got), got, skipn (length got) stream)
  end.

(** [read(tunfd, ., count)]: the value returned and the bytes written. *)
Definition sys_tun_read (ev : tun_outcome) (count : Z) : Z * list byte :=
  match ev with
  | TunFail => (-1, [])
  | TunPacket packet =>
      let got := firstn (Z.to_nat count) packet in
      (Z.of_nat (length got), got)
  end.

(* ================================================================== *)
(** ** [send_raw] and [recv_raw] *)

(** [ptr] is the object the pointer points into (at its start). *)
Definition send_raw (st : state) (w : world) (ptr : list byte) (length : Z)
  : result (Z * world) :=
  if negb (running st) && negb (ip_requesting st) then Ok (-1, w)
  else
    bytes <- load ptr 0 length ;;
    match send_script w with
    | [] => Starved
    | sent :: rest =>
        let w := emit (set_send_script w rest) (SysSend (sockfd st) bytes sent) in
        (* [sent] is an [int], [length] a [u32]: compared as [u32] *)
        if to_u32 sent <? length then Ok (-1, w) else Ok (sent, w)
    end.

(** The loop of [recv_raw]; [buffer] is [obj + off].  Every turn calls
    [recv] once, so the recursion is on the script.  [received] stays within
    the object written to, far from the bounds of [int]. *)
Fixpoint recv_raw_loop (script : list recv_outcome) (st : state) (w : world)
    (obj : list byte) (off length received times_retry : Z)
  : result (Z * list byte * world) :=
  if (running st || ip_requesting st) && (to_u32 received <? length) then
    match script with
    | [] => Starved
    | ev :: script' =>
        let '(single, got, stream) :=
          sys_recv ev (incoming w) (to_u32 (length - received)) in
        let w := set_recv_script w script' in
        if single <? 0 then
          let times_retry := times_retry + 1 in
          if times_retry =? RECONNECT_LIMIT then Ok (received, obj, w)
          else
            let w := emit w (SysUsleep RECV_CHECK_INTEVAL) in
            let w := emit w (SysConnect (sockfd st)) in
            recv_raw_loop script' st w obj off length received times_retry
        else if single =? 0 then
          let w := emit w (SysUsleep RECV_CHECK_INTEVAL) in
          recv_raw_loop script' st w obj off length received 0
        else
          bind (store obj (off + received) got) (fun obj =>
          recv_raw_loop script' st (set_incoming w stream) obj off length
            (received + single) 0)
    end
  else Ok (received, obj, w).

Definition recv_raw (st : state) (w : world) (obj : list byte) (off length : Z)
  : result (Z * list byte * world) :=
  recv_raw_loop (recv_script w) st w obj off length 0 0.

Definition send_heartbeat (st : state) (w : world) : result (Z * world) :=
  send_raw st w heartbeat (msg_length heartbeat).

Definition send_ip_request (st : state) (w : world) : result (Z * world) :=
  send_raw st w ip_request (msg_length ip_request).

(** [recv_message]: the flag returned, the message object and the world.
    [size] is never negative, so its conversion to [size_t] in the two
    comparisons changes nothing; [message.length - sizeof(u32)] becomes the
    [u32] argument of [recv_raw]. *)
Definition recv_message (st : state) (w : world) (message : Message)
  : result (bool * Message * world) :=
  '(size, message, w) <- recv_raw st w message 0 sizeof_u32 ;;
  if (size <? sizeof_u32) || negb (running st) then Ok (false, message, w)
  else
    '(size, message, w) <-
      recv_raw st w message sizeof_u32
        (to_u32 (msg_length message - sizeof_u32)) ;;
    Ok (size + sizeof_u32 =? msg_length message, message, w).

(* ================================================================== *)
(** ** The two threads *)

(** One turn of the loop of [send_thread].  The loop runs while [running],
    which the other thread and the API calls clear. *)
Definition send_thread_body (st : state) (w : world) : result (state * world) :=
  let message := zero_Message in
  match tun_script w with
  | [] => Starved
  | ev :: rest =>
      let w := set_tun_script w rest in
      let '(ret, got) := sys_tun_read ev DATA_MAX_LENGTH in
      message <- store message offset_data got ;;
      let length := to_u32 ret in
      if length >? 0 then
        let message :=
          set_msg_length message (to_u32 (length + sizeof_u32 + sizeof_u8)) in
        let message := set_msg_type message NET_REQUEST in
        '(_, w) <- send_raw st w message (msg_length message) ;;
        Ok (set_bytes_sent st (to_u32 (bytes_sent st + msg_length message)), w)
      else Ok (st, w)
  end.

(** One turn of the loop of [recv_thread]: whether the loop goes on (no
    [break]), the message object, the globals and the world. *)
Definition recv_thread_body (st : state) (w : world) (message : Message)
  : result (bool * Message * state * world) :=
  '(ok, message, w) <- recv_message st w message ;;
  if negb ok then Ok (false, message, set_running st false, w)
  else if msg_type message =? NET_REPLY then
    let length := to_int (msg_length message - sizeof_u32 - sizeof_u8) in
    bytes <- load message offset_data length ;;
    match tun_write_script w with
    | [] => Starved
    | ret :: rest =>
        let w :=
          emit (set_tun_write_script w rest) (SysTunWrite (tunfd st) bytes ret) in
        if negb (length =? ret) then Ok (false, message, st, w)
        else
          Ok (true, message,
              set_bytes_recv st (to_u32 (bytes_recv st + msg_length message)), w)
    end
  else if msg_type message =? HEARTBEAT then
    Ok (true, message, set_time_last_heartbeat st (time_connected st), w)
  else Ok (true, message, st, w).

(* ================================================================== *)
(** ** The API *)

(** [Java_com_lyricz_a4over6vpn_VPNService_tik], [tik] for short: the string
    returned, the globals and the world. *)
Definition Java_com_lyricz_a4over6vpn_VPNService_tik (st : state) (w : world) : result (string * state * world) :=
  if (sockfd st =? -1) || negb (running st) then Ok (EmptyString, st, w)
  else
    let st := set_time_connected st (to_u32 (time_connected st + 1)) in
    if to_u32 (time_connected st - time_last_heartbeat st) >? 60 then
      Ok (EmptyString, set_running st false, w)
    else
      let st := set_time_send_heartbeat st (to_u32 (time_send_heartbeat st + 1)) in
      '(st, w) <-
        (if time_send_heartbeat st =? 20 then
           let st := set_time_send_heartbeat st 0 in
           '(_, w) <- send_heartbeat st w ;; Ok (st, w)
         else Ok (st, w)) ;;
      sent <- prettySize (bytes_sent st) ;;
      received <- prettySize (bytes_recv st) ;;
      connected <- prettyTime (time_connected st) ;;
      str <- sprintf PRINT_BUFFER_LENGTH
               ("Sent: " ++ sent ++ newline ++ "Received: " ++ received
                ++ newline ++ "Time connected: " ++ connected)%string ;;
      Ok (str, st, w).

Abbreviation tik := Java_com_lyricz_a4over6vpn_VPNService_tik.

(** [Java_com_lyricz_a4over6vpn_VPNService_backend] up to the start of the
    two threads, and from their end on. *)
Definition backend_start (st : state) (fd : Z) : state :=
  set_running (set_tunfd st fd) true.

Definition backend_finish (st : state) (w : world) : state * world :=
  let w := emit w (SysShutdown (sockfd st)) in
  (set_sockfd st (-1), w).

(** The loop of [open] over the list of [getaddrinfo]: for each address,
    what [socket] and [connect] return. *)
Fixpoint open_loop (list : list (Z * Z)) (st : state) : state :=
  match list with
  | [] => st
  | (sock, conn) :: list' =>
      let st := set_sockfd st sock in
      if sockfd st <? 0 then open_loop list' st
      else if conn =? 0 then st
      else open_loop list' (set_sockfd st (-1))
  end.

(** [Java_com_lyricz_a4over6vpn_VPNService_open]; [resolved] is [None] when
    [getaddrinfo] fails. *)
Definition Java_com_lyricz_a4over6vpn_VPNService_open (st : state) (resolved : option (list (Z * Z)))
  : result (Z * state) :=
  let st := set_bytes_recv st 0 in
  let st := set_bytes_sent st 0 in
  let st := set_time_connected st 0 in
  let st := set_time_last_heartbeat st 0 in
  let st := set_time_send_heartbeat st 0 in
  if negb (sockfd st =? -1) then Aborted
  else
    match resolved with
    | None => Ok (-1, st)
    | Some list => let st := open_loop list st in Ok (sockfd st, st)
    end.

Abbreviation open := Java_com_lyricz_a4over6vpn_VPNService_open.

(** The end of [request] when no reply was taken. *)
Definition request_give_up (st : state) (w : world)
  : result (string * state * world) :=
  let st := set_ip_requesting st false in
  let w := emit w (SysShutdown (sockfd st)) in
  Ok (EmptyString, set_sockfd st (-1), w).

(** The loop of [request]; [elapsed] grows by 5000 at each turn, so 400
    turns are enough ([request_loop_without_reply]). *)
Fixpoint request_loop (fuel : nat) (st : state) (w : world)
    (message : Message) (elapsed : Z) : result (string * state * world) :=
  if elapsed <? REQUEST_TIMEOUT_USEC then
    match fuel with
    | O => OutOfFuel
    | S fuel' =>
        '(ok, message, w) <- recv_message st w message ;;
        if negb ok then request_give_up st w
        else if msg_type message =? IP_REPLY then
          let st := set_ip_requesting st false in
          address <- c_string (skipn (Z.to_nat offset_data) message) ;;
          Ok (string_of_list_byte address, st, w)
        else
          let w := emit w (SysUsleep REQUEST_CHECK_INTERVAL_USEC) in
          request_loop fuel' st w message
            (to_u32 (elapsed + REQUEST_CHECK_INTERVAL_USEC))
    end
  else request_give_up st w.

Definition request_turns : nat :=
  Z.to_nat (REQUEST_TIMEOUT_USEC / REQUEST_CHECK_INTERVAL_USEC).

(** [Java_com_lyricz_a4over6vpn_VPNService_request]; [message] is the
    content of the local variable, which the code does not initialise. *)
Definition Java_com_lyricz_a4over6vpn_VPNService_request (st : state) (w : world) (message : Message)
  : result (string * state * world) :=
  if sockfd st =? -1 then Ok (EmptyString, st, w)
  else
    let st := set_ip_requesting st true in
    '(_, w) <- send_ip_request st w ;;
    request_loop request_turns st w message 0.

Abbreviation request := Java_com_lyricz_a4over6vpn_VPNService_request.

(** [Java_com_lyricz_a4over6vpn_VPNService_terminate]. *)
Definition Java_com_lyricz_a4over6vpn_VPNService_terminate (st : state) : state := set_running st false.

Abbreviation terminate := Java_com_lyricz_a4over6vpn_VPNService_terminate.

(** [n] calls of [tik] in a row. *)
Fixpoint ticks (n : nat) (st : state) (w : world) : result (state * world) :=
  match n with
  | O => Ok (st, w)
  | S n' => '(_, st, w) <- tik st w ;; ticks n' st w
  end.

(* ================================================================== *)
(** ** Sample sessions *)

(** A session that relays on socket 3 and tun 7, one whose socket 3 is
    open and whose relay is not started, the same one while [request]
    awaits the address, and a kernel with nothing scripted. *)
Definition relay_state : state := mkState 3 7 0 0 0 0 0 true false.
Definition opened_state : state := mkState 3 (-1) 0 0 0 0 0 false false.
Definition awaiting_state : state := mkState 3 (-1) 0 0 0 0 0 false true.
Definition quiet_world : world := mkWorld [] [] [] [] [] [].

(** The bytes of the address 10.0.0.2 and its terminator. *)
Definition address_10_0_0_2 : list byte :=
  [x31; x30; x2e; x30; x2e; x30; x2e; x32; x00].

(* ================================================================== *)
(** ** Notions used in the statements *)

(** Whether sending and receiving are let through by [send_raw] and
    [recv_raw]. *)
Definition session_active (st : state) : bool :=
  running st || ip_requesting st.

(** The number of [connect] calls in a log. *)
Fixpoint connects (l : list syscall) : nat :=
  match l with
  | [] => 0%nat
  | SysConnect _ :: l' => S (connects l')
  | _ :: l' => connects l'
  end.

(** The two calls made between a failed read and the next one. *)
Definition reconnect (st : state) (w : world) : world :=
  emit (emit w (SysUsleep RECV_CHECK_INTEVAL)) (SysConnect (sockfd st)).

(** [bs] put in place of the bytes of [obj] from position [p] on. *)
Definition splice (obj : list byte) (p : nat) (bs : list byte) : list byte :=
  firstn p obj ++ bs ++ skipn (p + length bs) obj.

(** [delivers t k script rest]: with the retry count at [t], the reads that
    [script] describes bring [k] more bytes of a stream that holds them, and
    [rest] is what is left of the script after the last of them.  The reads
    may bring any number of bytes each, bring none, or fail, as long as no
    failure is the third in a row. *)
Inductive delivers : Z -> nat -> list recv_outcome -> list recv_outcome -> Prop :=
| delivers_done t script :
    delivers t 0 script script
| delivers_data t k n script rest :
    delivers 0 (S k - Nat.min (S n) (S k)) script rest ->
    delivers t (S k) (RecvAvail (S n) :: script) rest
| delivers_zero t k script rest :
    delivers 0 (S k) script rest ->
    delivers t (S k) (RecvAvail 0 :: script) rest
| delivers_fail t k script rest :
    t + 1 <> RECONNECT_LIMIT ->
    delivers (t + 1) (S k) script rest ->
    delivers t (S k) (RecvFail :: script) rest.

(** The calls [recv_raw] makes besides [recv]. *)
Definition is_wait (e : syscall) : bool :=
  match e with
  | SysUsleep _ | SysConnect _ => true
  | _ => false
  end.

(** [w'] differs from [w] by reads of the socket only. *)
Definition after_reads (w w' : world) : Prop :=
  send_script w' = send_script w
  /\ tun_script w' = tun_script w
  /\ tun_write_script w' = tun_write_script w
  /\ exists waits, log w' = log w ++ waits /\ forallb is_wait waits = true.

(** [reply_taken st w message elapsed]: polling from [elapsed] on, one of
    the calls of [recv_message] that [request] makes before the timeout
    returns true with a message of type [IP_REPLY]; the calls before it
    return true with messages of other types, each followed by a sleep of
    [REQUEST_CHECK_INTERVAL_USEC] that is added to [elapsed]. *)
Inductive reply_taken (st : state) : world -> Message -> Z -> Prop :=
| reply_now w message elapsed message' w' :
    elapsed < REQUEST_TIMEOUT_USEC ->
    recv_message st w message = Ok (true, message', w') ->
    msg_type message' = IP_REPLY ->
    reply_taken st w message elapsed
| reply_later w message elapsed message' w' :
    elapsed < REQUEST_TIMEOUT_USEC ->
    recv_message st w message = Ok (true, message', w') ->
    msg_type message' <> IP_REPLY ->
    reply_taken st (emit w' (SysUsleep REQUEST_CHECK_INTERVAL_USEC)) message'
      (to_u32 (elapsed + REQUEST_CHECK_INTERVAL_USEC)) ->
    reply_taken st w message elapsed.


(** [ends_with r P]: the run [r] gives a value that satisfies [P], unless
    the kernel's scripts end before the run does or the run meets undefined
    behaviour; it neither aborts nor exceeds the iteration bound. *)
Definition ends_with {A : Type} (r : result A) (P : A -> Prop) : Prop :=
  match r with
  | Ok a => P a
  | Starved => True
  | Undefined => True
  | Aborted => False
  | OutOfFuel => False
  end.

(** How [request] ends when it gives up on a session [st]: the empty
    string, [ip_requesting] cleared, the socket shut down as the last call
    made and [sockfd] set to -1; the other globals are as they were. *)
Definition given_up (st : state) (r : string * state * world) : Prop :=
  let '(s, st', w') := r in
  s = EmptyString
  /\ st' = set_sockfd (set_ip_requesting st false) (-1)
  /\ exists before, log w' = before ++ [SysShutdown (sockfd st)].

(** What a tick does to the heartbeat-send counter. *)
Definition next_send_count (c : Z) : Z :=
  if to_u32 (c + 1) =? 20 then 0 else to_u32 (c + 1).

Fixpoint bytes_eqb (a b : list byte) : bool :=
  match a, b with
  | [], [] => true
  | x :: a', y :: b' => Byte.eqb x y && bytes_eqb a' b'
  | _, _ => false
  end.

(** The calls of [send] that put a heartbeat frame on the wire, and their
    number in a log. *)
Definition is_heartbeat_send (e : syscall) : bool :=
  match e with
  | SysSend _ bytes _ => bytes_eqb bytes (frame x68 [])
  | _ => false
  end.

Definition heartbeats_sent (l : list syscall) : nat :=
  length (filter is_heartbeat_send l).

(** [run n st w st' w']: from [st] and [w], [n] ticks of the supervisor,
    each one on an active session that it leaves running, lead to [st'] and
    [w']; before, between and after the ticks the two threads of the relay
    take any number of turns. *)
Inductive run : nat -> state -> world -> state -> world -> Prop :=
| run_done st w :
    run 0 st w st w
| run_tick n st w s st1 w1 st' w' :
    sockfd st <> -1 ->
    running st = true ->
    tik st w = Ok (s, st1, w1) ->
    running st1 = true ->
    run n st1 w1 st' w' ->
    run (S n) st w st' w'
| run_uplink n st w st1 w1 st' w' :
    send_thread_body st w = Ok (st1, w1) ->
    run n st1 w1 st' w' ->
    run n st w st' w'
| run_downlink n st w message ok message1 st1 w1 st' w' :
    recv_thread_body st w message = Ok (ok, message1, st1, w1) ->
    run n st1 w1 st' w' ->
    run n st w st' w'.

(** A number in decimal, as [%d] prints an [int]. *)
Definition decimal (z : Z) : string := NilZero.string_of_int (Z.to_int z).

(** An entry of a unit array that [pretty] can print whatever the number:
    a string, not a null pointer, of at most 114 characters.  With the
    eleven characters that [%d] can take, the space, the newline and the
    zero byte that ends the line, 114 characters fill the buffer. *)
Definition printable_unit (u : option string) : Prop :=
  match u with
  | Some unit => Z.of_nat (String.length unit) + 14 <= PRINT_BUFFER_LENGTH
  | None => False
  end.

(** An address of [getaddrinfo] on which [open] does not settle: [socket]
    fails, or [connect] does. *)
Definition fails (candidate : Z * Z) : Prop :=
  fst candidate < 0 \/ snd candidate <> 0.

(* ================================================================== *)
(** * Properties *)

(** ** Machine integers and bytes *)

Lemma to_u32_range z : is_u32 (to_u32 z).
Proof. unfold is_u32, to_u32, u32_modulus. apply Z.mod_pos_bound. lia. Qed.

Lemma to_u32_small z : is_u32 z -> to_u32 z = z.
Proof. unfold is_u32, to_u32. intros H. now apply Z.mod_small. Qed.

Lemma to_u32_id z : 0 <= z < 2 ^ 32 -> to_u32 z = z.
Proof. intros H. apply to_u32_small. exact H. Qed.

Ltac u32 := unfold is_u32, u32_modulus in *; simpl (2 ^ _) in *.

Lemma to_int_range (z : Z) : - 2 ^ 31 <= to_int z < 2 ^ 31.
Proof.
  unfold to_int, u32_modulus.
  pose proof (Z.mod_pos_bound (z + 2 ^ 31) (2 ^ 32) eq_refl) as H.
  change (2 ^ 32) with (2 ^ 31 + 2 ^ 31) in *. lia.
Qed.

(* ================================================================== *)
(** ** Numbers in decimal and the print buffer *)

Lemma usize_nb_digits (d : Decimal.uint) :
  Unsigned.usize d = N.of_nat (Decimal.nb_digits d).
Proof.
  induction d as [| d IH | d IH | d IH | d IH | d IH | d IH | d IH | d IH
                   | d IH | d IH];
    cbn [Unsigned.usize Decimal.nb_digits];
    [reflexivity | rewrite Nat2N.inj_succ, IH; reflexivity ..].
Qed.

Lemma string_of_uint_length (d : Decimal.uint) :
  String.length (NilEmpty.string_of_uint d) = Decimal.nb_digits d.
Proof.
  induction d; cbn [NilEmpty.string_of_uint String.length Decimal.nb_digits];
    congruence.
Qed.

(** The first digit of a positive number in decimal is not zero: a number
    of [k] digits is at least [10 ^ (k - 1)]. *)
Lemma to_uint_digits (p : positive) :
  (10 ^ Unsigned.usize (Pos.to_uint p) <= 10 * N.pos p)%N.
Proof.
  pose proof (Unsigned.of_to p) as Hval.
  pose proof (Unsigned.to_of (Pos.to_uint p)) as Hnorm.
  rewrite Hval in Hnorm. cbn [N.to_uint] in Hnorm.
  pose proof (Unsigned.to_uint_nonzero p) as Hnz.
  rewrite Unsigned.of_uint_alt in Hval.
  destruct (Pos.to_uint p) as [| d | d | d | d | d | d | d | d | d | d ];
    [ discriminate Hnorm | | | | | | | | | | ].
  1:{ exfalso. destruct (Decimal.uint_eq_dec d Decimal.Nil) as [-> | Hd].
      - now apply Hnz.
      - pose proof (DecimalFacts.nb_digits_unorm d Hd) as Hle.
        change (Decimal.unorm (Decimal.D0 d)) with (Decimal.unorm d) in Hnorm.
        rewrite <- Hnorm in Hle. cbn [Decimal.nb_digits] in Hle. lia. }
  all: unfold Decimal.rev in Hval; cbn [Decimal.revapp] in Hval;
    rewrite Unsigned.of_lu_revapp in Hval;
    cbn [Unsigned.of_lu Unsigned.usize] in *;
    rewrite N.pow_succ_r'; lia.
Qed.

(** A number below [10 ^ 10] in absolute value takes at most ten digits
    and a sign. *)
Lemma decimal_length (z : Z) :
  - 10 ^ 10 < z < 10 ^ 10 -> (String.length (decimal z) <= 11)%nat.
Proof.
  intros Hz.
  assert (Hpos : forall p : positive,
             Z.pos p < 10 ^ 10 ->
             (String.length (NilZero.string_of_uint (Pos.to_uint p)) <= 10)%nat).
  { intros p Hp. pose proof (to_uint_digits p) as Hd.
    pose proof (Unsigned.to_uint_nonnil p) as Hnil.
    assert (Hsize : (Unsigned.usize (Pos.to_uint p) < 11)%N).
    { apply (N.pow_lt_mono_r_iff 10); [lia |].
      eapply N.le_lt_trans; [exact Hd |].
      change (10 ^ 11)%N with (10 * 10 ^ 10)%N.
      apply N.mul_lt_mono_pos_l; [lia |].
      change (10 ^ 10)%N with (Z.to_N (10 ^ 10)). lia. }
    rewrite usize_nb_digits in Hsize.
    assert (Hs : NilZero.string_of_uint (Pos.to_uint p)
                 = NilEmpty.string_of_uint (Pos.to_uint p))
      by (destruct (Pos.to_uint p); [now destruct Hnil | reflexivity ..]).
    rewrite Hs, string_of_uint_length. lia. }
  unfold decimal. destruct z as [| p | p]; cbn [Z.to_int NilZero.string_of_int].
  - cbn. lia.
  - specialize (Hpos p (proj2 Hz)). lia.
  - cbn [String.length].
    assert (Hp : Z.pos p < 10 ^ 10) by lia.
    specialize (Hpos p Hp). lia.
Qed.

(** What [%d] prints for a [u32]: at most eleven characters. *)
Lemma print_d_length (value : Z) : (String.length (print_d value) <= 11)%nat.
Proof.
  change (print_d value) with (decimal (to_int value)).
  apply decimal_length. pose proof (to_int_range value) as H.
  simpl (2 ^ 31) in H. simpl (10 ^ 10). lia.
Qed.

Lemma sprintf_fits (size : Z) (text : string) :
  Z.of_nat (String.length text) < size -> sprintf size text = Ok text.
Proof. intros H. unfold sprintf. apply Z.ltb_lt in H. now rewrite H. Qed.

Lemma sprintf_inv (size : Z) (text s : string) :
  sprintf size text = Ok s -> s = text.
Proof.
  unfold sprintf. destruct (_ <? _); intros H; [| discriminate H].
  now injection H.
Qed.

Lemma string_length_append (a b : string) :
  String.length (a ++ b) = (String.length a + String.length b)%nat.
Proof.
  induction a as [| c a IH]; cbn [String.append String.length];
    [reflexivity | now rewrite IH].
Qed.

(** The line of [pretty]: number, space, unit, newline. *)
Lemma pretty_line_length (value : Z) (unit : string) :
  (String.length (print_d value ++ " " ++ unit ++ newline)%string
   <= 13 + String.length unit)%nat.
Proof.
  pose proof (print_d_length value) as H.
  rewrite !string_length_append. cbn [String.length newline]. lia.
Qed.

(** It fits the buffer when the unit has at most 114 characters. *)
Lemma pretty_line_fits (value : Z) (unit : string) :
  (String.length unit <= 114)%nat ->
  sprintf PRINT_BUFFER_LENGTH (print_d value ++ " " ++ unit ++ newline)%string
  = Ok (print_d value ++ " " ++ unit ++ newline)%string.
Proof.
  intros Hunit. apply sprintf_fits.
  pose proof (pretty_line_length value unit) as H.
  unfold PRINT_BUFFER_LENGTH. lia.
Qed.

(* ================================================================== *)
(** ** [pretty]: the unit index *)

(** A turn of the loop, and its end. *)
Lemma pretty_loop_turn (fuel : nat) (value scale count m : Z) :
  scale < value ->
  count < m - 1 ->
  scale <> 0 ->
  pretty_loop (S fuel) value scale count m
  = pretty_loop fuel (to_u32 (value / scale)) scale (count + 1) m.
Proof.
  intros Hvalue Hcount Hscale. cbn [pretty_loop].
  apply Z.gtb_lt in Hvalue. apply Z.ltb_lt in Hcount.
  apply Z.eqb_neq in Hscale. now rewrite Hvalue, Hcount, Hscale.
Qed.

Lemma pretty_loop_end (fuel : nat) (value scale count m : Z) :
  value <= scale \/ m - 1 <= count ->
  pretty_loop fuel value scale count m = Ok (value, count).
Proof.
  intros Hend.
  assert (Hcond : (value >? scale) && (count <? m - 1) = false).
  { apply andb_false_iff. rewrite Z.gtb_ltb, !Z.ltb_ge. lia. }
  destruct fuel; cbn [pretty_loop]; now rewrite Hcond.
Qed.

Section Pretty.

Variable size : Z.
Hypothesis size_u32 : is_u32 size.

Let q1 := size / 1024.
Let q2 := q1 / 1024.
Let q3 := q2 / 1024.

Lemma quotients_small : 0 <= q1 < 2 ^ 22 /\ 0 <= q2 < 2 ^ 12 /\ 0 <= q3 < 4.
Proof.
  u32. subst q3 q2 q1.
  assert (H1 : 0 <= size / 1024 < 4194304).
  { split; [apply Z.div_pos; lia | apply Z.div_lt_upper_bound; lia]. }
  assert (H2 : 0 <= size / 1024 / 1024 < 4096).
  { split; [apply Z.div_pos; lia | apply Z.div_lt_upper_bound; lia]. }
  assert (H3 : 0 <= size / 1024 / 1024 / 1024 < 4).
  { split; [apply Z.div_pos; lia | apply Z.div_lt_upper_bound; lia]. }
  lia.
Qed.

(** The loop of [prettySize] ends within three turns, on a value that is
    at most 1024 and an index that is at most 3. *)
Lemma prettySize_loop :
  exists value count,
    pretty_loop (Z.to_nat 5) size 1024 0 5 = Ok (value, count)
    /\ 0 <= count <= 3 /\ 0 <= value <= 1024
    /\ value = Z.iter count (fun v => v / 1024) size.
Proof.
  destruct quotients_small as (B1 & B2 & B3).
  pose proof size_u32 as Hs. u32.
  change (Z.to_nat 5) with 5%nat.
  destruct (Z.le_gt_cases size 1024) as [G0 | G0].
  { exists size, 0. rewrite pretty_loop_end by lia. repeat split; lia. }
  rewrite pretty_loop_turn by lia.
  fold q1. rewrite (to_u32_id q1) by lia. change (0 + 1) with 1.
  destruct (Z.le_gt_cases q1 1024) as [G1 | G1].
  { exists q1, 1. rewrite pretty_loop_end by lia. repeat split; lia. }
  rewrite pretty_loop_turn by lia.
  fold q2. rewrite (to_u32_id q2) by lia. change (1 + 1) with 2.
  destruct (Z.le_gt_cases q2 1024) as [G2 | G2].
  { exists q2, 2. rewrite pretty_loop_end by lia. repeat split; lia. }
  rewrite pretty_loop_turn by lia.
  fold q3. rewrite (to_u32_id q3) by lia. change (2 + 1) with 3.
  exists q3, 3. rewrite pretty_loop_end by lia. repeat split; lia.
Qed.

End Pretty.

(** The four entries of [units] that the loop can reach. *)
Lemma size_units_named (count : Z) :
  0 <= count <= 3 ->
  exists unit,
    nth_error size_units (Z.to_nat count) = Some (Some unit)
    /\ (String.length unit <= 6)%nat.
Proof.
  intros Hc.
  assert (Hcases : count = 0 \/ count = 1 \/ count = 2 \/ count = 3) by lia.
  destruct Hcases as [-> | [-> | [-> | ->]]];
    eexists; (split; [reflexivity | cbn; lia]).
Qed.

(** C9.  For every [u32] byte count, the loop of [prettySize] divides by 1024
    at most three times before the value is 1024 or less: the index it ends
    with is at most 3, the entry of [units] that is read is one of the four
    named ones (never the fifth, null one), and a string is produced,
    although the bound given to [pretty] is 5. *)
Theorem prettySize_index_at_most_3 (size : Z) (Hsize : is_u32 size) :
  exists value count unit,
    pretty_loop (Z.to_nat 5) size 1024 0 5 = Ok (value, count)
    /\ 0 <= count <= 3
    /\ value = Z.iter count (fun v => v / 1024) size
    /\ 0 <= value <= 1024
    /\ nth_error size_units (Z.to_nat count) = Some (Some unit)
    /\ prettySize size = Ok (print_d value ++ " " ++ unit ++ newline)%string.
Proof.
  destruct (prettySize_loop size Hsize) as (value & count & Hloop & Hc & Hv & Hit).
  destruct (size_units_named count Hc) as (unit & Hunit & Hshort).
  exists value, count, unit. repeat split; try assumption; try lia.
  unfold prettySize, pretty. rewrite Hloop. cbn [bind]. rewrite Hunit.
  apply pretty_line_fits. lia.
Qed.

Lemma prettySize_index_at_most_3_witness :
  is_u32 4294967295 /\
  exists value count unit,
    pretty_loop (Z.to_nat 5) 4294967295 1024 0 5 = Ok (value, count)
    /\ 0 <= count <= 3
    /\ value = Z.iter count (fun v => v / 1024) 4294967295
    /\ 0 <= value <= 1024
    /\ nth_error size_units (Z.to_nat count) = Some (Some unit)
    /\ prettySize 4294967295
       = Ok (print_d value ++ " " ++ unit ++ newline)%string.
Proof.
  assert (H : is_u32 4294967295) by (unfold is_u32, u32_modulus; lia).
  split; [exact H | exact (prettySize_index_at_most_3 4294967295 H)].
Defined.

(** The largest count is printed in the fourth unit. *)
Example prettySize_max :
  prettySize 4294967295 = Ok ("3 GBytes" ++ newline)%string.
Proof. reflexivity. Qed.

(** The bound 5 by itself does not keep the index below 4: with a smaller
    scale the same call reads the null entry. *)
Example pretty_bound_5_reaches_null :
  pretty_loop (Z.to_nat 5) 4294967295 2 0 5 = Ok (268435455, 4)
  /\ pretty 4294967295 2 size_units 5 = Undefined.
Proof. split; reflexivity. Qed.

(** [m] turns of fuel are enough for the loop of [pretty]. *)
Lemma pretty_loop_fuel (fuel : nat) (value scale count m : Z) :
  (Z.to_nat (m - 1 - count) <= fuel)%nat ->
  pretty_loop fuel value scale count m <> OutOfFuel.
Proof.
  revert value count.
  induction fuel as [| fuel IH]; intros value count Hfuel; cbn [pretty_loop].
  - destruct (Z.ltb_spec count (m - 1)); [lia |].
    rewrite andb_false_r. discriminate.
  - destruct (Z.ltb_spec count (m - 1));
      [| rewrite andb_false_r; discriminate].
    destruct (value >? scale); cbn [andb]; [| discriminate].
    destruct (scale =? 0); [discriminate |].
    apply IH. lia.
Qed.

(* ================================================================== *)
(** ** [send_raw] *)

Lemma to_u32_negative z : - 2 ^ 32 <= z < 0 -> to_u32 z = z + 2 ^ 32.
Proof.
  intros H. unfold to_u32, u32_modulus.
  symmetry. apply (Z.mod_unique_pos z (2 ^ 32) (-1)); lia.
Qed.

(** C8.  [send_raw] returns -1, and calls nothing, when neither [running]
    nor [ip_requesting] is set.  Otherwise it calls [send] once, and when
    that call transfers fewer bytes than asked (a count below [length], or
    the failure value -1) it returns an error value, which is -1; the send
    is not tried again. *)
Theorem send_raw_error (st : state) (w : world) (ptr : list byte) (length : Z) :
  (session_active st = false -> send_raw st w ptr length = Ok (-1, w))
  /\ (session_active st = true ->
      forall sent rest bytes,
        is_u32 length ->
        send_script w = sent :: rest ->
        load ptr 0 length = Ok bytes ->
        - 2 ^ 31 <= sent < length ->
        exists r,
          send_raw st w ptr length
          = Ok (r, emit (set_send_script w rest) (SysSend (sockfd st) bytes sent))
          /\ r < 0 /\ (-1 <= sent -> r = -1)).
Proof.
  unfold session_active, send_raw. split.
  - intros Hidle. apply orb_false_elim in Hidle as [-> ->]. reflexivity.
  - intros Hact sent rest bytes Hlen Hscript Hload Hsent.
    replace (negb (running st) && negb (ip_requesting st)) with false
      by (destruct (running st), (ip_requesting st); simpl in *; congruence).
    rewrite Hload. cbn [bind]. rewrite Hscript. u32.
    destruct (Z.ltb_spec (to_u32 sent) length) as [Hlt | Hge].
    + exists (-1). repeat split; lia.
    + exists sent. split; [reflexivity |].
      destruct (Z_lt_ge_dec sent 0) as [Hneg | Hpos].
      * split; [lia |]. intros H1.
        rewrite to_u32_negative in Hge by lia. lia.
      * rewrite to_u32_id in Hge by lia. lia.
Qed.

Lemma send_raw_error_witness :
  send_raw opened_state (set_send_script quiet_world [2; 5]) heartbeat 5
  = Ok (-1, set_send_script quiet_world [2; 5])
  /\ exists r,
       send_raw relay_state (set_send_script quiet_world [2; 5]) heartbeat 5
       = Ok (r, emit (set_send_script (set_send_script quiet_world [2; 5]) [5])
                  (SysSend (sockfd relay_state) [x05; x00; x00; x00; x68] 2))
       /\ r < 0 /\ (-1 <= 2 -> r = -1).
Proof.
  split.
  - apply (proj1 (send_raw_error opened_state
                    (set_send_script quiet_world [2; 5]) heartbeat 5)).
    reflexivity.
  - apply (proj2 (send_raw_error relay_state
                    (set_send_script quiet_world [2; 5]) heartbeat 5)).
    + reflexivity.
    + unfold is_u32, u32_modulus. lia.
    + reflexivity.
    + reflexivity.
    + lia.
Defined.

(** A failed [send] (-1) is not caught by the comparison, which is made on
    [u32]; the same value comes back through [return sent]. *)
Example send_raw_failed_send :
  send_raw (mkState 3 7 0 0 0 0 0 true false)
    (mkWorld [] [] [-1] [] [] []) heartbeat 5
  = Ok (-1, mkWorld [] [] [] [] [] [SysSend 3 [x05; x00; x00; x00; x68] (-1)]).
Proof. reflexivity. Qed.

(** A full send returns the count. *)
Example send_raw_full_send :
  send_raw (mkState 3 7 0 0 0 0 0 false true)
    (mkWorld [] [] [5] [] [] []) ip_request 5
  = Ok (5, mkWorld [] [] [] [] [] [SysSend 3 [x05; x00; x00; x00; x64] 5]).
Proof. reflexivity. Qed.

(* ================================================================== *)
(** ** [recv_raw] *)

Section RecvRawSteps.

Variables (st : state) (w : world) (obj : list byte).
Variables (off length received times_retry : Z).
Variable script : list recv_outcome.

Hypothesis active : session_active st = true.
Hypothesis missing : to_u32 received < length.

Lemma recv_raw_loop_enters :
  (running st || ip_requesting st) && (to_u32 received <? length) = true.
Proof.
  unfold session_active in active. rewrite active.
  apply Z.ltb_lt in missing. now rewrite missing.
Qed.

(** A read of zero bytes: the retry count is set back to zero. *)
Lemma recv_raw_loop_zero (ev : recv_outcome) :
  fst (fst (sys_recv ev (incoming w) (to_u32 (length - received)))) = 0 ->
  recv_raw_loop (ev :: script) st w obj off length received times_retry
  = recv_raw_loop script st
      (emit (set_recv_script w script) (SysUsleep RECV_CHECK_INTEVAL))
      obj off length received 0.
Proof.
  intros Hzero. cbn [recv_raw_loop]. rewrite recv_raw_loop_enters.
  destruct (sys_recv ev (incoming w) (to_u32 (length - received)))
    as [[single got] stream].
  cbn [fst] in Hzero. subst single. reflexivity.
Qed.

(** A failed read below the limit: sleep, [connect], go on. *)
Lemma recv_raw_loop_fail :
  times_retry + 1 <> RECONNECT_LIMIT ->
  recv_raw_loop (RecvFail :: script) st w obj off length received times_retry
  = recv_raw_loop script st (reconnect st (set_recv_script w script))
      obj off length received (times_retry + 1).
Proof.
  intros Hbelow. cbn [recv_raw_loop sys_recv]. rewrite recv_raw_loop_enters.
  change (-1 <? 0) with true. cbv iota.
  apply Z.eqb_neq in Hbelow. rewrite Hbelow. reflexivity.
Qed.

(** A failed read that reaches the limit: the loop is left at once. *)
Lemma recv_raw_loop_give_up :
  times_retry + 1 = RECONNECT_LIMIT ->
  recv_raw_loop (RecvFail :: script) st w obj off length received times_retry
  = Ok (received, obj, set_recv_script w script).
Proof.
  intros Hlimit. cbn [recv_raw_loop sys_recv]. rewrite recv_raw_loop_enters.
  change (-1 <? 0) with true. cbv iota.
  apply Z.eqb_eq in Hlimit. rewrite Hlimit. reflexivity.
Qed.

End RecvRawSteps.

(** C6 (amended).  While [recv_raw] still misses bytes of an active session:
    a read of zero bytes costs nothing, it sets the retry count back to zero
    whatever it was; a failed read that does not bring the count to 3 is
    followed by a sleep and one [connect]; three failed reads in a row end
    the call, which returns the bytes gathered so far, fewer than asked,
    after exactly two [connect] calls: the third failure is not followed by
    one. *)
Theorem recv_raw_reconnect_bound (st : state) (w : world) (obj : list byte)
    (off length received : Z) (script : list recv_outcome) :
  session_active st = true ->
  to_u32 received < length ->
  (forall times_retry,
      recv_raw_loop (RecvAvail 0 :: script) st w obj off length received
        times_retry
      = recv_raw_loop script st
          (emit (set_recv_script w script) (SysUsleep RECV_CHECK_INTEVAL))
          obj off length received 0)
  /\ (forall times_retry,
         times_retry + 1 <> RECONNECT_LIMIT ->
         recv_raw_loop (RecvFail :: script) st w obj off length received
           times_retry
         = recv_raw_loop script st (reconnect st (set_recv_script w script))
             obj off length received (times_retry + 1))
  /\ recv_raw_loop (RecvFail :: RecvFail :: RecvFail :: script) st w obj off
       length received 0
     = Ok (received, obj,
           mkWorld (incoming w) script (send_script w) (tun_script w)
             (tun_write_script w)
             (log w ++ [SysUsleep RECV_CHECK_INTEVAL; SysConnect (sockfd st);
                        SysUsleep RECV_CHECK_INTEVAL; SysConnect (sockfd st)])).
Proof.
  intros Hact Hmiss. split; [| split].
  - intros times_retry. apply recv_raw_loop_zero; [assumption | assumption |].
    reflexivity.
  - intros times_retry Hbelow. now apply recv_raw_loop_fail.
  - rewrite recv_raw_loop_fail by (assumption || (unfold RECONNECT_LIMIT; lia)).
    rewrite recv_raw_loop_fail by (assumption || (unfold RECONNECT_LIMIT; lia)).
    rewrite recv_raw_loop_give_up by (assumption || reflexivity).
    unfold reconnect, emit, set_recv_script. cbn.
    rewrite <- !app_assoc. reflexivity.
Qed.

Lemma recv_raw_reconnect_bound_witness :
  session_active relay_state = true
  /\ to_u32 0 < 4
  /\ recv_raw_loop [RecvFail; RecvFail; RecvFail; RecvAvail 4] relay_state
       quiet_world zero_Message 0 4 0 0
     = Ok (0, zero_Message,
           mkWorld [] [RecvAvail 4] [] [] []
             [SysUsleep 100; SysConnect 3; SysUsleep 100; SysConnect 3]).
Proof.
  assert (Hact : session_active relay_state = true) by reflexivity.
  assert (Hmiss : to_u32 0 < 4) by (vm_compute; reflexivity).
  split; [exact Hact | split; [exact Hmiss |]].
  exact (proj2 (proj2 (recv_raw_reconnect_bound relay_state quiet_world
                         zero_Message 0 4 0 [RecvAvail 4] Hact Hmiss))).
Defined.

(** C6 as it is written fails: of three failed reads in a row only the
    first two are followed by a reconnect attempt; the read gives up after
    two attempts, not three. *)
Lemma recv_raw_third_failure_no_reconnect :
  exists w',
    recv_raw relay_state
      (set_recv_script quiet_world [RecvFail; RecvFail; RecvFail])
      zero_Message 0 4
    = Ok (0, zero_Message, w')
    /\ recv_script w' = []
    /\ connects (log w') = 2%nat
    /\ connects (log w') <> 3%nat.
Proof.
  eexists. split; [vm_compute; reflexivity |].
  repeat split. cbn. discriminate.
Qed.

(** The limit is on failures in a row, not on the reconnect attempts of one
    call: a read of zero bytes starts the count again, and this read
    connects four times and still gets its four bytes. *)
Example recv_raw_four_reconnects :
  exists obj w',
    recv_raw relay_state
      (mkWorld [x01; x02; x03; x04]
         [RecvFail; RecvFail; RecvAvail 0; RecvFail; RecvFail; RecvAvail 9]
         [] [] [] [])
      [x00; x00; x00; x00] 0 4
    = Ok (4, obj, w')
    /\ obj = [x01; x02; x03; x04]
    /\ connects (log w') = 4%nat.
Proof. eexists; eexists. split; [vm_compute; reflexivity |]. split; reflexivity. Qed.

(* ================================================================== *)
(** ** Bytes, [u32] in memory, writes into an object *)

Lemma Z_of_byte_range (b : byte) : 0 <= Z_of_byte b < 256.
Proof.
  unfold Z_of_byte. pose proof (Byte.to_N_bounded b) as H.
  apply N2Z.inj_le in H. change (Z.of_N 255) with 255 in H.
  pose proof (N2Z.is_nonneg (Byte.to_N b)). lia.
Qed.

Lemma Z_of_byte_of_Z (z : Z) : Z_of_byte (byte_of_Z z) = z mod 256.
Proof.
  unfold byte_of_Z, Z_of_byte.
  assert (Hr : 0 <= z mod 256 < 256) by (apply Z.mod_pos_bound; lia).
  destruct (Byte.of_N (Z.to_N (z mod 256))) as [b |] eqn:Hb.
  - apply Byte.to_of_N in Hb. rewrite Hb. apply Z2N.id. lia.
  - apply Byte.of_N_None_iff in Hb. lia.
Qed.

Lemma byte_of_Z_of_byte (b : byte) : byte_of_Z (Z_of_byte b) = b.
Proof.
  unfold byte_of_Z. rewrite Z.mod_small by apply Z_of_byte_range.
  unfold Z_of_byte. rewrite N2Z.id, Byte.of_to_N. reflexivity.
Qed.

Lemma le32_value_bytes (n : Z) : is_u32 n -> le32_value (le32_bytes n) = n.
Proof.
  intros Hn. u32. unfold le32_value, le32_bytes.
  rewrite !Z_of_byte_of_Z. simpl (2 ^ _).
  Z.div_mod_to_equations. lia.
Qed.

Lemma le32_bytes_length (n : Z) : length (le32_bytes n) = 4%nat.
Proof. reflexivity. Qed.

Lemma store_splice (obj : list byte) (off : Z) (bs : list byte) :
  0 <= off -> off + Z.of_nat (length bs) <= Z.of_nat (length obj) ->
  store obj off bs = Ok (splice obj (Z.to_nat off) bs).
Proof.
  intros H0 H1. unfold store, splice.
  apply Z.leb_le in H0, H1. now rewrite H0, H1.
Qed.

Lemma splice_length (obj : list byte) (p : nat) (bs : list byte) :
  (p + length bs <= length obj)%nat ->
  length (splice obj p bs) = length obj.
Proof.
  intros H. unfold splice.
  rewrite !length_app, length_firstn, length_skipn. lia.
Qed.

Lemma splice_nil (obj : list byte) (p : nat) : splice obj p [] = obj.
Proof.
  unfold splice. cbn [length app]. rewrite Nat.add_0_r.
  apply firstn_skipn.
Qed.

Lemma splice_splice (obj : list byte) (p : nat) (a b : list byte) :
  (p + length a + length b <= length obj)%nat ->
  splice (splice obj p a) (p + length a) b = splice obj p (a ++ b).
Proof.
  intros H. unfold splice.
  assert (Hp : length (firstn p obj) = p) by (rewrite length_firstn; lia).
  rewrite (app_assoc (firstn p obj) a).
  rewrite firstn_app.
  replace (p + length a - length (firstn p obj ++ a))%nat with 0%nat
    by (rewrite length_app; lia).
  rewrite firstn_O, app_nil_r.
  rewrite firstn_all2 by (rewrite length_app; lia).
  rewrite skipn_app.
  rewrite (skipn_all2 (firstn p obj ++ a)) by (rewrite length_app; lia).
  rewrite skipn_skipn. cbn [app].
  rewrite <- !app_assoc. do 3 f_equal.
  f_equal. rewrite !length_app, Hp. lia.
Qed.

Lemma firstn_plus_skipn (l : list byte) (i j : nat) :
  firstn i l ++ firstn j (skipn i l) = firstn (i + j) l.
Proof.
  revert l. induction i as [| i IH]; intros l.
  - reflexivity.
  - destruct l as [| x l]; cbn [firstn skipn Nat.add app].
    + now rewrite firstn_nil.
    + now rewrite IH.
Qed.

(* ================================================================== *)
(** ** [recv_raw] on a stream that holds the bytes *)

Lemma after_reads_refl (w : world) : after_reads w w.
Proof.
  unfold after_reads. repeat split. exists []. now rewrite app_nil_r.
Qed.

Lemma after_reads_trans (w1 w2 w3 : world) :
  after_reads w1 w2 -> after_reads w2 w3 -> after_reads w1 w3.
Proof.
  intros (S1 & T1 & W1 & l1 & L1 & F1) (S2 & T2 & W2 & l2 & L2 & F2).
  unfold after_reads. repeat split; try congruence.
  exists (l1 ++ l2). split.
  - rewrite L2, L1. now rewrite app_assoc.
  - rewrite forallb_app, F1, F2. reflexivity.
Qed.

Lemma after_reads_script (w : world) (script : list recv_outcome) :
  after_reads w (set_recv_script w script).
Proof. unfold after_reads. cbn. repeat split. exists []. now rewrite app_nil_r. Qed.

Lemma after_reads_incoming (w : world) (stream : list byte) :
  after_reads w (set_incoming w stream).
Proof. unfold after_reads. cbn. repeat split. exists []. now rewrite app_nil_r. Qed.

Lemma after_reads_wait (w : world) (e : syscall) :
  is_wait e = true -> after_reads w (emit w e).
Proof.
  intros He. unfold after_reads. cbn. repeat split.
  exists [e]. split; [reflexivity |]. cbn. now rewrite He.
Qed.

Lemma sys_recv_data (n : nat) (stream : list byte) (len : Z) (k : nat) :
  len = Z.of_nat k -> (k <= length stream)%nat ->
  sys_recv (RecvAvail n) stream len
  = (Z.of_nat (Nat.min n k), firstn (Nat.min n k) stream,
     skipn (Nat.min n k) stream).
Proof.
  intros -> Hk. unfold sys_recv. rewrite Nat2Z.id.
  rewrite length_firstn. rewrite (Nat.min_l (Nat.min n k)) by lia.
  reflexivity.
Qed.

(** When the script delivers the bytes that are missing, the loop returns
    [length] with these bytes in the object, takes exactly them from the
    stream and leaves the rest of the script. *)
Lemma recv_raw_loop_delivers (t : Z) (k : nat) (script rest : list recv_outcome) :
  delivers t k script rest ->
  forall (st : state) (w : world) (obj : list byte) (off length received : Z),
    session_active st = true ->
    recv_script w = script ->
    0 <= off -> 0 <= received ->
    received + Z.of_nat k = length ->
    length < 2 ^ 32 ->
    off + length <= Z.of_nat (List.length obj) ->
    (k <= List.length (incoming w))%nat ->
    exists w',
      recv_raw_loop script st w obj off length received t
      = Ok (length,
            splice obj (Z.to_nat (off + received)) (firstn k (incoming w)), w')
      /\ incoming w' = skipn k (incoming w)
      /\ recv_script w' = rest
      /\ after_reads w w'.
Proof.
  induction 1 as [t script | t k n script rest D IH | t k script rest D IH
                 | t k script rest Hbelow D IH];
    intros st w obj off length received Hact Hscr Hoff Hrec Hlen Hu32 Hroom Hin.
  - (* nothing is missing *)
    exists w. destruct script; cbn [recv_raw_loop];
      (replace (to_u32 received <? length) with false
        by (symmetry; apply Z.ltb_ge; rewrite to_u32_id; lia));
      rewrite andb_false_r; cbn [firstn skipn]; rewrite splice_nil;
      (split; [f_equal; f_equal; f_equal; lia |]);
      auto using after_reads_refl.
  - (* a read that brings bytes *)
    cbn [recv_raw_loop].
    rewrite recv_raw_loop_enters by (assumption || (rewrite to_u32_id; lia)).
    set (g := Nat.min (S n) (S k)) in *.
    assert (Hg : (1 <= g <= S k)%nat) by (subst g; lia).
    rewrite (sys_recv_data (S n) (incoming w) _ (S k))
      by ((rewrite to_u32_id; lia) || assumption).
    fold g.
    replace (Z.of_nat g <? 0) with false by (symmetry; apply Z.ltb_ge; lia).
    replace (Z.of_nat g =? 0) with false by (symmetry; apply Z.eqb_neq; lia).
    assert (Hgot : List.length (firstn g (incoming w)) = g)
      by (rewrite length_firstn; lia).
    rewrite store_splice by (rewrite ?Hgot; lia).
    cbn [bind].
    set (w1 := set_incoming (set_recv_script w script) (skipn g (incoming w))).
    set (obj1 := splice obj (Z.to_nat (off + received)) (firstn g (incoming w))).
    destruct (IH st w1 obj1 off length (received + Z.of_nat g))
      as (w' & Hrun & Hinc & Hrest & Hafter);
      try assumption; try reflexivity; try lia.
    { subst obj1. rewrite splice_length; rewrite ?Hgot; lia. }
    { subst w1. cbn [incoming set_incoming]. rewrite length_skipn. lia. }
    exists w'. rewrite Hrun. split; [| split; [| split]].
    + f_equal. f_equal. f_equal. subst obj1 w1. cbn [incoming set_incoming].
      replace (Z.to_nat (off + (received + Z.of_nat g)))
        with (Z.to_nat (off + received) + List.length (firstn g (incoming w)))%nat
        by (rewrite Hgot; lia).
      rewrite splice_splice.
      * rewrite firstn_plus_skipn. f_equal. f_equal. lia.
      * rewrite Hgot, length_firstn, length_skipn. lia.
    + rewrite Hinc. subst w1. cbn [incoming set_incoming].
      rewrite skipn_skipn. f_equal. lia.
    + exact Hrest.
    + eapply after_reads_trans; [| exact Hafter].
      subst w1. eapply after_reads_trans;
        [apply after_reads_script | apply after_reads_incoming].
  - (* a read that brings nothing *)
    rewrite recv_raw_loop_zero
      by (assumption || reflexivity || (rewrite to_u32_id; lia)).
    destruct (IH st (emit (set_recv_script w script) (SysUsleep RECV_CHECK_INTEVAL))
                obj off length received)
      as (w' & Hrun & Hinc & Hrest & Hafter);
      try assumption; try reflexivity.
    exists w'. rewrite Hrun.
    split; [reflexivity | split; [assumption | split; [assumption |]]].
    eapply after_reads_trans; [| exact Hafter].
    eapply after_reads_trans;
      [apply after_reads_script | now apply after_reads_wait].
  - (* a failed read *)
    rewrite recv_raw_loop_fail
      by (assumption || (rewrite to_u32_id; lia)).
    destruct (IH st (reconnect st (set_recv_script w script))
                obj off length received)
      as (w' & Hrun & Hinc & Hrest & Hafter);
      try assumption; try reflexivity.
    exists w'. rewrite Hrun.
    split; [reflexivity | split; [assumption | split; [assumption |]]].
    eapply after_reads_trans; [| exact Hafter].
    eapply after_reads_trans; [apply after_reads_script |].
    unfold reconnect.
    eapply after_reads_trans; now apply after_reads_wait.
Qed.

(* ================================================================== *)
(** ** [recv_message] on a frame *)

Lemma frame_length (type : byte) (payload : list byte) :
  length (frame type payload) = (5 + length payload)%nat.
Proof. reflexivity. Qed.

Lemma firstn_exact (a b : list byte) : firstn (length a) (a ++ b) = a.
Proof.
  now rewrite firstn_app, firstn_all, Nat.sub_diag, firstn_O, app_nil_r.
Qed.

Lemma skipn_exact (a b : list byte) : skipn (length a) (a ++ b) = b.
Proof. now rewrite skipn_app, skipn_all, Nat.sub_diag. Qed.

Section FrameInMemory.

Variables (type : byte) (payload : list byte).
Hypothesis payload_cap : (length payload <= Z.to_nat DATA_MAX_LENGTH)%nat.

Let total : Z := Z.of_nat (length payload) + sizeof_u32 + sizeof_u8.

Lemma frame_total_u32 : is_u32 total /\ total = Z.of_nat (length payload) + 5.
Proof.
  change (Z.to_nat DATA_MAX_LENGTH) with 4096%nat in payload_cap.
  subst total. unfold sizeof_u32, sizeof_u8. u32. lia.
Qed.

(** The length field of an object that starts with the four bytes. *)
Lemma msg_length_head (x : list byte) :
  msg_length (le32_bytes total ++ x) = Z.of_nat (length payload) + 5.
Proof.
  destruct frame_total_u32 as [Hu Ht].
  unfold msg_length.
  change (firstn 4 (le32_bytes total ++ x)) with (le32_bytes total).
  rewrite le32_value_bytes by exact Hu. exact Ht.
Qed.

(** An object that starts with the frame. *)
Lemma msg_length_frame (x : list byte) :
  msg_length (frame type payload ++ x) = Z.of_nat (length payload) + 5.
Proof.
  unfold frame. fold total. rewrite <- app_assoc. apply msg_length_head.
Qed.

Lemma msg_type_frame (x : list byte) :
  nth 4 (frame type payload ++ x) x00 = type.
Proof. reflexivity. Qed.

Lemma load_data_frame (x : list byte) :
  length (frame type payload ++ x) = Z.to_nat sizeof_Message ->
  load (frame type payload ++ x) offset_data (Z.of_nat (length payload))
  = Ok payload.
Proof.
  intros Hsize. unfold load. rewrite Hsize.
  change (Z.to_nat DATA_MAX_LENGTH) with 4096%nat in payload_cap.
  replace ((0 <=? offset_data) && (0 <=? Z.of_nat (length payload))
           && (offset_data + Z.of_nat (length payload)
               <=? Z.of_nat (Z.to_nat sizeof_Message))) with true
    by (symmetry; rewrite !andb_true_iff, !Z.leb_le;
        unfold offset_data, sizeof_Message; lia).
  rewrite Nat2Z.id. f_equal.
  change (skipn (Z.to_nat offset_data) (frame type payload ++ x))
    with (payload ++ x).
  apply firstn_exact.
Qed.

End FrameInMemory.

Lemma splice_start (obj bs : list byte) :
  splice obj 0 bs = bs ++ skipn (length bs) obj.
Proof. reflexivity. Qed.

(** [recv_message] on a stream that starts with a frame, with the message
    object it leaves. *)
Lemma recv_message_of_frame (type : byte) (payload : list byte)
    (st : state) (w : world) (message : Message) (tail : list byte)
    (middle rest : list recv_outcome) :
  (length payload <= Z.to_nat DATA_MAX_LENGTH)%nat ->
  running st = true ->
  length message = Z.to_nat sizeof_Message ->
  incoming w = frame type payload ++ tail ->
  delivers 0 4 (recv_script w) middle ->
  delivers 0 (S (length payload)) middle rest ->
  exists w',
    recv_message st w message
    = Ok (true,
          frame type payload ++ skipn (length (frame type payload)) message,
          w')
    /\ incoming w' = tail
    /\ recv_script w' = rest
    /\ after_reads w w'.
Proof.
  intros Hcap Hrun Hsize Hstream Dhead Dbody.
  pose proof (frame_total_u32 payload Hcap) as [Hu32 Htotal].
  assert (Hcap' : (length payload <= 4096)%nat) by exact Hcap.
  assert (Hsize' : length message = 4104%nat) by exact Hsize.
  set (n := length payload) in *.
  set (head := le32_bytes (Z.of_nat n + sizeof_u32 + sizeof_u8)) in *.
  assert (Hframe : frame type payload = head ++ type :: payload)
    by reflexivity.
  assert (Hhead : length head = 4%nat) by reflexivity.
  assert (Hact : session_active st = true)
    by (unfold session_active; now rewrite Hrun).
  destruct (recv_raw_loop_delivers 0 4 (recv_script w) middle Dhead
              st w message 0 sizeof_u32 0)
    as (w1 & Hrun1 & Hinc1 & Hscr1 & Hafter1);
    try assumption; try reflexivity; try (unfold sizeof_u32; lia).
  { rewrite Hstream, length_app, frame_length. lia. }
  rewrite Hstream, Hframe, <- app_assoc in Hrun1, Hinc1.
  change 4%nat with (length head) in Hrun1, Hinc1.
  rewrite firstn_exact in Hrun1. rewrite skipn_exact in Hinc1.
  change (Z.to_nat (0 + 0)) with 0%nat in Hrun1.
  set (message1 := splice message 0 head) in *.
  assert (Hlen1 : msg_length message1 = Z.of_nat n + 5).
  { unfold message1. rewrite splice_start. now apply msg_length_head. }
  assert (Hsize1 : length message1 = 4104%nat).
  { unfold message1. rewrite splice_length; lia. }
  destruct (recv_raw_loop_delivers 0 (S n) middle rest Dbody
              st w1 message1 sizeof_u32 (Z.of_nat (S n)) 0)
    as (w2 & Hrun2 & Hinc2 & Hscr2 & Hafter2);
    try assumption; try reflexivity; try (unfold sizeof_u32; lia).
  { rewrite Hinc1, length_app. cbn [length]. fold n. lia. }
  rewrite Hinc1 in Hrun2, Hinc2.
  change ((type :: payload) ++ tail) with ([type] ++ payload ++ tail)
    in Hrun2, Hinc2.
  rewrite app_assoc in Hrun2, Hinc2.
  change (S n) with (length ([type] ++ payload)) in Hrun2 at 3.
  change (S n) with (length ([type] ++ payload)) in Hinc2.
  rewrite firstn_exact in Hrun2. rewrite skipn_exact in Hinc2.
  change (Z.to_nat (sizeof_u32 + 0)) with (0 + length head)%nat in Hrun2.
  set (message2 := frame type payload
                   ++ skipn (length (frame type payload)) message).
  assert (Hmsg2 : splice message1 (0 + length head) ([type] ++ payload)
                  = message2).
  { unfold message1. rewrite splice_splice by (cbn [length app]; fold n; lia).
    apply splice_start. }
  rewrite Hmsg2 in Hrun2.
  assert (Hlen2 : msg_length message2 = Z.of_nat n + 5)
    by (now apply msg_length_frame).
  exists w2. split; [| split; [| split]].
  - unfold recv_message, recv_raw. rewrite Hrun1. cbn [bind].
    replace (sizeof_u32 <? sizeof_u32) with false by reflexivity.
    rewrite Hrun. cbn [negb orb].
    rewrite Hlen1.
    replace (to_u32 (Z.of_nat n + 5 - sizeof_u32)) with (Z.of_nat (S n))
      by (rewrite to_u32_id; unfold sizeof_u32; lia).
    rewrite Hscr1. rewrite Hrun2. cbn [bind].
    rewrite Hlen2.
    replace (Z.of_nat (S n) + sizeof_u32 =? Z.of_nat n + 5) with true
      by (symmetry; apply Z.eqb_eq; unfold sizeof_u32; lia).
    reflexivity.
  - exact Hinc2.
  - exact Hscr2.
  - eapply after_reads_trans; eassumption.
Qed.

(** X22.  The round trip of a frame on a session that relays.  Take any
    type byte and any payload of at most 4096 bytes, and let the stream of a
    session whose [running] flag is set start with their frame: the length
    field (payload length plus 5) on four bytes, the type, the payload.
    Whatever the content of the message object before, and however the
    reads cut the frame, [recv_message] returns true with an object whose
    length field is the payload length plus 5, whose type is the type, and
    whose data, on the length that the receiver computes, is the payload;
    it takes the frame from the stream and nothing after it. *)
Theorem frame_round_trip (type : byte) (payload : list byte)
    (st : state) (w : world) (message : Message) (tail : list byte)
    (middle rest : list recv_outcome) :
  (length payload <= Z.to_nat DATA_MAX_LENGTH)%nat ->
  running st = true ->
  length message = Z.to_nat sizeof_Message ->
  incoming w = frame type payload ++ tail ->
  delivers 0 4 (recv_script w) middle ->
  delivers 0 (S (length payload)) middle rest ->
  exists message' w',
    recv_message st w message = Ok (true, message', w')
    /\ msg_length message' = Z.of_nat (length payload) + 5
    /\ msg_type message' = Z_of_byte type
    /\ nth 4 message' x00 = type
    /\ load message' offset_data (msg_length message' - sizeof_u32 - sizeof_u8)
       = Ok payload
    /\ incoming w' = tail
    /\ recv_script w' = rest
    /\ after_reads w w'.
Proof.
  intros Hcap Hrun Hsize Hstream Dhead Dbody.
  pose proof (frame_total_u32 payload Hcap) as [Hu32 Htotal].
  assert (Hcap' : (length payload <= 4096)%nat) by exact Hcap.
  assert (Hsize' : length message = 4104%nat) by exact Hsize.
  set (n := length payload) in *.
  set (head := le32_bytes (Z.of_nat n + sizeof_u32 + sizeof_u8)) in *.
  assert (Hframe : frame type payload = head ++ type :: payload)
    by reflexivity.
  assert (Hhead : length head = 4%nat) by reflexivity.
  assert (Hact : session_active st = true)
    by (unfold session_active; now rewrite Hrun).
  (* the length field *)
  destruct (recv_raw_loop_delivers 0 4 (recv_script w) middle Dhead
              st w message 0 sizeof_u32 0)
    as (w1 & Hrun1 & Hinc1 & Hscr1 & Hafter1);
    try assumption; try reflexivity; try (unfold sizeof_u32; lia).
  { rewrite Hstream, length_app, frame_length. lia. }
  rewrite Hstream, Hframe, <- app_assoc in Hrun1, Hinc1.
  change 4%nat with (length head) in Hrun1, Hinc1.
  rewrite firstn_exact in Hrun1. rewrite skipn_exact in Hinc1.
  change (Z.to_nat (0 + 0)) with 0%nat in Hrun1.
  set (message1 := splice message 0 head) in *.
  assert (Hlen1 : msg_length message1 = Z.of_nat n + 5).
  { unfold message1. rewrite splice_start. now apply msg_length_head. }
  assert (Hsize1 : length message1 = 4104%nat).
  { unfold message1. rewrite splice_length; lia. }
  (* the type and the payload *)
  destruct (recv_raw_loop_delivers 0 (S n) middle rest Dbody
              st w1 message1 sizeof_u32 (Z.of_nat (S n)) 0)
    as (w2 & Hrun2 & Hinc2 & Hscr2 & Hafter2);
    try assumption; try reflexivity; try (unfold sizeof_u32; lia).
  { rewrite Hinc1, length_app. cbn [length]. fold n. lia. }
  rewrite Hinc1 in Hrun2, Hinc2.
  change ((type :: payload) ++ tail) with ([type] ++ payload ++ tail)
    in Hrun2, Hinc2.
  rewrite app_assoc in Hrun2, Hinc2.
  change (S n) with (length ([type] ++ payload)) in Hrun2 at 3.
  change (S n) with (length ([type] ++ payload)) in Hinc2.
  rewrite firstn_exact in Hrun2. rewrite skipn_exact in Hinc2.
  change (Z.to_nat (sizeof_u32 + 0)) with (0 + length head)%nat in Hrun2.
  set (message2 := frame type payload
                   ++ skipn (length (frame type payload)) message).
  assert (Hmsg2 : splice message1 (0 + length head) ([type] ++ payload)
                  = message2).
  { unfold message1. rewrite splice_splice by (cbn [length app]; fold n; lia).
    apply splice_start. }
  rewrite Hmsg2 in Hrun2.
  assert (Hlen2 : msg_length message2 = Z.of_nat n + 5)
    by (now apply msg_length_frame).
  assert (Hsize2 : length message2 = Z.to_nat sizeof_Message).
  { unfold message2. rewrite length_app, length_skipn, frame_length.
    change (Z.to_nat sizeof_Message) with 4104%nat. fold n. lia. }
  exists message2, w2.
  split; [| split; [| split; [| split; [| split; [| split; [| split]]]]]].
  - unfold recv_message, recv_raw. rewrite Hrun1. cbn [bind].
    replace (sizeof_u32 <? sizeof_u32) with false by reflexivity.
    rewrite Hrun. cbn [negb orb].
    rewrite Hlen1.
    replace (to_u32 (Z.of_nat n + 5 - sizeof_u32)) with (Z.of_nat (S n))
      by (rewrite to_u32_id; unfold sizeof_u32; lia).
    rewrite Hscr1. rewrite Hrun2. cbn [bind].
    rewrite Hlen2.
    replace (Z.of_nat (S n) + sizeof_u32 =? Z.of_nat n + 5) with true
      by (symmetry; apply Z.eqb_eq; unfold sizeof_u32; lia).
    reflexivity.
  - exact Hlen2.
  - reflexivity.
  - reflexivity.
  - rewrite Hlen2.
    replace (Z.of_nat n + 5 - sizeof_u32 - sizeof_u8) with (Z.of_nat n)
      by (unfold sizeof_u32, sizeof_u8; lia).
    now apply load_data_frame.
  - exact Hinc2.
  - exact Hscr2.
  - eapply after_reads_trans; eassumption.
Qed.

Ltac delivery :=
  repeat first
    [ apply delivers_done
    | apply delivers_zero
    | apply delivers_fail; [unfold RECONNECT_LIMIT; lia |]
    | apply delivers_data; cbn [Nat.min Nat.sub] ].

(** A frame of three bytes, cut by the reads in the middle of the length
    field and again in the payload, with a failed and an empty read on the
    way, and followed on the stream by the start of the next frame. *)
Lemma frame_round_trip_witness :
  exists message' w',
    recv_message relay_state
      (mkWorld (frame x66 [x01; x02; x03] ++ [x09; x00])
         [RecvAvail 2; RecvFail; RecvAvail 0; RecvAvail 9;
          RecvAvail 1; RecvAvail 100; RecvAvail 7] [] [] [] [])
      zero_Message
    = Ok (true, message', w')
    /\ msg_length message' = Z.of_nat (length [x01; x02; x03]) + 5
    /\ msg_type message' = Z_of_byte x66
    /\ nth 4 message' x00 = x66
    /\ load message' offset_data (msg_length message' - sizeof_u32 - sizeof_u8)
       = Ok [x01; x02; x03]
    /\ incoming w' = [x09; x00]
    /\ recv_script w' = [RecvAvail 7]
    /\ after_reads
         (mkWorld (frame x66 [x01; x02; x03] ++ [x09; x00])
            [RecvAvail 2; RecvFail; RecvAvail 0; RecvAvail 9;
             RecvAvail 1; RecvAvail 100; RecvAvail 7] [] [] [] [])
         w'.
Proof.
  apply (frame_round_trip x66 [x01; x02; x03] relay_state
           (mkWorld (frame x66 [x01; x02; x03] ++ [x09; x00])
              [RecvAvail 2; RecvFail; RecvAvail 0; RecvAvail 9;
               RecvAvail 1; RecvAvail 100; RecvAvail 7] [] [] [] [])
           zero_Message [x09; x00]
           [RecvAvail 1; RecvAvail 100; RecvAvail 7] [RecvAvail 7]).
  - apply Nat.leb_le. vm_compute. reflexivity.
  - reflexivity.
  - apply repeat_length.
  - reflexivity.
  - cbn [recv_script]. delivery.
  - cbn [length]. delivery.
Defined.

(** The receive path on a session that awaits its address ([ip_requesting]
    set, [running] clear), for any frame: the four bytes of the length field
    are taken and stored, and [recv_message] returns false there, with the
    type and the payload left on the stream. *)
Lemma recv_message_awaiting (type : byte) (payload : list byte)
    (st : state) (w : world) (message : Message) (tail : list byte)
    (rest : list recv_outcome) :
  running st = false ->
  ip_requesting st = true ->
  length message = Z.to_nat sizeof_Message ->
  incoming w = frame type payload ++ tail ->
  delivers 0 4 (recv_script w) rest ->
  exists w',
    recv_message st w message
    = Ok (false,
          splice message 0
            (le32_bytes (Z.of_nat (length payload) + sizeof_u32 + sizeof_u8)),
          w')
    /\ incoming w' = type :: payload ++ tail
    /\ recv_script w' = rest
    /\ after_reads w w'.
Proof.
  intros Hrun Hreq Hsize Hstream Dhead.
  assert (Hsize' : length message = 4104%nat) by exact Hsize.
  set (head := le32_bytes (Z.of_nat (length payload) + sizeof_u32 + sizeof_u8)).
  assert (Hframe : frame type payload = head ++ type :: payload)
    by reflexivity.
  assert (Hhead : length head = 4%nat) by reflexivity.
  assert (Hact : session_active st = true)
    by (unfold session_active; rewrite Hreq; apply orb_true_r).
  destruct (recv_raw_loop_delivers 0 4 (recv_script w) rest Dhead
              st w message 0 sizeof_u32 0)
    as (w1 & Hrun1 & Hinc1 & Hscr1 & Hafter1);
    try assumption; try reflexivity; try (unfold sizeof_u32; lia).
  { rewrite Hstream, length_app, frame_length. lia. }
  rewrite Hstream, Hframe, <- app_assoc in Hrun1, Hinc1.
  change 4%nat with (length head) in Hrun1, Hinc1.
  rewrite firstn_exact in Hrun1. rewrite skipn_exact in Hinc1.
  change (Z.to_nat (0 + 0)) with 0%nat in Hrun1.
  exists w1. split; [| split; [| split]]; try assumption.
  unfold recv_message, recv_raw. rewrite Hrun1. cbn [bind].
  rewrite Hrun. cbn [negb]. now rewrite orb_true_r.
Qed.

(** C1, on the code.  The round trip of a frame fails on the receive path of
    a session that awaits its address: [ip_requesting] is set, [running] is
    clear, the stream holds the frame of type 101 with the address 10.0.0.2
    and the reads bring all of it.  [recv_message] takes the four bytes of
    the length field, stores 14 in the object and returns false: the type
    and the payload stay on the stream, and the type and the data of the
    object are as they were.  It stops on its test of [!running], although
    [recv_raw] lets the reads of such a session through.  With [running]
    set, the same call on the same stream gives back the type and the
    payload. *)
Theorem frame_not_decoded_awaiting_address :
  recv_message awaiting_state
    (mkWorld (frame x65 address_10_0_0_2) [RecvAvail 64; RecvAvail 64]
       [] [] [] [])
    zero_Message
  = Ok (false, le32_bytes 14 ++ skipn 4 zero_Message,
        mkWorld (x65 :: address_10_0_0_2) [RecvAvail 64] [] [] [] [])
  /\ msg_type (le32_bytes 14 ++ skipn 4 zero_Message) <> Z_of_byte x65
  /\ recv_message (set_running awaiting_state true)
       (mkWorld (frame x65 address_10_0_0_2) [RecvAvail 64; RecvAvail 64]
          [] [] [] [])
       zero_Message
     = Ok (true, frame x65 address_10_0_0_2 ++ skipn 14 zero_Message,
           mkWorld [] [] [] [] [] [])
  /\ load (frame x65 address_10_0_0_2 ++ skipn 14 zero_Message) offset_data 9
     = Ok address_10_0_0_2.
Proof.
  split; [vm_compute; reflexivity |].
  split; [vm_compute; discriminate |].
  split; vm_compute; reflexivity.
Qed.

(** The largest payload goes through as well. *)
Example frame_round_trip_full_payload :
  exists message' w',
    recv_message relay_state
      (mkWorld (frame x67 (repeat xaa 4096))
         [RecvAvail 4; RecvAvail 5000] [] [] [] [])
      zero_Message
    = Ok (true, message', w')
    /\ msg_length message' = 4101
    /\ msg_data message' = repeat xaa 4096
    /\ incoming w' = [].
Proof.
  eexists; eexists. split; [vm_compute; reflexivity |].
  split; [| split]; vm_compute; reflexivity.
Qed.

(** A length field beyond the message object sends the read past its end:
    the cap on the payload is what keeps [recv_message] defined. *)
Example recv_message_oversized :
  recv_message relay_state
    (mkWorld (le32_bytes 5000 ++ repeat xaa 4996)
       [RecvAvail 4; RecvAvail 5000] [] [] [] [])
    zero_Message
  = Undefined.
Proof. vm_compute. reflexivity. Qed.

(** The two constant messages go on the wire as the frames of their types
    with no payload. *)
Example constant_messages_on_the_wire :
  load heartbeat 0 (msg_length heartbeat) = Ok (frame x68 [])
  /\ load ip_request 0 (msg_length ip_request) = Ok (frame x64 []).
Proof. split; reflexivity. Qed.

(* ================================================================== *)
(** ** [request] *)

Lemma ends_with_bind {A B : Type} (r : result A) (k : A -> result B)
    (P : B -> Prop) :
  ends_with r (fun a => ends_with (k a) P) -> ends_with (bind r k) P.
Proof. destruct r; cbn; auto. Qed.

Lemma ends_with_weaken {A : Type} (r : result A) (P Q : A -> Prop) :
  (forall a, P a -> Q a) -> ends_with r P -> ends_with r Q.
Proof. destruct r; cbn; auto. Qed.

Lemma store_ends (obj : list byte) (off : Z) (bs : list byte) :
  ends_with (store obj off bs) (fun _ => True).
Proof. unfold store. now destruct (_ && _). Qed.

Lemma load_ends (obj : list byte) (off len : Z) :
  ends_with (load obj off len) (fun _ => True).
Proof. unfold load. now destruct (_ && _). Qed.

Lemma c_string_ends (bs : list byte) : ends_with (c_string bs) (fun _ => True).
Proof.
  induction bs as [| b bs IH]; cbn [c_string]; [exact I |].
  destruct (Byte.eqb b x00); [exact I |].
  apply ends_with_bind. eapply ends_with_weaken; [| exact IH]. now cbn.
Qed.

(** [recv_raw] aborts nowhere and needs no iteration bound. *)
Lemma recv_raw_loop_ends (script : list recv_outcome) :
  forall st w obj off length received times_retry,
    ends_with (recv_raw_loop script st w obj off length received times_retry)
      (fun _ => True).
Proof.
  induction script as [| ev script IH]; intros; cbn [recv_raw_loop].
  - now destruct (_ && _).
  - destruct (_ && _); [| exact I].
    destruct (sys_recv ev (incoming w) (to_u32 (length - received)))
      as [[single got] stream].
    destruct (single <? 0).
    + destruct (times_retry + 1 =? RECONNECT_LIMIT); [exact I | apply IH].
    + destruct (single =? 0); [apply IH |].
      apply ends_with_bind.
      eapply ends_with_weaken; [| apply store_ends]. intros; apply IH.
Qed.

Lemma recv_message_ends (st : state) (w : world) (message : Message) :
  ends_with (recv_message st w message) (fun _ => True).
Proof.
  unfold recv_message, recv_raw. apply ends_with_bind.
  eapply ends_with_weaken; [| apply recv_raw_loop_ends].
  intros [[size message1] w1] _. destruct (_ || _); [exact I |].
  apply ends_with_bind.
  eapply ends_with_weaken; [| apply recv_raw_loop_ends].
  now intros [[size2 message2] w2] _.
Qed.

Lemma send_raw_ends (st : state) (w : world) (ptr : list byte) (length : Z) :
  ends_with (send_raw st w ptr length) (fun _ => True).
Proof.
  unfold send_raw. destruct (_ && _); [exact I |].
  apply ends_with_bind.
  eapply ends_with_weaken; [| apply load_ends].
  intros bytes _. destruct (send_script w); [exact I |].
  now destruct (_ <? _).
Qed.

(** Before the relay is started [recv_message] returns false, whatever is
    on the stream. *)
Lemma recv_message_before_relay (st : state) (w : world) (message : Message) :
  running st = false ->
  ends_with (recv_message st w message) (fun r => fst (fst r) = false).
Proof.
  intros Hrun. unfold recv_message. apply ends_with_bind.
  eapply ends_with_weaken; [| apply recv_raw_loop_ends].
  intros [[size message1] w1] _. rewrite Hrun. cbn [negb].
  now rewrite orb_true_r.
Qed.

Lemma no_reply_before_relay (st : state) (w : world) (message : Message)
    (elapsed : Z) :
  running st = false -> ~ reply_taken st w message elapsed.
Proof.
  intros Hrun Htaken.
  assert (Hfalse : forall w message message' w',
             recv_message st w message <> Ok (true, message', w')).
  { intros w0 m0 m1 w1 Heq.
    pose proof (recv_message_before_relay st w0 m0 Hrun) as H.
    rewrite Heq in H. discriminate H. }
  destruct Htaken as [? ? ? ? ? _ Heq _ | ? ? ? ? ? _ Heq _ _];
    exact (Hfalse _ _ _ _ Heq).
Qed.

Lemma request_give_up_given_up (st : state) (w : world) :
  ends_with (request_give_up st w) (given_up st).
Proof.
  cbn. split; [reflexivity | split; [reflexivity |]].
  now exists (log w).
Qed.

(** The loop of [request], when no reply is taken: with fuel for the turns
    that are left it gives up. *)
Lemma request_loop_no_reply (fuel : nat) :
  forall st w message elapsed,
    0 <= elapsed ->
    REQUEST_TIMEOUT_USEC - elapsed
    <= REQUEST_CHECK_INTERVAL_USEC * Z.of_nat fuel ->
    ~ reply_taken st w message elapsed ->
    ends_with (request_loop fuel st w message elapsed) (given_up st).
Proof.
  induction fuel as [| fuel IH]; intros st w message elapsed Hpos Hfuel Hnone;
    cbn [request_loop];
    destruct (Z.ltb_spec elapsed REQUEST_TIMEOUT_USEC) as [Hlt | Hge];
    try apply request_give_up_given_up.
  - unfold REQUEST_TIMEOUT_USEC, REQUEST_CHECK_INTERVAL_USEC in *. lia.
  - apply ends_with_bind.
    pose proof (recv_message_ends st w message) as Hends.
    destruct (recv_message st w message) as [[[ok message'] w'] | | | |] eqn:Hrecv;
      try exact Hends.
    cbn [ends_with]. destruct ok; cbn [negb].
    + destruct (Z.eqb_spec (msg_type message') IP_REPLY) as [Hreply | Hother].
      * exfalso. apply Hnone. eapply reply_now; eassumption.
      * apply IH.
        -- apply to_u32_range.
        -- rewrite to_u32_id
             by (unfold REQUEST_TIMEOUT_USEC, REQUEST_CHECK_INTERVAL_USEC in *;
                 lia).
           unfold REQUEST_TIMEOUT_USEC, REQUEST_CHECK_INTERVAL_USEC in *. lia.
        -- intros Hlater. apply Hnone. eapply reply_later; eassumption.
    + apply request_give_up_given_up.
Qed.

(** [request] on an open socket when no reply is taken. *)
Lemma request_no_reply (st : state) (w : world) (message : Message) :
  sockfd st <> -1 ->
  (forall r w1,
      send_ip_request (set_ip_requesting st true) w = Ok (r, w1) ->
      ~ reply_taken (set_ip_requesting st true) w1 message 0) ->
  ends_with (request st w message) (given_up st).
Proof.
  intros Hopen Hnone. unfold request.
  apply Z.eqb_neq in Hopen. rewrite Hopen.
  apply ends_with_bind.
  pose proof (send_raw_ends (set_ip_requesting st true) w ip_request
                (msg_length ip_request)) as Hends.
  fold (send_ip_request (set_ip_requesting st true) w) in Hends.
  destruct (send_ip_request (set_ip_requesting st true) w)
    as [[r w1] | | | |] eqn:Hsend; try exact Hends.
  cbn [ends_with].
  eapply ends_with_weaken;
    [| apply request_loop_no_reply;
       [lia | vm_compute; discriminate | exact (Hnone r w1 eq_refl)]].
  intros [[s st'] w'] (Hs & Hst & Hlog).
  split; [exact Hs | split; [exact Hst | exact Hlog]].
Qed.







(** A peer that stays silent: the three reads fail and [request] gives up
    at its first turn. *)
Example request_silent_peer :
  request opened_state
    (mkWorld [] [RecvFail; RecvFail; RecvFail] [5] [] [] []) zero_Message
  = Ok (EmptyString, mkState (-1) (-1) 0 0 0 0 0 false false,
        mkWorld [] [] [] [] []
          [SysSend 3 [x05; x00; x00; x00; x64] 5;
           SysUsleep 100; SysConnect 3; SysUsleep 100; SysConnect 3;
           SysShutdown 3]).
Proof. vm_compute. reflexivity. Qed.

(** A peer that sends heartbeats only, to a session that relays: every turn
    takes one frame and sleeps; after 400 turns [elapsed] is 2,000,000 and
    [request] gives up, leaving the 401st frame on the stream. *)
Example request_times_out_after_400_frames :
  exists w',
    request relay_state
      (mkWorld (concat (repeat (frame x68 []) 401))
         (repeat (RecvAvail 8) 900) [5] [] [] [])
      zero_Message
    = Ok (EmptyString, mkState (-1) 7 0 0 0 0 0 true false, w')
    /\ incoming w' = frame x68 []
    /\ length (recv_script w') = 100%nat
    /\ length (filter (fun e => match e with
                                | SysUsleep 5000 => true
                                | _ => false
                                end) (log w')) = 400%nat
    /\ last (log w') (SysUsleep 0) = SysShutdown 3.
Proof.
  eexists. split; [vm_compute; reflexivity |].
  repeat split; vm_compute; reflexivity.
Qed.

(** Before the relay is started ([running] is false) [request] takes no
    reply at all: it can only give up. *)
Lemma request_before_relay (st : state) (w : world) (message : Message) :
  sockfd st <> -1 ->
  running st = false ->
  ends_with (request st w message) (given_up st).
Proof.
  intros Hopen Hrun. apply request_no_reply; [exact Hopen |].
  intros r w1 _. now apply no_reply_before_relay.
Qed.

(** And it does give up as soon as [send] has a result scripted and the
    read of the length field ends. *)
Lemma request_before_relay_result (st : state) (w : world) (message : Message)
    (sent : Z) (rest : list Z) (size : Z) (message1 : Message) (w1 : world) :
  sockfd st <> -1 ->
  running st = false ->
  send_script w = sent :: rest ->
  recv_raw (set_ip_requesting st true)
    (emit (set_send_script w rest)
       (SysSend (sockfd st) (frame x64 []) sent))
    message 0 sizeof_u32
  = Ok (size, message1, w1) ->
  request st w message
  = Ok (EmptyString, set_sockfd (set_ip_requesting st false) (-1),
        emit w1 (SysShutdown (sockfd st))).
Proof.
  intros Hopen Hrun Hsend Hrecv. unfold request.
  apply Z.eqb_neq in Hopen. rewrite Hopen.
  unfold send_ip_request, send_raw.
  cbn [running ip_requesting set_ip_requesting negb andb].
  rewrite andb_false_r.
  change (load ip_request 0 (msg_length ip_request)) with (Ok (frame x64 [])).
  cbn [bind]. rewrite Hsend.
  change (sockfd (set_ip_requesting st true)) with (sockfd st).
  assert (Hloop : request_loop request_turns (set_ip_requesting st true)
                    (emit (set_send_script w rest)
                       (SysSend (sockfd st) (frame x64 []) sent))
                    message 0
                  = Ok (EmptyString,
                        set_sockfd (set_ip_requesting st false) (-1),
                        emit w1 (SysShutdown (sockfd st)))).
  { change request_turns with (S (pred request_turns)).
    cbn [request_loop]. change (0 <? REQUEST_TIMEOUT_USEC) with true.
    unfold recv_message. rewrite Hrecv. cbn [bind].
    change (running (set_ip_requesting st true)) with (running st).
    rewrite Hrun. cbn [negb]. rewrite orb_true_r. reflexivity. }
  destruct (to_u32 sent <? msg_length ip_request); cbn [bind]; exact Hloop.
Qed.

(** C2, on the code.  The socket is open, the relay is not started, the
    request is sent, and the reply frame with the address 10.0.0.2 is on the
    stream, in good time.  [request] reads its length field, stops there,
    returns the empty string and closes the session: [recv_message] returns
    false on [!running] although [recv_raw] lets the reads through on
    [ip_requesting].  The same stream on a session with [running] set gives
    the address. *)
Theorem request_drops_reply_before_relay :
  request opened_state
    (mkWorld (frame x65 address_10_0_0_2) [RecvAvail 64; RecvAvail 64] [5]
       [] [] [])
    zero_Message
  = Ok (EmptyString, mkState (-1) (-1) 0 0 0 0 0 false false,
        mkWorld (x65 :: address_10_0_0_2) [RecvAvail 64] [] [] []
          [SysSend 3 [x05; x00; x00; x00; x64] 5; SysShutdown 3])
  /\ request relay_state
       (mkWorld (frame x65 address_10_0_0_2) [RecvAvail 64; RecvAvail 64] [5]
          [] [] [])
       zero_Message
     = Ok ("10.0.0.2"%string, relay_state,
           mkWorld [] [] [] [] [] [SysSend 3 [x05; x00; x00; x00; x64] 5]).
Proof. split; vm_compute; reflexivity. Qed.

(* ================================================================== *)
(** ** [tik] *)

Lemma prettySize_defined (size : Z) :
  is_u32 size ->
  exists s, prettySize size = Ok s /\ (String.length s <= 19)%nat.
Proof.
  intros Hsize.
  destruct (prettySize_loop size Hsize) as (value & count & Hloop & Hc & _).
  destruct (size_units_named count Hc) as (unit & Hunit & Hshort).
  exists (print_d value ++ " " ++ unit ++ newline)%string. split.
  - unfold prettySize, pretty. rewrite Hloop. cbn [bind]. rewrite Hunit.
    apply pretty_line_fits. lia.
  - pose proof (pretty_line_length value unit). lia.
Qed.

(** The loop of [prettyTime]: one division at most. *)
Lemma prettyTime_loop (time : Z) :
  pretty_loop (Z.to_nat 2) time 60 0 2
  = Ok (if time <=? 60 then (time, 0) else (to_u32 (time / 60), 1)).
Proof.
  change (Z.to_nat 2) with 2%nat.
  destruct (Z.leb_spec time 60) as [Hshort | Hlong].
  - now rewrite pretty_loop_end by lia.
  - rewrite pretty_loop_turn by lia. now rewrite pretty_loop_end by lia.
Qed.

Lemma prettyTime_defined (time : Z) :
  exists s, prettyTime time = Ok s /\ (String.length s <= 19)%nat.
Proof.
  unfold prettyTime, pretty. rewrite prettyTime_loop.
  destruct (time <=? 60); cbn [bind];
    [change (Z.to_nat 0) with 0%nat | change (Z.to_nat 1) with 1%nat];
    cbn [nth_error time_units].
  - exists (print_d time ++ " " ++ "s" ++ newline)%string. split.
    + apply pretty_line_fits. cbn. lia.
    + pose proof (pretty_line_length time "s"). cbn [String.length] in *. lia.
  - exists (print_d (to_u32 (time / 60)) ++ " " ++ "min(s)" ++ newline)%string.
    split.
    + apply pretty_line_fits. cbn. lia.
    + pose proof (pretty_line_length (to_u32 (time / 60)) "min(s)").
      cbn [String.length] in *. lia.
Qed.

Section Tick.

Variables (st : state) (w : world).

Hypothesis open_socket : sockfd st <> -1.
Hypothesis relaying : running st = true.

Let connected : Z := to_u32 (time_connected st + 1).
Let gap : Z := to_u32 (connected - time_last_heartbeat st).

Lemma tik_enters : (sockfd st =? -1) || negb (running st) = false.
Proof.
  apply Z.eqb_neq in open_socket. now rewrite open_socket, relaying.
Qed.

(** The tick that finds the session stale. *)
Lemma tik_stale :
  60 < gap ->
  tik st w
  = Ok (EmptyString, set_running (set_time_connected st connected) false, w).
Proof.
  intros Hstale. unfold tik. rewrite tik_enters.
  cbn [time_connected time_last_heartbeat set_time_connected].
  fold connected. fold gap.
  apply Z.gtb_lt in Hstale. now rewrite Hstale.
Qed.

(** A tick that finds it alive, and what is true of whatever the tick
    returns. *)
Lemma tik_alive_inv (s : string) (st' : state) (w' : world) :
  gap <= 60 ->
  tik st w = Ok (s, st', w') ->
  st' = set_time_send_heartbeat (set_time_connected st connected)
          (next_send_count (time_send_heartbeat st))
  /\ s <> EmptyString
  /\ (if to_u32 (time_send_heartbeat st + 1) =? 20
      then exists sent rest,
          send_script w = sent :: rest
          /\ w' = emit (set_send_script w rest)
                    (SysSend (sockfd st) (frame x68 []) sent)
      else w' = w).
Proof.
  intros Halive. unfold tik. rewrite tik_enters.
  cbn [time_connected time_last_heartbeat set_time_connected].
  fold connected. fold gap.
  replace (gap >? 60) with false
    by (symmetry; rewrite Z.gtb_ltb; apply Z.ltb_ge; lia).
  change (time_send_heartbeat (set_time_connected st connected))
    with (time_send_heartbeat st).
  change (time_send_heartbeat
            (set_time_send_heartbeat (set_time_connected st connected)
               (to_u32 (time_send_heartbeat st + 1))))
    with (to_u32 (time_send_heartbeat st + 1)).
  unfold next_send_count.
  destruct (to_u32 (time_send_heartbeat st + 1) =? 20) eqn:Hcount.
  - unfold send_heartbeat, send_raw.
    cbn [running ip_requesting set_time_send_heartbeat set_time_connected
         sockfd].
    rewrite relaying. cbn [negb andb].
    change (load heartbeat 0 (msg_length heartbeat)) with (Ok (frame x68 [])).
    cbn [bind].
    destruct (send_script w) as [| sent rest];
      [cbn [bind]; intros Heq; discriminate Heq |].
    intros Heq.
    assert (Hw : exists r,
               (if to_u32 sent <? msg_length heartbeat
                then Ok (-1, emit (set_send_script w rest)
                               (SysSend (sockfd st) (frame x68 []) sent))
                else Ok (sent, emit (set_send_script w rest)
                                 (SysSend (sockfd st) (frame x68 []) sent)))
               = Ok (r, emit (set_send_script w rest)
                          (SysSend (sockfd st) (frame x68 []) sent)))
      by (destruct (to_u32 sent <? msg_length heartbeat); eauto).
    destruct Hw as (r & Hw). rewrite Hw in Heq. cbn [bind] in Heq.
    revert Heq. cbn [bytes_sent bytes_recv time_connected
                     set_time_send_heartbeat set_time_connected].
    destruct (prettySize (bytes_sent st));
      try (cbn [bind]; intros Heq; discriminate Heq).
    destruct (prettySize (bytes_recv st));
      try (cbn [bind]; intros Heq; discriminate Heq).
    destruct (prettyTime connected);
      try (cbn [bind]; intros Heq; discriminate Heq).
    cbn [bind]. destruct (sprintf _ _) as [str | | | |] eqn:Hfit;
      try (cbn [bind]; intros Heq; discriminate Heq).
    apply sprintf_inv in Hfit. subst str.
    cbn [bind]. intros Heq. injection Heq as <- <- <-.
    split; [reflexivity | split; [discriminate | eauto]].
  - cbn [bind bytes_sent bytes_recv time_connected
         set_time_send_heartbeat set_time_connected].
    destruct (prettySize (bytes_sent st));
      try (cbn [bind]; intros Heq; discriminate Heq).
    destruct (prettySize (bytes_recv st));
      try (cbn [bind]; intros Heq; discriminate Heq).
    destruct (prettyTime connected);
      try (cbn [bind]; intros Heq; discriminate Heq).
    cbn [bind]. destruct (sprintf _ _) as [str | | | |] eqn:Hfit;
      try (cbn [bind]; intros Heq; discriminate Heq).
    apply sprintf_inv in Hfit. subst str.
    cbn [bind]. intros Heq. injection Heq as <- <- <-.
    split; [reflexivity | split; [discriminate | reflexivity]].
Qed.

End Tick.

(** A tick on a session that is alive returns, as soon as a result is
    scripted for the [send] it may make. *)
Lemma tik_alive_returns (st : state) (w : world) :
  sockfd st <> -1 ->
  running st = true ->
  to_u32 (to_u32 (time_connected st + 1) - time_last_heartbeat st) <= 60 ->
  is_u32 (bytes_sent st) ->
  is_u32 (bytes_recv st) ->
  (to_u32 (time_send_heartbeat st + 1) = 20 -> send_script w <> []) ->
  exists s st' w', tik st w = Ok (s, st', w').
Proof.
  intros Hopen Hrun Halive Hsent Hrecv Hscript.
  destruct (prettySize_defined _ Hsent) as (s1 & Hs1 & Hl1).
  destruct (prettySize_defined _ Hrecv) as (s2 & Hs2 & Hl2).
  destruct (prettyTime_defined (to_u32 (time_connected st + 1)))
    as (s3 & Hs3 & Hl3).
  assert (Hfit : sprintf PRINT_BUFFER_LENGTH
                   ("Sent: " ++ s1 ++ newline ++ "Received: " ++ s2
                    ++ newline ++ "Time connected: " ++ s3)%string
                 = Ok ("Sent: " ++ s1 ++ newline ++ "Received: " ++ s2
                       ++ newline ++ "Time connected: " ++ s3)%string).
  { apply sprintf_fits. rewrite !string_length_append.
    cbn [String.length newline]. unfold PRINT_BUFFER_LENGTH. lia. }
  unfold tik. rewrite (tik_enters st Hopen Hrun).
  cbn [time_connected time_last_heartbeat set_time_connected].
  replace (_ >? 60) with false
    by (symmetry; rewrite Z.gtb_ltb; apply Z.ltb_ge; lia).
  change (time_send_heartbeat
            (set_time_connected st (to_u32 (time_connected st + 1))))
    with (time_send_heartbeat st).
  change (time_send_heartbeat
            (set_time_send_heartbeat
               (set_time_connected st (to_u32 (time_connected st + 1)))
               (to_u32 (time_send_heartbeat st + 1))))
    with (to_u32 (time_send_heartbeat st + 1)).
  destruct (Z.eqb_spec (to_u32 (time_send_heartbeat st + 1)) 20) as [H20 | H20].
  - unfold send_heartbeat, send_raw.
    cbn [running ip_requesting set_time_send_heartbeat set_time_connected].
    rewrite Hrun. cbn [negb andb].
    change (load heartbeat 0 (msg_length heartbeat)) with (Ok (frame x68 [])).
    cbn [bind]. destruct (send_script w) as [| sent rest];
      [now destruct (Hscript H20) |].
    destruct (to_u32 sent <? msg_length heartbeat); cbn [bind];
      cbn [bytes_sent bytes_recv time_connected set_time_send_heartbeat
           set_time_connected];
      rewrite Hs1, Hs2, Hs3; cbn [bind]; rewrite Hfit; cbn [bind]; eauto.
  - cbn [bind bytes_sent bytes_recv time_connected set_time_send_heartbeat
         set_time_connected].
    rewrite Hs1, Hs2, Hs3. cbn [bind]. rewrite Hfit. cbn [bind]. eauto.
Qed.

(** C10.  On the tick that finds the session stale, [tik] returns the empty
    string; the globals change by [time_connected], which is incremented,
    and [running], which is cleared, and by nothing else: the heartbeat-send
    counter, the socket handle and the byte counters are as before; the
    world is as before, so no heartbeat is sent and no other call is made. *)
Theorem tik_stale_frame (st : state) (w : world) :
  sockfd st <> -1 ->
  running st = true ->
  60 < to_u32 (to_u32 (time_connected st + 1) - time_last_heartbeat st) ->
  exists st',
    tik st w = Ok (EmptyString, st', w)
    /\ st' = mkState (sockfd st) (tunfd st) (to_u32 (time_connected st + 1))
               (time_last_heartbeat st) (time_send_heartbeat st)
               (bytes_sent st) (bytes_recv st) false (ip_requesting st).
Proof.
  intros Hopen Hrun Hstale.
  eexists. split; [now apply tik_stale | reflexivity].
Qed.

Lemma tik_stale_frame_witness :
  exists st',
    tik (mkState 3 7 75 10 13 5000 7000 true false) quiet_world
    = Ok (EmptyString, st', quiet_world)
    /\ st' = mkState 3 7 76 10 13 5000 7000 false false.
Proof.
  apply (tik_stale_frame (mkState 3 7 75 10 13 5000 7000 true false)
           quiet_world).
  - discriminate.
  - reflexivity.
  - vm_compute. reflexivity.
Defined.

(** C3 (amended).  Take an active session whose last heartbeat is at 0.  A
    tick that finds [time_connected] at 60 or more, 61 for one, terminates
    the session by clearing [running]; it makes no call, so the socket is
    not shut down, and [sockfd] keeps its value.  A tick that finds it at 59
    or less does not terminate it: [running] stays set and the status
    report is returned. *)
Theorem tik_staleness_threshold (st : state) (w : world) :
  sockfd st <> -1 ->
  running st = true ->
  time_last_heartbeat st = 0 ->
  0 <= time_connected st < 2 ^ 32 - 1 ->
  (60 <= time_connected st ->
   exists st',
     tik st w = Ok (EmptyString, st', w)
     /\ running st' = false /\ sockfd st' = sockfd st)
  /\ (time_connected st <= 59 ->
      is_u32 (bytes_sent st) ->
      is_u32 (bytes_recv st) ->
      (to_u32 (time_send_heartbeat st + 1) = 20 -> send_script w <> []) ->
      exists s st' w',
        tik st w = Ok (s, st', w')
        /\ s <> EmptyString /\ running st' = true /\ sockfd st' = sockfd st).
Proof.
  intros Hopen Hrun Hlast Hconn.
  change (2 ^ 32) with 4294967296 in Hconn.
  assert (Hgap : to_u32 (to_u32 (time_connected st + 1) - time_last_heartbeat st)
                 = time_connected st + 1).
  { rewrite Hlast, Z.sub_0_r.
    rewrite (to_u32_id (time_connected st + 1))
      by (change (2 ^ 32) with 4294967296; lia).
    apply to_u32_id. change (2 ^ 32) with 4294967296. lia. }
  split.
  - intros Hold. eexists. split; [apply tik_stale; try assumption; lia |].
    split; reflexivity.
  - intros Hyoung Hsent Hrecv Hscript.
    destruct (tik_alive_returns st w) as (s & st' & w' & Htik);
      try assumption; try lia.
    destruct (tik_alive_inv st w Hopen Hrun s st' w') as (Hst & Hs & _);
      try assumption; try lia.
    exists s, st', w'. subst st'.
    split; [exact Htik | split; [exact Hs | split; [exact Hrun | reflexivity]]].
Qed.

Lemma tik_staleness_threshold_witness :
  (exists st',
      tik (mkState 3 7 61 0 1 0 0 true false) quiet_world
      = Ok (EmptyString, st', quiet_world)
      /\ running st' = false /\ sockfd st' = 3)
  /\ (exists s st' w',
         tik (mkState 3 7 59 0 19 0 0 true false)
           (set_send_script quiet_world [5])
         = Ok (s, st', w')
         /\ s <> EmptyString /\ running st' = true /\ sockfd st' = 3).
Proof.
  split.
  - apply (proj1 (tik_staleness_threshold (mkState 3 7 61 0 1 0 0 true false)
                    quiet_world ltac:(discriminate) eq_refl eq_refl
                    ltac:(cbn; lia))).
    cbn. lia.
  - apply (proj2 (tik_staleness_threshold (mkState 3 7 59 0 19 0 0 true false)
                    (set_send_script quiet_world [5]) ltac:(discriminate)
                    eq_refl eq_refl ltac:(cbn; lia))).
    + cbn. lia.
    + unfold is_u32, u32_modulus. cbn. lia.
    + unfold is_u32, u32_modulus. cbn. lia.
    + intros _. discriminate.
Defined.

(** C3 as it is written fails twice.  With [time_connected] at 60 before
    the tick the session is terminated, since the counter is incremented
    before it is compared; and the tick that terminates the session, at 61,
    leaves the socket open: it makes no call and [sockfd] is still 3. *)
Lemma tik_at_60_stops_and_socket_stays_open :
  (exists st',
      tik (mkState 3 7 60 0 1 0 0 true false) quiet_world
      = Ok (EmptyString, st', quiet_world)
      /\ running st' = false)
  /\ (exists st',
         tik (mkState 3 7 61 0 1 0 0 true false) quiet_world
         = Ok (EmptyString, st', quiet_world)
         /\ running st' = false
         /\ sockfd st' = 3 /\ sockfd st' <> -1
         /\ log quiet_world = []).
Proof.
  split; eexists; (split; [vm_compute; reflexivity |]); cbn; repeat split;
    discriminate.
Qed.

(** The socket is closed by [backend], once both threads have ended. *)
Example backend_finish_closes :
  backend_finish (mkState 3 7 62 0 1 0 0 false false) quiet_world
  = (mkState (-1) 7 62 0 1 0 0 false false,
     mkWorld [] [] [] [] [] [SysShutdown 3]).
Proof. reflexivity. Qed.

(* ================================================================== *)
(** ** [send_thread] *)

(** Nothing read from the tun: nothing is sent and no counter changes. *)
Lemma send_thread_body_nothing (st : state) (w : world)
    (rest : list tun_outcome) :
  tun_script w = TunPacket [] :: rest ->
  send_thread_body st w = Ok (st, set_tun_script w rest).
Proof. intros Hscript. unfold send_thread_body. now rewrite Hscript. Qed.

(** The message object that [send_thread] builds around a packet. *)
Lemma send_thread_message (packet : list byte) :
  (length packet <= Z.to_nat DATA_MAX_LENGTH)%nat ->
  exists padding,
    store zero_Message offset_data packet
    = Ok (repeat x00 5 ++ packet ++ padding)
    /\ set_msg_type
         (set_msg_length (repeat x00 5 ++ packet ++ padding)
            (to_u32 (to_u32 (Z.of_nat (length packet)) + sizeof_u32 + sizeof_u8)))
         NET_REQUEST
       = frame x66 packet ++ padding
    /\ length (frame x66 packet ++ padding) = Z.to_nat sizeof_Message.
Proof.
  intros Hcap. change (Z.to_nat DATA_MAX_LENGTH) with 4096%nat in Hcap.
  assert (Hzero : length zero_Message = 4104%nat) by apply repeat_length.
  exists (skipn (5 + length packet) zero_Message). split; [| split].
  - rewrite store_splice by (unfold offset_data; lia).
    unfold splice. change (Z.to_nat offset_data) with 5%nat.
    change (firstn 5 zero_Message) with (repeat x00 5). reflexivity.
  - rewrite (to_u32_id (Z.of_nat (length packet)))
      by (change (2 ^ 32) with 4294967296; lia).
    rewrite to_u32_id
      by (unfold sizeof_u32, sizeof_u8; change (2 ^ 32) with 4294967296; lia).
    reflexivity.
  - rewrite length_app, frame_length, length_skipn, Hzero.
    change (Z.to_nat sizeof_Message) with 4104%nat. lia.
Qed.

(** A packet read from the tun: one [send] of its [NET_REQUEST] frame, and
    the length of the frame added to [bytes_sent]. *)
Lemma send_thread_body_packet (st : state) (w : world) (packet : list byte)
    (rest : list tun_outcome) (sent : Z) (results : list Z) :
  session_active st = true ->
  tun_script w = TunPacket packet :: rest ->
  (0 < length packet <= Z.to_nat DATA_MAX_LENGTH)%nat ->
  send_script w = sent :: results ->
  send_thread_body st w
  = Ok (set_bytes_sent st
          (to_u32 (bytes_sent st + (Z.of_nat (length packet) + 5))),
        emit (set_send_script (set_tun_script w rest) results)
          (SysSend (sockfd st) (frame x66 packet) sent)).
Proof.
  intros Hact Htun [Hpos Hcap] Hsend.
  destruct (send_thread_message packet Hcap) as (padding & Hstore & Hmsg & Hsize).
  assert (Hcap' : (length packet <= 4096)%nat) by exact Hcap.
  unfold send_thread_body. rewrite Htun. unfold sys_tun_read.
  rewrite firstn_all2 by exact Hcap.
  rewrite Hstore. cbn [bind].
  replace (to_u32 (Z.of_nat (length packet)) >? 0) with true
    by (symmetry; rewrite to_u32_id
          by (change (2 ^ 32) with 4294967296; lia);
        apply Z.gtb_lt; lia).
  rewrite Hmsg. rewrite (msg_length_frame x66 packet Hcap).
  unfold send_raw.
  replace (negb (running st) && negb (ip_requesting st)) with false
    by (unfold session_active in Hact;
        destruct (running st), (ip_requesting st); simpl in *; congruence).
  assert (Hload : load (frame x66 packet ++ padding) 0
                    (Z.of_nat (length packet) + 5)
                  = Ok (frame x66 packet)).
  { unfold load. rewrite Hsize.
    replace ((0 <=? 0) && (0 <=? Z.of_nat (length packet) + 5)
             && (0 + (Z.of_nat (length packet) + 5)
                 <=? Z.of_nat (Z.to_nat sizeof_Message))) with true
      by (symmetry; rewrite !andb_true_iff, !Z.leb_le;
          unfold sizeof_Message; lia).
    f_equal. cbn [Z.to_nat skipn].
    replace (Z.to_nat (Z.of_nat (length packet) + 5))
      with (length (frame x66 packet)) by (rewrite frame_length; lia).
    apply firstn_exact. }
  rewrite Hload. cbn [bind send_script set_tun_script]. rewrite Hsend.
  destruct (to_u32 sent <? Z.of_nat (length packet) + 5); reflexivity.
Qed.

(** C7, on the code.  When [read] on the tun fails, the -1 it returns is
    stored in a [u32] and passes the test [length > 0] as 4294967295; the
    length of the message wraps to 4, the four bytes of the length field
    are sent, and 4 is added to [bytes_sent].  A read of zero bytes sends
    nothing and changes no counter; a read of 3 bytes sends the frame of 8
    bytes. *)
Theorem send_thread_failed_read_sends :
  send_thread_body (mkState 3 7 10 0 0 1000 0 true false)
    (mkWorld [] [] [4] [TunFail] [] [])
  = Ok (mkState 3 7 10 0 0 1004 0 true false,
        mkWorld [] [] [] [] [] [SysSend 3 [x04; x00; x00; x00] 4])
  /\ send_thread_body (mkState 3 7 10 0 0 1000 0 true false)
       (mkWorld [] [] [4] [TunPacket []] [] [])
     = Ok (mkState 3 7 10 0 0 1000 0 true false,
           mkWorld [] [] [4] [] [] [])
  /\ send_thread_body (mkState 3 7 10 0 0 1000 0 true false)
       (mkWorld [] [] [8] [TunPacket [x45; x00; x01]] [] [])
     = Ok (mkState 3 7 10 0 0 1008 0 true false,
           mkWorld [] [] [] [] []
             [SysSend 3 [x08; x00; x00; x00; x66; x45; x00; x01] 8]).
Proof. repeat split; vm_compute; reflexivity. Qed.

(* ================================================================== *)
(** ** Heartbeats in the log *)

Lemma heartbeats_sent_app (l l' : list syscall) :
  heartbeats_sent (l ++ l') = (heartbeats_sent l + heartbeats_sent l')%nat.
Proof. unfold heartbeats_sent. now rewrite filter_app, length_app. Qed.

Lemma heartbeats_sent_waits (l : list syscall) :
  forallb is_wait l = true -> heartbeats_sent l = 0%nat.
Proof.
  unfold heartbeats_sent. induction l as [| e l IH]; [reflexivity |].
  cbn [forallb filter]. intros H. apply andb_true_iff in H as [He Hl].
  destruct e; try discriminate He; cbn; auto.
Qed.

Lemma after_reads_heartbeats (w w' : world) :
  after_reads w w' -> heartbeats_sent (log w') = heartbeats_sent (log w).
Proof.
  intros (_ & _ & _ & waits & Hlog & Hwaits).
  rewrite Hlog, heartbeats_sent_app.
  rewrite (heartbeats_sent_waits waits Hwaits). lia.
Qed.

Lemma bytes_eqb_eq (a b : list byte) : bytes_eqb a b = true -> a = b.
Proof.
  revert b. induction a as [| x a IH]; intros [| y b] H;
    try discriminate H; [reflexivity |].
  cbn [bytes_eqb] in H. apply andb_true_iff in H as [Hxy Hab].
  apply Byte.byte_dec_bl in Hxy. f_equal; auto.
Qed.

(** What [send_thread] sends is never a heartbeat frame: its fifth byte,
    when it has one, is [NET_REQUEST]. *)
Lemma data_is_no_heartbeat (fd : Z) (message : list byte) (len : nat) (ret : Z) :
  nth 4 message x00 = x66 ->
  is_heartbeat_send (SysSend fd (firstn len message) ret) = false.
Proof.
  intros Htype. cbn [is_heartbeat_send].
  destruct (bytes_eqb (firstn len message) (frame x68 [])) eqn:Heq;
    [| reflexivity].
  apply bytes_eqb_eq in Heq. exfalso.
  destruct message as [| b0 [| b1 [| b2 [| b3 [| b4 message]]]]];
    destruct len as [| [| [| [| [| len]]]]]; try discriminate Heq.
  cbn [nth] in Htype. subst b4. discriminate Heq.
Qed.

(** Every run of [recv_raw] differs from its start by reads only. *)
Lemma recv_raw_loop_after_reads (script : list recv_outcome) :
  forall st w obj off length received times_retry r obj' w',
    recv_raw_loop script st w obj off length received times_retry
    = Ok (r, obj', w') ->
    after_reads w w'.
Proof.
  induction script as [| ev script IH];
    intros st w obj off length received times_retry r obj' w';
    cbn [recv_raw_loop].
  - destruct (_ && _); intros H; inversion H; subst. apply after_reads_refl.
  - destruct (_ && _);
      [| intros H; inversion H; subst; apply after_reads_refl].
    destruct (sys_recv ev (incoming w) (to_u32 (length - received)))
      as [[single got] stream].
    destruct (single <? 0).
    + destruct (times_retry + 1 =? RECONNECT_LIMIT).
      * intros H; inversion H; subst. apply after_reads_script.
      * intros H. apply IH in H.
        eapply after_reads_trans; [| exact H].
        eapply after_reads_trans; [apply after_reads_script |].
        eapply after_reads_trans; now apply after_reads_wait.
    + destruct (single =? 0).
      * intros H. apply IH in H.
        eapply after_reads_trans; [| exact H].
        eapply after_reads_trans;
          [apply after_reads_script | now apply after_reads_wait].
      * destruct (store obj (off + received) got) as [obj1 | | | |];
          cbn [bind]; try discriminate.
        intros H. apply IH in H.
        eapply after_reads_trans; [| exact H].
        eapply after_reads_trans;
          [apply after_reads_script | apply after_reads_incoming].
Qed.

Lemma recv_message_after_reads (st : state) (w : world) (message : Message)
    (ok : bool) (message' : Message) (w' : world) :
  recv_message st w message = Ok (ok, message', w') -> after_reads w w'.
Proof.
  unfold recv_message, recv_raw.
  destruct (recv_raw_loop (recv_script w) st w message 0 sizeof_u32 0 0)
    as [[[size message1] w1] | | | |] eqn:H1; cbn [bind]; try discriminate.
  apply recv_raw_loop_after_reads in H1.
  destruct (_ || _); [intros H; inversion H; subst; exact H1 |].
  destruct (recv_raw_loop (recv_script w1) st w1 message1 sizeof_u32 _ 0 0)
    as [[[size2 message2] w2] | | | |] eqn:H2; cbn [bind]; try discriminate.
  apply recv_raw_loop_after_reads in H2.
  intros H; inversion H; subst. eapply after_reads_trans; eassumption.
Qed.

(** A turn of [send_thread] leaves the socket handle and the heartbeat-send
    counter alone and sends no heartbeat. *)
Lemma send_thread_body_quiet (st : state) (w : world) (st' : state) (w' : world) :
  send_thread_body st w = Ok (st', w') ->
  sockfd st' = sockfd st
  /\ time_send_heartbeat st' = time_send_heartbeat st
  /\ heartbeats_sent (log w') = heartbeats_sent (log w).
Proof.
  unfold send_thread_body.
  destruct (tun_script w) as [| ev rest]; [discriminate |].
  destruct (sys_tun_read ev DATA_MAX_LENGTH) as [ret got].
  destruct (store zero_Message offset_data got) as [message | | | |];
    cbn [bind]; try discriminate.
  destruct (to_u32 ret >? 0);
    [| intros H; inversion H; subst; repeat split; reflexivity].
  set (message3 := set_msg_type _ NET_REQUEST).
  assert (Htype : nth 4 message3 x00 = x66) by reflexivity.
  unfold send_raw.
  destruct (negb (running st) && negb (ip_requesting st)).
  { cbn [bind]. intros H; inversion H; subst. repeat split; reflexivity. }
  unfold load. destruct (_ && _); cbn [bind]; [| discriminate].
  cbn [send_script set_tun_script].
  destruct (send_script w) as [| sent results]; [discriminate |].
  change (skipn (Z.to_nat 0) message3) with message3.
  assert (Hlog : heartbeats_sent
                   (log (emit (set_send_script (set_tun_script w rest) results)
                           (SysSend (sockfd st)
                              (firstn (Z.to_nat (msg_length message3)) message3)
                              sent)))
                 = heartbeats_sent (log w)).
  { cbn [log emit set_send_script set_tun_script].
    rewrite heartbeats_sent_app. unfold heartbeats_sent at 2.
    cbn [filter]. rewrite data_is_no_heartbeat by exact Htype.
    cbn [length]. lia. }
  destruct (to_u32 sent <? msg_length message3); cbn [bind];
    intros H; inversion H; subst; repeat split; try reflexivity; exact Hlog.
Qed.

(** So does a turn of [recv_thread]. *)
Lemma recv_thread_body_quiet (st : state) (w : world) (message : Message)
    (ok : bool) (message' : Message) (st' : state) (w' : world) :
  recv_thread_body st w message = Ok (ok, message', st', w') ->
  sockfd st' = sockfd st
  /\ time_send_heartbeat st' = time_send_heartbeat st
  /\ heartbeats_sent (log w') = heartbeats_sent (log w).
Proof.
  unfold recv_thread_body.
  destruct (recv_message st w message) as [[[got message1] w1] | | | |] eqn:Hrecv;
    cbn [bind]; try discriminate.
  apply recv_message_after_reads, after_reads_heartbeats in Hrecv.
  destruct got; cbn [negb].
  2:{ intros H; inversion H; subst. repeat split; try reflexivity. exact Hrecv. }
  destruct (msg_type message1 =? NET_REPLY).
  - destruct (load message1 offset_data _) as [bytes | | | |];
      cbn [bind]; try discriminate.
    destruct (tun_write_script w1) as [| ret rest]; [discriminate |].
    assert (Hlog : heartbeats_sent
                     (log (emit (set_tun_write_script w1 rest)
                             (SysTunWrite (tunfd st) bytes ret)))
                   = heartbeats_sent (log w)).
    { cbn [log emit set_tun_write_script].
      rewrite heartbeats_sent_app, Hrecv. cbn. lia. }
    destruct (negb _); intros H; inversion H; subst;
      repeat split; try reflexivity; exact Hlog.
  - destruct (msg_type message1 =? HEARTBEAT);
      intros H; inversion H; subst; repeat split; try reflexivity; exact Hrecv.
Qed.

(** A tick on an active session that it leaves running. *)
Lemma tik_running_step (st : state) (w : world) (s : string) (st1 : state)
    (w1 : world) :
  sockfd st <> -1 ->
  running st = true ->
  tik st w = Ok (s, st1, w1) ->
  running st1 = true ->
  0 <= time_send_heartbeat st < 20 ->
  sockfd st1 = sockfd st
  /\ time_send_heartbeat st1
     = (if time_send_heartbeat st + 1 =? 20 then 0
        else time_send_heartbeat st + 1)
  /\ heartbeats_sent (log w1)
     = (heartbeats_sent (log w)
        + (if (time_send_heartbeat st + 1 =? 20)%Z then 1 else 0))%nat.
Proof.
  intros Hopen Hrun Htik Hrun1 Hcount.
  destruct (Z_le_gt_dec
              (to_u32 (to_u32 (time_connected st + 1) - time_last_heartbeat st))
              60) as [Halive | Hstale].
  - destruct (tik_alive_inv st w Hopen Hrun s st1 w1 Halive Htik)
      as (Hst & _ & Hw).
    rewrite (to_u32_id (time_send_heartbeat st + 1)) in Hw
      by (change (2 ^ 32) with 4294967296; lia).
    subst st1. unfold next_send_count.
    rewrite (to_u32_id (time_send_heartbeat st + 1))
      by (change (2 ^ 32) with 4294967296; lia).
    split; [reflexivity | split; [reflexivity |]].
    destruct (time_send_heartbeat st + 1 =? 20).
    + destruct Hw as (sent & rest & _ & ->).
      cbn [log emit set_send_script]. rewrite heartbeats_sent_app. reflexivity.
    + subst w1. lia.
  - rewrite tik_stale in Htik by (assumption || lia).
    inversion Htik; subst. discriminate Hrun1.
Qed.

(** Along a run the heartbeat-send counter counts the ticks modulo 20, and
    one heartbeat is sent each time it comes back to zero. *)
Lemma run_heartbeats (n : nat) (st : state) (w : world) (st' : state)
    (w' : world) :
  run n st w st' w' ->
  0 <= time_send_heartbeat st < 20 ->
  Z.of_nat (heartbeats_sent (log w'))
  = Z.of_nat (heartbeats_sent (log w))
    + (time_send_heartbeat st + Z.of_nat n) / 20
  /\ time_send_heartbeat st' = (time_send_heartbeat st + Z.of_nat n) mod 20
  /\ sockfd st' = sockfd st.
Proof.
  induction 1 as [st w
                 | n st w s st1 w1 st' w' Hopen Hrun Htik Hrun1 _ IH
                 | n st w st1 w1 st' w' Hup _ IH
                 | n st w message ok message1 st1 w1 st' w' Hdown _ IH];
    intros Hcount.
  - rewrite Z.add_0_r, Z.div_small, Z.mod_small by lia.
    repeat split; lia.
  - destruct (tik_running_step st w s st1 w1 Hopen Hrun Htik Hrun1 Hcount)
      as (Hfd & Hc & Hlog).
    destruct (Z.eqb_spec (time_send_heartbeat st + 1) 20) as [H20 | H20].
    + destruct IH as (IHlog & IHc & IHfd); [lia |].
      rewrite IHlog, IHc, IHfd, Hlog, Hc, Hfd.
      repeat split; try reflexivity.
      * rewrite Nat2Z.inj_add, Nat2Z.inj_succ. cbn [Z.of_nat].
        Z.div_mod_to_equations. lia.
      * rewrite Nat2Z.inj_succ. Z.div_mod_to_equations. lia.
    + destruct IH as (IHlog & IHc & IHfd); [lia |].
      rewrite IHlog, IHc, IHfd, Hlog, Hc, Hfd.
      repeat split; try reflexivity.
      * rewrite Nat2Z.inj_add, Nat2Z.inj_succ. cbn [Z.of_nat].
        Z.div_mod_to_equations. lia.
      * rewrite Nat2Z.inj_succ. Z.div_mod_to_equations. lia.
  - destruct (send_thread_body_quiet st w st1 w1 Hup) as (Hfd & Hc & Hlog).
    rewrite Hc, Hfd, Hlog in IH. now apply IH.
  - destruct (recv_thread_body_quiet st w message ok message1 st1 w1 Hdown)
      as (Hfd & Hc & Hlog).
    rewrite Hc, Hfd, Hlog in IH. now apply IH.
Qed.

(** C5.  Over 20 ticks in a row of the supervisor, each on an active
    session that it does not find stale, exactly one heartbeat frame is
    sent, whatever the two threads of the relay send and receive in
    between; the heartbeat-send counter, which each tick increments and
    sets back to zero when it reaches 20, is after the 20 ticks where it
    was before them. *)
Theorem heartbeat_cadence (st : state) (w : world) (st' : state) (w' : world) :
  run 20 st w st' w' ->
  0 <= time_send_heartbeat st < 20 ->
  heartbeats_sent (log w') = (heartbeats_sent (log w) + 1)%nat
  /\ time_send_heartbeat st' = time_send_heartbeat st.
Proof.
  intros Hrun Hcount.
  destruct (run_heartbeats 20 st w st' w' Hrun Hcount) as (Hlog & Hc & _).
  change (Z.of_nat 20) with 20 in Hlog, Hc.
  split.
  - apply Nat2Z.inj. rewrite Hlog, Nat2Z.inj_add.
    change (Z.of_nat 1) with 1. Z.div_mod_to_equations. lia.
  - rewrite Hc. Z.div_mod_to_equations. lia.
Qed.

(** The counter is in range from [open] on: [open] sets it to zero, a tick
    keeps it below 20, and nothing else writes it. *)
Lemma open_resets_send_count (st : state) (resolved : option (list (Z * Z)))
    (fd : Z) (st' : state) :
  open st resolved = Ok (fd, st') -> time_send_heartbeat st' = 0.
Proof.
  unfold open. destruct (negb _); [discriminate |].
  assert (Hloop : forall l s, time_send_heartbeat (open_loop l s)
                              = time_send_heartbeat s).
  { induction l as [| [sock conn] l IH]; intros s; cbn [open_loop];
      [reflexivity |].
    destruct (sockfd (set_sockfd s sock) <? 0); [now rewrite IH |].
    destruct (conn =? 0); [reflexivity | now rewrite IH]. }
  destruct resolved as [l |]; intros H; inversion H; subst;
    [rewrite Hloop |]; reflexivity.
Qed.

Lemma tik_keeps_send_count (st : state) (w : world) (s : string)
    (st' : state) (w' : world) :
  tik st w = Ok (s, st', w') ->
  0 <= time_send_heartbeat st < 20 ->
  0 <= time_send_heartbeat st' < 20.
Proof.
  intros Htik Hcount. unfold tik in Htik.
  destruct ((sockfd st =? -1) || negb (running st)) eqn:Hidle.
  - inversion Htik; subst. exact Hcount.
  - apply orb_false_elim in Hidle as [Hopen Hrun].
    apply Z.eqb_neq in Hopen. apply negb_false_iff in Hrun.
    fold (tik st w) in Htik.
    destruct (Z_le_gt_dec
                (to_u32 (to_u32 (time_connected st + 1)
                         - time_last_heartbeat st)) 60) as [Halive | Hstale].
    + destruct (tik_alive_inv st w Hopen Hrun s st' w' Halive) as (Hst & _).
      { unfold tik. apply Z.eqb_neq in Hopen. rewrite Hopen, Hrun. exact Htik. }
      subst st'. cbn [time_send_heartbeat set_time_send_heartbeat].
      unfold next_send_count.
      rewrite (to_u32_id (time_send_heartbeat st + 1))
        by (change (2 ^ 32) with 4294967296; lia).
      destruct (Z.eqb_spec (time_send_heartbeat st + 1) 20); lia.
    + assert (Hs : tik st w
                   = Ok (EmptyString,
                         set_running
                           (set_time_connected st
                              (to_u32 (time_connected st + 1))) false, w))
        by (apply tik_stale; assumption || lia).
      unfold tik in Hs. apply Z.eqb_neq in Hopen. rewrite Hopen, Hrun in Hs.
      cbn [orb negb] in Hs. rewrite Hs in Htik.
      inversion Htik; subst. exact Hcount.
Qed.

Ltac live_tick :=
  eapply run_tick;
  [discriminate | reflexivity | vm_compute; reflexivity | reflexivity |].

(** Twenty ticks from a counter at 7, with a packet sent by [send_thread]
    after the third: the heartbeat goes out at the thirteenth tick. *)
Lemma heartbeat_cadence_witness :
  heartbeats_sent
    (log (mkWorld [] [] [] [] []
            [SysSend 3 [x08; x00; x00; x00; x66; x45; x00; x01] 8;
             SysSend 3 [x05; x00; x00; x00; x68] 5]))
  = Nat.add
      (heartbeats_sent
         (log (mkWorld [] [] [8; 5] [TunPacket [x45; x00; x01]] [] [])))
      1
  /\ time_send_heartbeat (mkState 3 7 20 0 7 8 0 true false)
     = time_send_heartbeat (mkState 3 7 0 0 7 0 0 true false).
Proof.
  apply (heartbeat_cadence (mkState 3 7 0 0 7 0 0 true false)
           (mkWorld [] [] [8; 5] [TunPacket [x45; x00; x01]] [] [])).
  - do 3 live_tick.
    eapply run_uplink; [vm_compute; reflexivity |].
    do 17 live_tick.
    apply run_done.
  - cbn. lia.
Defined.

(** Sixty-one ticks with no heartbeat received: the first sixty leave the
    session running and send three heartbeats, the sixty-first clears
    [running] and leaves the socket to [backend]. *)
Example sixty_one_idle_ticks :
  ticks 60 relay_state (set_send_script quiet_world [5; 5; 5])
  = Ok (mkState 3 7 60 0 0 0 0 true false,
        mkWorld [] [] [] [] []
          [SysSend 3 (frame x68 []) 5; SysSend 3 (frame x68 []) 5;
           SysSend 3 (frame x68 []) 5])
  /\ tik (mkState 3 7 60 0 0 0 0 true false) quiet_world
     = Ok (EmptyString, mkState 3 7 61 0 0 0 0 false false, quiet_world).
Proof. split; vm_compute; reflexivity. Qed.

(* ================================================================== *)
(** * Further properties *)

(** ** [pretty] and [prettyTime] *)

Lemma to_int_id (z : Z) : - 2 ^ 31 <= z < 2 ^ 31 -> to_int z = z.
Proof.
  intros H. unfold to_int, u32_modulus.
  rewrite Z.mod_small by (change (2 ^ 32) with (2 ^ 31 + 2 ^ 31); lia). lia.
Qed.

(** The loop of [pretty] from any index within [0 .. m - 1], on a scale
    that is not zero. *)
Lemma pretty_loop_index (scale m : Z) (fuel : nat) :
  0 < scale ->
  forall value count,
    is_u32 value ->
    0 <= count <= m - 1 ->
    (Z.to_nat (m - 1 - count) <= fuel)%nat ->
    exists v c,
      pretty_loop fuel value scale count m = Ok (v, c)
      /\ count <= c <= m - 1
      /\ (c = m - 1 \/ v <= scale)
      /\ 0 <= v <= value.
Proof.
  intros Hscale.
  induction fuel as [| fuel IH]; intros value count Hvalue Hcount Hfuel.
  - exists value, count. rewrite pretty_loop_end by lia.
    u32. repeat split; lia.
  - destruct (Z.le_gt_cases value scale) as [Hsmall | Hbig].
    { exists value, count. rewrite pretty_loop_end by lia.
      u32. repeat split; lia. }
    destruct (Z.le_gt_cases (m - 1) count) as [Hfull | Hroom].
    { exists value, count. rewrite pretty_loop_end by lia.
      u32. repeat split; lia. }
    assert (Hq : 0 <= value / scale <= value).
    { u32. split; [apply Z.div_pos; lia |].
      apply Z.div_le_upper_bound; [lia | nia]. }
    rewrite pretty_loop_turn by lia.
    rewrite to_u32_small by (u32; lia).
    destruct (IH (value / scale) (count + 1)) as (v & c & H1 & H2 & H3 & H4);
      [u32; lia | lia | lia |].
    exists v, c. repeat split; try assumption; lia.
Qed.

(** X1.  [pretty] on a [u32] value and a [u32] scale that is not zero, with
    an array of at least [m] units, [m] at least 1, each of them a string
    of at most 114 characters: [pretty] returns its line.  The loop never
    divides by zero; the index it reaches lies in [0 .. m - 1], so the unit
    is read inside the array; it stops before [m - 1] only on a value that
    is at most the scale; the number printed is at most the value given;
    and the line fits the 128 bytes of the buffer. *)
Theorem pretty_reads_inside_units (value scale m : Z)
    (units : list (option string)) :
  is_u32 value ->
  is_u32 scale ->
  scale <> 0 ->
  1 <= m ->
  (Z.to_nat m <= length units)%nat ->
  Forall printable_unit units ->
  exists v c unit,
    pretty_loop (Z.to_nat m) value scale 0 m = Ok (v, c)
    /\ 0 <= c <= m - 1
    /\ (c = m - 1 \/ v <= scale)
    /\ 0 <= v <= value
    /\ nth_error units (Z.to_nat c) = Some (Some unit)
    /\ Z.of_nat (String.length (print_d v ++ " " ++ unit ++ newline))
       < PRINT_BUFFER_LENGTH
    /\ pretty value scale units m = Ok (print_d v ++ " " ++ unit ++ newline)%string.
Proof.
  intros Hvalue Hscale Hnz Hm Hlen Hunits.
  destruct (pretty_loop_index scale m (Z.to_nat m)) with (value := value)
    (count := 0) as (v & c & Hloop & Hc & Hstop & Hv);
    [u32; lia | exact Hvalue | lia | lia |].
  destruct (nth_error units (Z.to_nat c)) as [u |] eqn:Hnth.
  - assert (Hu : printable_unit u).
    { rewrite Forall_forall in Hunits. apply Hunits.
      eapply nth_error_In. exact Hnth. }
    destruct u as [unit |]; [| now destruct Hu].
    cbn [printable_unit] in Hu. unfold PRINT_BUFFER_LENGTH in Hu.
    pose proof (pretty_line_length v unit) as Hline.
    exists v, c, unit. unfold pretty. rewrite Hloop. cbn [bind].
    rewrite Hnth. repeat split; try assumption; try lia.
    + unfold PRINT_BUFFER_LENGTH. lia.
    + apply pretty_line_fits. lia.
  - apply nth_error_None in Hnth. lia.
Qed.

Lemma pretty_reads_inside_units_witness :
  exists v c unit,
    pretty_loop (Z.to_nat 2) 7200 60 0 2 = Ok (v, c)
    /\ 0 <= c <= 2 - 1
    /\ (c = 2 - 1 \/ v <= 60)
    /\ 0 <= v <= 7200
    /\ nth_error time_units (Z.to_nat c) = Some (Some unit)
    /\ Z.of_nat (String.length (print_d v ++ " " ++ unit ++ newline))
       < PRINT_BUFFER_LENGTH
    /\ pretty 7200 60 time_units 2 = Ok (print_d v ++ " " ++ unit ++ newline)%string.
Proof.
  apply (pretty_reads_inside_units 7200 60 2 time_units).
  - unfold is_u32, u32_modulus. lia.
  - unfold is_u32, u32_modulus. lia.
  - discriminate.
  - lia.
  - apply Nat.leb_le. reflexivity.
  - repeat constructor; cbn; unfold PRINT_BUFFER_LENGTH; lia.
Defined.

(** Outside these conditions: a scale of zero makes the loop divide by
    zero; a unit of 115 characters still fits after a number of eight
    digits, and after a number of eleven characters it takes the line past
    the end of the buffer. *)
Example pretty_outside_its_domain :
  pretty 5 0 time_units 2 = Undefined
  /\ pretty 4294967295 60
       [Some "s"; Some (string_of_list_ascii (repeat "m"%char 115))]%string 2
     = Ok (("71582788 " ++ string_of_list_ascii (repeat "m"%char 115))
           ++ newline)%string
  /\ pretty 2147483648 4294967295
       [Some (string_of_list_ascii (repeat "m"%char 115))] 1
     = Undefined.
Proof. repeat split. Qed.

(** X2.  [prettyTime] prints a time of at most 60 in seconds, 60 itself
    included, and a longer one in whole minutes, which it never turns into
    hours; the number printed is the value itself: [%d] never shows a [u32]
    time as a negative number. *)
Theorem prettyTime_cases (time : Z) :
  is_u32 time ->
  prettyTime time
  = Ok (if time <=? 60
        then (decimal time ++ " s" ++ newline)%string
        else (decimal (time / 60) ++ " min(s)" ++ newline)%string).
Proof.
  intros Htime. u32. unfold prettyTime, pretty. rewrite prettyTime_loop.
  destruct (Z.leb_spec time 60) as [Hshort | Hlong].
  - cbn [bind]. change (Z.to_nat 0) with 0%nat. cbn [nth_error time_units].
    rewrite pretty_line_fits by (cbn; lia).
    unfold print_d, decimal. rewrite to_int_id by (simpl (2 ^ 31); lia).
    reflexivity.
  - cbn [bind]. change (Z.to_nat 1) with 1%nat. cbn [nth_error time_units].
    rewrite pretty_line_fits by (cbn; lia).
    assert (Hq : 0 <= time / 60 < 71582789).
    { split; [apply Z.div_pos; lia | apply Z.div_lt_upper_bound; lia]. }
    rewrite to_u32_id by (simpl (2 ^ 32); lia).
    unfold print_d, decimal. rewrite to_int_id by (simpl (2 ^ 31); lia).
    reflexivity.
Qed.

Lemma prettyTime_cases_witness :
  prettyTime 7384
  = Ok (if 7384 <=? 60
        then (decimal 7384 ++ " s" ++ newline)%string
        else (decimal (7384 / 60) ++ " min(s)" ++ newline)%string).
Proof.
  apply (prettyTime_cases 7384). unfold is_u32, u32_modulus. lia.
Defined.

Example prettyTime_samples :
  prettyTime 60 = Ok ("60 s" ++ newline)%string
  /\ prettyTime 61 = Ok ("1 min(s)" ++ newline)%string
  /\ prettyTime 7384 = Ok ("123 min(s)" ++ newline)%string.
Proof. repeat split. Qed.

(* ================================================================== *)
(** ** [open] *)

Lemma set_sockfd_twice (st : state) (a b : Z) :
  set_sockfd (set_sockfd st a) b = set_sockfd st b.
Proof. reflexivity. Qed.

Lemma set_sockfd_same (st : state) : set_sockfd st (sockfd st) = st.
Proof. now destruct st. Qed.

(** The loop of [open] writes [sockfd] and nothing else. *)
Lemma open_loop_frame (list : list (Z * Z)) :
  forall st, open_loop list st = set_sockfd st (sockfd (open_loop list st)).
Proof.
  induction list as [| [sock conn] list IH]; intros st; cbn [open_loop].
  - now rewrite set_sockfd_same.
  - destruct (sockfd (set_sockfd st sock) <? 0).
    + rewrite IH at 1. now rewrite set_sockfd_twice.
    + destruct (conn =? 0).
      * reflexivity.
      * rewrite IH at 1. now rewrite !set_sockfd_twice.
Qed.

(** It goes past the addresses that fail and settles on the first that
    does not. *)
Lemma open_loop_first (before after : list (Z * Z)) (sock : Z) :
  Forall fails before ->
  0 <= sock ->
  forall st,
    open_loop (before ++ (sock, 0) :: after) st = set_sockfd st sock.
Proof.
  intros Hfail Hsock. induction Hfail as [| [s c] before [Hs | Hc] _ IH];
    intros st; cbn [app open_loop fst snd] in *.
  - change (sockfd (set_sockfd st sock)) with sock.
    replace (sock <? 0) with false by (symmetry; apply Z.ltb_ge; lia).
    reflexivity.
  - change (sockfd (set_sockfd st s)) with s.
    replace (s <? 0) with true by (symmetry; apply Z.ltb_lt; lia).
    rewrite IH. apply set_sockfd_twice.
  - change (sockfd (set_sockfd st s)) with s.
    destruct (s <? 0).
    + rewrite IH. apply set_sockfd_twice.
    + apply Z.eqb_neq in Hc. rewrite Hc. rewrite IH.
      now rewrite !set_sockfd_twice.
Qed.

(** When every address fails it ends on a negative handle, which is -1 if
    it was so before and [socket] fails with -1 only. *)
Lemma open_loop_none (list : list (Z * Z)) :
  Forall fails list ->
  forall st,
    sockfd st < 0 ->
    sockfd (open_loop list st) < 0
    /\ (sockfd st = -1 ->
        Forall (fun candidate => -1 <= fst candidate) list ->
        sockfd (open_loop list st) = -1).
Proof.
  induction 1 as [| [s c] list Hsc _ IH]; intros st Hst; cbn [open_loop].
  - split; [exact Hst | auto].
  - change (sockfd (set_sockfd st s)) with s.
    destruct (Z.ltb_spec s 0) as [Hneg | Hpos].
    + destruct (IH (set_sockfd st s) Hneg) as [IH1 IH2].
      split; [exact IH1 |].
      intros _ Hall. inversion Hall as [| ? ? Hs Hrest]; subst.
      cbn [fst] in Hs. apply IH2; [cbn; lia | exact Hrest].
    + destruct Hsc as [Hs | Hc]; cbn [fst snd] in *; [lia |].
      apply Z.eqb_neq in Hc. rewrite Hc.
      destruct (IH (set_sockfd (set_sockfd st s) (-1))) as [IH1 IH2];
        [cbn; lia |].
      split; [exact IH1 |].
      intros _ Hall. inversion Hall; subst. now apply IH2.
Qed.

(** X3.  Whenever [open] returns, the socket was closed before
    ([sockfd = -1], the [assert]), the value returned is the new [sockfd],
    the two byte counters and the three time counters are zero, and
    [tunfd], [running] and [ip_requesting] are as they were. *)
Theorem open_resets_counters (st : state) (resolved : option (list (Z * Z)))
    (fd : Z) (st' : state) :
  open st resolved = Ok (fd, st') ->
  sockfd st = -1
  /\ st' = mkState fd (tunfd st) 0 0 0 0 0 (running st) (ip_requesting st).
Proof.
  unfold Java_com_lyricz_a4over6vpn_VPNService_open.
  change (sockfd (set_time_send_heartbeat _ 0)) with (sockfd st).
  destruct (Z.eqb_spec (sockfd st) (-1)) as [Hclosed | Hopen];
    cbn [negb]; [| discriminate].
  destruct resolved as [list |]; intros H; inversion H; subst; clear H.
  - split; [exact Hclosed |].
    rewrite open_loop_frame at 1. reflexivity.
  - split; [exact Hclosed |]. destruct st; cbn in *. now subst.
Qed.

Lemma open_resets_counters_witness :
  sockfd (mkState (-1) 7 61 3 9 5000 4000 false false) = -1
  /\ mkState 5 7 0 0 0 0 0 false false
     = mkState 5 (tunfd (mkState (-1) 7 61 3 9 5000 4000 false false))
         0 0 0 0 0
         (running (mkState (-1) 7 61 3 9 5000 4000 false false))
         (ip_requesting (mkState (-1) 7 61 3 9 5000 4000 false false)).
Proof.
  apply (open_resets_counters (mkState (-1) 7 61 3 9 5000 4000 false false)
           (Some [(-1, 0); (4, -1); (5, 0)]) 5
           (mkState 5 7 0 0 0 0 0 false false)).
  reflexivity.
Defined.

(** X4.  With the socket closed, [open] settles on the first address for
    which [socket] succeeds and [connect] returns 0, whatever failed before
    it and whatever comes after it, and returns that socket. *)
Theorem open_first_that_connects (st : state) (before after : list (Z * Z))
    (sock : Z) :
  sockfd st = -1 ->
  Forall fails before ->
  0 <= sock ->
  open st (Some (before ++ (sock, 0) :: after))
  = Ok (sock, mkState sock (tunfd st) 0 0 0 0 0 (running st) (ip_requesting st)).
Proof.
  intros Hclosed Hfail Hsock.
  unfold Java_com_lyricz_a4over6vpn_VPNService_open.
  change (sockfd (set_time_send_heartbeat _ 0)) with (sockfd st).
  rewrite Hclosed. cbn [Z.eqb negb Pos.eqb].
  rewrite open_loop_first by assumption. reflexivity.
Qed.

Lemma open_first_that_connects_witness :
  open initial_state (Some ([(-1, 0); (4, -1)] ++ (5, 0) :: [(6, 0)]))
  = Ok (5, mkState 5 (tunfd initial_state) 0 0 0 0 0 (running initial_state)
             (ip_requesting initial_state)).
Proof.
  apply (open_first_that_connects initial_state [(-1, 0); (4, -1)] [(6, 0)] 5).
  - reflexivity.
  - repeat constructor; cbn; lia.
  - lia.
Defined.

(** X5.  With the socket closed, when [getaddrinfo] fails, or when every
    address it gives fails, [open] returns a negative value and leaves
    [sockfd] at it: -1 when [socket] fails with -1 only.  The counters are
    reset all the same. *)
Theorem open_without_connection (st : state) (resolved : option (list (Z * Z))) :
  sockfd st = -1 ->
  (forall list, resolved = Some list -> Forall fails list) ->
  exists fd,
    open st resolved
    = Ok (fd, mkState fd (tunfd st) 0 0 0 0 0 (running st) (ip_requesting st))
    /\ fd < 0
    /\ ((forall list, resolved = Some list ->
                      Forall (fun candidate => -1 <= fst candidate) list) ->
        fd = -1).
Proof.
  intros Hclosed Hfail.
  unfold Java_com_lyricz_a4over6vpn_VPNService_open.
  change (sockfd (set_time_send_heartbeat _ 0)) with (sockfd st).
  rewrite Hclosed. cbn [Z.eqb negb Pos.eqb].
  destruct resolved as [list |].
  - set (st0 := set_time_send_heartbeat _ 0).
    assert (H0 : sockfd st0 = -1) by exact Hclosed.
    destruct (open_loop_none list (Hfail list eq_refl) st0) as [Hneg Hminus];
      [lia |].
    exists (sockfd (open_loop list st0)). split; [| split].
    + f_equal. f_equal. rewrite open_loop_frame at 1. reflexivity.
    + exact Hneg.
    + intros Hall. apply Hminus; [exact H0 | now apply Hall].
  - exists (-1). split; [| split; [lia | reflexivity]].
    f_equal. f_equal. destruct st; cbn in *. now subst.
Qed.

Lemma open_without_connection_witness :
  exists fd,
    open initial_state (Some [(-1, 0); (4, -1)])
    = Ok (fd, mkState fd (tunfd initial_state) 0 0 0 0 0
                (running initial_state) (ip_requesting initial_state))
    /\ fd < 0
    /\ ((forall list, Some [(-1, 0); (4, -1)] = Some list ->
                      Forall (fun candidate => -1 <= fst candidate) list) ->
        fd = -1).
Proof.
  apply (open_without_connection initial_state (Some [(-1, 0); (4, -1)])).
  - reflexivity.
  - intros list H. inversion H; subst. repeat constructor; cbn; lia.
Defined.

(** X6.  One session at a time: once [open] has returned a socket, a second
    [open] fails its [assert], and so does an [open] that follows
    [terminate], which clears [running] and leaves the socket as it is. *)
Theorem open_while_open_aborts (st : state) (resolved : option (list (Z * Z)))
    (fd : Z) (st' : state) :
  open st resolved = Ok (fd, st') ->
  fd <> -1 ->
  forall resolved',
    open st' resolved' = Aborted
    /\ open (terminate st') resolved' = Aborted.
Proof.
  intros Hopen Hfd resolved'.
  apply open_resets_counters in Hopen as [_ ->].
  unfold Java_com_lyricz_a4over6vpn_VPNService_open,
    Java_com_lyricz_a4over6vpn_VPNService_terminate.
  cbn [sockfd set_time_send_heartbeat set_time_last_heartbeat
       set_time_connected set_bytes_sent set_bytes_recv set_running].
  apply Z.eqb_neq in Hfd. rewrite Hfd. split; reflexivity.
Qed.

Lemma open_while_open_aborts_witness :
  open (mkState 5 (-1) 0 0 0 0 0 false false) (Some [(6, 0)]) = Aborted
  /\ open (terminate (mkState 5 (-1) 0 0 0 0 0 false false)) (Some [(6, 0)])
     = Aborted.
Proof.
  apply (open_while_open_aborts initial_state (Some [(5, 0)]) 5
           (mkState 5 (-1) 0 0 0 0 0 false false)).
  - reflexivity.
  - discriminate.
Defined.

(** X7.  The session can be opened again after each of the two ends that
    close the socket: the end of [backend], and a [request] made before the
    relay is started that returns. *)
Theorem open_again_after_close (resolved : option (list (Z * Z))) :
  (forall st w,
      exists fd st', open (fst (backend_finish st w)) resolved = Ok (fd, st'))
  /\ (forall st w message s st1 w1,
         running st = false ->
         request st w message = Ok (s, st1, w1) ->
         exists fd st', open st1 resolved = Ok (fd, st')).
Proof.
  assert (Hclosed : forall st, sockfd st = -1 ->
                               exists fd st', open st resolved = Ok (fd, st')).
  { intros st Hst. unfold Java_com_lyricz_a4over6vpn_VPNService_open.
    change (sockfd (set_time_send_heartbeat _ 0)) with (sockfd st).
    rewrite Hst. cbn [Z.eqb negb Pos.eqb]. destruct resolved; eauto. }
  split.
  - intros st w. apply Hclosed. reflexivity.
  - intros st w message s st1 w1 Hrun Hreq. apply Hclosed.
    destruct (Z.eq_dec (sockfd st) (-1)) as [Hst | Hst].
    + unfold Java_com_lyricz_a4over6vpn_VPNService_request in Hreq.
      rewrite Hst in Hreq. cbn [Z.eqb Pos.eqb] in Hreq.
      inversion Hreq; subst. exact Hst.
    + pose proof (request_before_relay st w message Hst Hrun) as Hend.
      rewrite Hreq in Hend. cbn in Hend. destruct Hend as (_ & -> & _).
      reflexivity.
Qed.

Lemma open_again_after_close_witness :
  (exists fd st',
      open (fst (backend_finish (mkState 3 7 62 0 1 0 0 false false)
                   quiet_world))
        (Some [(4, 0)])
      = Ok (fd, st'))
  /\ (exists fd st',
         open (mkState (-1) (-1) 0 0 0 0 0 false false) (Some [(4, 0)])
         = Ok (fd, st')).
Proof.
  split.
  - apply (proj1 (open_again_after_close (Some [(4, 0)]))).
  - apply (proj2 (open_again_after_close (Some [(4, 0)])) opened_state
             (mkWorld [] [RecvFail; RecvFail; RecvFail] [5] [] [] [])
             zero_Message EmptyString
             (mkState (-1) (-1) 0 0 0 0 0 false false)
             (mkWorld [] [] [] [] []
                [SysSend 3 [x05; x00; x00; x00; x64] 5;
                 SysUsleep 100; SysConnect 3; SysUsleep 100; SysConnect 3;
                 SysShutdown 3])).
    + reflexivity.
    + vm_compute. reflexivity.
Defined.

(* ================================================================== *)
(** ** What [recv_raw] takes from the stream *)

Lemma firstn_skipn_length (n : nat) (l : list byte) :
  firstn n l ++ skipn (length (firstn n l)) l = l.
Proof.
  revert l. induction n as [| n IH]; intros [| x l]; cbn; try reflexivity.
  now rewrite IH.
Qed.

Lemma store_inv (obj : list byte) (off : Z) (bs obj' : list byte) :
  store obj off bs = Ok obj' ->
  0 <= off
  /\ off + Z.of_nat (length bs) <= Z.of_nat (length obj)
  /\ obj' = splice obj (Z.to_nat off) bs.
Proof.
  unfold store.
  destruct (Z.leb_spec 0 off) as [Hoff | Hoff]; cbn [andb]; [| discriminate].
  destruct (Z.leb_spec (off + Z.of_nat (length bs)) (Z.of_nat (length obj)))
    as [Hend | Hend]; [| discriminate].
  intros Heq; inversion Heq. auto.
Qed.

(** Whatever the script, a run of the loop that returns has taken from the
    head of the stream exactly the bytes it counts, has put them in the
    object one after the other, and counts no more than was asked. *)
Lemma recv_raw_loop_takes (script : list recv_outcome) :
  forall st w obj off len received t r obj' w',
    0 <= off -> 0 <= received <= len -> len < 2 ^ 32 ->
    recv_raw_loop script st w obj off len received t = Ok (r, obj', w') ->
    received <= r <= len
    /\ exists taken,
        incoming w = taken ++ incoming w'
        /\ Z.of_nat (length taken) = r - received
        /\ obj' = splice obj (Z.to_nat (off + received)) taken
        /\ (taken = [] \/ off + r <= Z.of_nat (length obj)).
Proof.
  assert (Hstop : forall (w : world) (obj : list byte) off received len,
             received <= len ->
             received <= received <= len
             /\ exists taken,
                 incoming w = taken ++ incoming w
                 /\ Z.of_nat (length taken) = received - received
                 /\ obj = splice obj (Z.to_nat (off + received)) taken
                 /\ (taken = [] \/ off + received <= Z.of_nat (length obj))).
  { intros w obj off received len Hle. split; [lia |].
    exists []. rewrite splice_nil. cbn. repeat split; auto; lia. }
  induction script as [| ev script IH];
    intros st w obj off len received t r obj' w' Hoff Hrec Hlen;
    cbn [recv_raw_loop].
  - destruct (_ && _); intros H; inversion H; subst. apply Hstop; lia.
  - destruct (_ && _) eqn:Hcond;
      [| intros H; inversion H; subst; apply Hstop; lia].
    rewrite (to_u32_id (len - received)) by lia.
    destruct ev as [| n]; cbn [sys_recv].
    + (* a failed read *)
      change (-1 <? 0) with true. cbv iota.
      destruct (t + 1 =? RECONNECT_LIMIT).
      * intros H; inversion H; subst.
        change (incoming (set_recv_script w script)) with (incoming w).
        apply Hstop; lia.
      * intros H. apply IH in H; assumption.
    + set (got := firstn (Nat.min n (Z.to_nat (len - received))) (incoming w)).
      assert (Hgot : Z.of_nat (length got) <= len - received).
      { unfold got. rewrite length_firstn. lia. }
      replace (Z.of_nat (length got) <? 0) with false
        by (symmetry; apply Z.ltb_ge; lia).
      destruct (Z.eqb_spec (Z.of_nat (length got)) 0) as [Hzero | Hsome].
      * intros H. apply IH in H; assumption.
      * destruct (store obj (off + received) got) as [obj1 | | | |] eqn:Hstore;
          cbn [bind]; try discriminate.
        apply store_inv in Hstore as (Hpos & Hroom & ->).
        intros H. apply IH in H; [| assumption | lia | assumption].
        destruct H as (Hr & taken & Hin & Hcount & Hobj & Hbound).
        cbn [incoming set_incoming] in Hin.
        rewrite splice_length in Hbound by lia.
        split; [lia |].
        exists (got ++ taken). split; [| split; [| split]].
        -- rewrite <- app_assoc, <- Hin. unfold got.
           symmetry. apply firstn_skipn_length.
        -- rewrite length_app. lia.
        -- rewrite Hobj.
           replace (Z.to_nat (off + (received + Z.of_nat (length got))))
             with (Z.to_nat (off + received) + length got)%nat by lia.
           apply splice_splice.
           destruct Hbound as [-> | Hbound]; cbn [length]; lia.
        -- right. destruct Hbound as [-> | Hbound]; [| exact Hbound].
           cbn [length] in Hcount. lia.
Qed.

(** [recv_raw] takes a prefix of the stream. *)
Lemma recv_raw_takes_prefix_lemma (st : state) (w : world) (obj : list byte)
    (off len r : Z) (obj' : list byte) (w' : world) :
  recv_raw st w obj off len = Ok (r, obj', w') ->
  0 <= off ->
  0 <= len < 2 ^ 32 ->
  0 <= r <= len
  /\ exists taken,
      incoming w = taken ++ incoming w'
      /\ Z.of_nat (length taken) = r
      /\ obj' = splice obj (Z.to_nat off) taken
      /\ (taken = [] \/ off + r <= Z.of_nat (length obj))
      /\ length obj' = length obj
      /\ after_reads w w'.
Proof.
  intros Hrun Hoff Hlen. unfold recv_raw in Hrun.
  pose proof (recv_raw_loop_after_reads _ _ _ _ _ _ _ _ _ _ _ Hrun) as Hafter.
  apply recv_raw_loop_takes in Hrun; [| lia | lia | lia].
  destruct Hrun as (Hr & taken & Hin & Hcount & Hobj & Hbound).
  rewrite Z.add_0_r in Hobj. rewrite Z.sub_0_r in Hcount.
  split; [exact Hr |]. exists taken.
  split; [exact Hin | split; [exact Hcount | split; [exact Hobj |]]].
  split; [exact Hbound | split; [| exact Hafter]].
  rewrite Hobj. destruct Hbound as [-> | Hbound].
  - now rewrite splice_nil.
  - apply splice_length. lia.
Qed.

(** X8.  Whenever [recv_raw] returns, the count it returns is between 0 and
    the length asked; the bytes it took are the first ones of the stream,
    exactly as many as it counts; they are in the object from the offset
    on, in order, and the rest of the object, whose size is unchanged, is
    as before; nothing else happened in the world but sleeps and
    reconnections. *)
Theorem recv_raw_takes_prefix (st : state) (w : world) (obj : list byte)
    (off len r : Z) (obj' : list byte) (w' : world) :
  0 <= off ->
  0 <= len < 2 ^ 32 ->
  recv_raw st w obj off len = Ok (r, obj', w') ->
  0 <= r <= len
  /\ exists taken,
      incoming w = taken ++ incoming w'
      /\ Z.of_nat (length taken) = r
      /\ obj' = splice obj (Z.to_nat off) taken
      /\ length obj' = length obj
      /\ after_reads w w'.
Proof.
  intros Hoff Hlen Hrun.
  destruct (recv_raw_takes_prefix_lemma st w obj off len r obj' w' Hrun Hoff Hlen)
    as (Hr & taken & Hin & Hcount & Hobj & _ & Hsize & Hafter).
  split; [exact Hr |]. exists taken. auto.
Qed.

Lemma recv_raw_takes_prefix_witness :
  0 <= 2 <= 4
  /\ exists taken,
      incoming (mkWorld [x01; x02; x03] [RecvAvail 2; RecvFail; RecvFail; RecvFail]
                  [] [] [] [])
      = taken ++ incoming (mkWorld [x03] [] [] [] []
                             [SysUsleep 100; SysConnect 3;
                              SysUsleep 100; SysConnect 3])
      /\ Z.of_nat (length taken) = 2
      /\ [x00; x01; x02; x00; x00; x00]
         = splice [x00; x00; x00; x00; x00; x00] (Z.to_nat 1) taken
      /\ length [x00; x01; x02; x00; x00; x00]
         = length [x00; x00; x00; x00; x00; x00]
      /\ after_reads
           (mkWorld [x01; x02; x03] [RecvAvail 2; RecvFail; RecvFail; RecvFail]
              [] [] [] [])
           (mkWorld [x03] [] [] [] []
              [SysUsleep 100; SysConnect 3; SysUsleep 100; SysConnect 3]).
Proof.
  apply (recv_raw_takes_prefix relay_state
           (mkWorld [x01; x02; x03] [RecvAvail 2; RecvFail; RecvFail; RecvFail]
              [] [] [] [])
           [x00; x00; x00; x00; x00; x00] 1 4 2
           [x00; x01; x02; x00; x00; x00]
           (mkWorld [x03] [] [] [] []
              [SysUsleep 100; SysConnect 3; SysUsleep 100; SysConnect 3])).
  - lia.
  - change (2 ^ 32) with 4294967296. lia.
  - vm_compute. reflexivity.
Defined.

(** The reads used by a run of the loop that returns short of the length:
    failures only, as many as bring the retry count to 3, or anything
    followed by three failures. *)
Lemma recv_raw_loop_short (script : list recv_outcome) :
  forall st w obj off len received t r obj' w',
    session_active st = true ->
    0 <= received -> len < 2 ^ 32 -> 0 <= t < 3 ->
    recv_raw_loop script st w obj off len received t = Ok (r, obj', w') ->
    r < len ->
    exists used,
      script = used ++ recv_script w'
      /\ (used = repeat RecvFail (Z.to_nat (3 - t))
          \/ exists before, used = before ++ [RecvFail; RecvFail; RecvFail]).
Proof.
  induction script as [| ev script IH];
    intros st w obj off len received t r obj' w' Hact Hrec Hlen Ht;
    cbn [recv_raw_loop]; pose proof Hact as Hflags;
    unfold session_active in Hflags; rewrite Hflags; cbn [andb].
  - destruct (Z.ltb_spec (to_u32 received) len) as [Hlt | Hge];
      [discriminate |].
    intros H Hshort; inversion H; subst.
    rewrite to_u32_id in Hge by lia. lia.
  - destruct (Z.ltb_spec (to_u32 received) len) as [Hlt | Hge].
    2:{ intros H Hshort; inversion H; subst.
        rewrite to_u32_id in Hge by lia. lia. }
    destruct (sys_recv ev (incoming w) (to_u32 (len - received)))
      as [[single got] stream] eqn:Hsys.
    assert (Hev : (single <? 0) = true -> ev = RecvFail).
    { destruct ev as [| n]; [reflexivity |].
      cbn [sys_recv] in Hsys. inversion Hsys; subst.
      intros Hneg. apply Z.ltb_lt in Hneg. lia. }
    destruct (single <? 0) eqn:Hneg.
    + rewrite (Hev eq_refl).
      destruct (Z.eqb_spec (t + 1) RECONNECT_LIMIT) as [Hlimit | Hbelow].
      * intros H Hshort; inversion H; subst.
        exists [RecvFail]. split; [reflexivity |]. left.
        unfold RECONNECT_LIMIT in Hlimit.
        replace (3 - t) with 1 by lia. reflexivity.
      * intros H Hshort. unfold RECONNECT_LIMIT in Hbelow.
        apply IH in H; try assumption; try lia.
        destruct H as (used & Hused & Hshape).
        exists (RecvFail :: used). split; [cbn; now rewrite Hused |].
        destruct Hshape as [-> | (before & ->)].
        -- left. replace (Z.to_nat (3 - t)) with (S (Z.to_nat (3 - (t + 1))))
             by lia. reflexivity.
        -- right. now exists (RecvFail :: before).
    + assert (Hnext : forall w1 obj1 received1,
                 0 <= received1 ->
                 recv_raw_loop script st w1 obj1 off len received1 0
                 = Ok (r, obj', w') ->
                 r < len ->
                 exists used,
                   ev :: script = used ++ recv_script w'
                   /\ (used = repeat RecvFail (Z.to_nat (3 - t))
                       \/ exists before,
                           used = before ++ [RecvFail; RecvFail; RecvFail])).
      { intros w1 obj1 received1 Hrec1 H Hshort.
        apply IH in H; try assumption; try lia.
        destruct H as (used & Hused & Hshape).
        exists (ev :: used). split; [cbn; now rewrite Hused |].
        right. destruct Hshape as [-> | (before & ->)].
        - now exists [ev].
        - now exists (ev :: before). }
      destruct (single =? 0); [now apply Hnext |].
      destruct (store obj (off + received) got) as [obj1 | | | |];
        cbn [bind]; try discriminate.
      apply Hnext. apply Z.ltb_ge in Hneg. lia.
Qed.

(** X9.  On an active session [recv_raw] returns fewer bytes than asked
    only by giving up: the reads it made end with three failures in a row,
    the last of which is the last read made. *)
Theorem recv_raw_short_after_three_failures (st : state) (w : world)
    (obj : list byte) (off len r : Z) (obj' : list byte) (w' : world) :
  session_active st = true ->
  len < 2 ^ 32 ->
  recv_raw st w obj off len = Ok (r, obj', w') ->
  r < len ->
  exists before,
    recv_script w
    = before ++ [RecvFail; RecvFail; RecvFail] ++ recv_script w'.
Proof.
  intros Hact Hlen Hrun Hshort. unfold recv_raw in Hrun.
  apply recv_raw_loop_short in Hrun; try assumption; try lia.
  destruct Hrun as (used & Hused & [-> | (before & ->)]).
  - exists []. exact Hused.
  - exists before. rewrite Hused. now rewrite <- app_assoc.
Qed.

Lemma recv_raw_short_after_three_failures_witness :
  exists before,
    recv_script
      (mkWorld [x01; x02; x03]
         [RecvAvail 2; RecvFail; RecvFail; RecvFail; RecvAvail 1] [] [] [] [])
    = before ++ [RecvFail; RecvFail; RecvFail]
      ++ recv_script
           (mkWorld [x03] [RecvAvail 1] [] [] []
              [SysUsleep 100; SysConnect 3; SysUsleep 100; SysConnect 3]).
Proof.
  apply (recv_raw_short_after_three_failures relay_state
           (mkWorld [x01; x02; x03]
              [RecvAvail 2; RecvFail; RecvFail; RecvFail; RecvAvail 1]
              [] [] [] [])
           [x00; x00; x00; x00; x00; x00] 1 4 2
           [x00; x01; x02; x00; x00; x00]
           (mkWorld [x03] [RecvAvail 1] [] [] []
              [SysUsleep 100; SysConnect 3; SysUsleep 100; SysConnect 3])).
  - reflexivity.
  - change (2 ^ 32) with 4294967296. lia.
  - vm_compute. reflexivity.
  - lia.
Defined.

(* ================================================================== *)
(** ** What [recv_message] accepts *)

(** X10.  [recv_message] returns true only on a whole frame: the session
    relays, the bytes taken from the head of the stream are exactly as many
    as the length field of the message says, four at least, and the message
    object holds them from its start on, the rest of it being as before.
    It never takes a byte more than the length says, and never returns true
    on a frame that was cut short. *)
Theorem recv_message_accepts_whole_frames (st : state) (w : world)
    (message message' : Message) (w' : world) :
  recv_message st w message = Ok (true, message', w') ->
  running st = true
  /\ exists bytes,
      incoming w = bytes ++ incoming w'
      /\ Z.of_nat (length bytes) = msg_length message'
      /\ sizeof_u32 <= msg_length message'
      /\ message' = bytes ++ skipn (length bytes) message
      /\ length message' = length message
      /\ after_reads w w'.
Proof.
  unfold recv_message.
  destruct (recv_raw st w message 0 sizeof_u32)
    as [[[size message1] w1] | | | |] eqn:Hhead; cbn [bind]; try discriminate.
  apply recv_raw_takes_prefix_lemma in Hhead;
    [| unfold sizeof_u32; lia
     | unfold sizeof_u32; change (2 ^ 32) with 4294967296; lia].
  destruct Hhead as (Hsize & head & Hin1 & Hcount1 & Hobj1 & _ & Hlen1 & Hafter1).
  destruct (Z.ltb_spec size sizeof_u32) as [Hlt | Hge];
    cbn [orb]; [discriminate |].
  destruct (running st); cbn [negb]; [| discriminate].
  set (len := to_u32 (msg_length message1 - sizeof_u32)).
  destruct (recv_raw st w1 message1 sizeof_u32 len)
    as [[[size2 message2] w2] | | | |] eqn:Hbody; cbn [bind]; try discriminate.
  apply recv_raw_takes_prefix_lemma in Hbody;
    [| unfold sizeof_u32; lia | apply to_u32_range].
  destruct Hbody
    as (Hsize2 & body & Hin2 & Hcount2 & Hobj2 & Hfit & Hlen2 & Hafter2).
  intros H. injection H as Hflag <- <-.
  apply Z.eqb_eq in Hflag.
  unfold sizeof_u32 in *. split; [reflexivity |].
  assert (Hhead4 : length head = 4%nat) by lia.
  assert (Hroom : (4 <= length message)%nat).
  { rewrite <- Hlen1, Hobj1. change (Z.to_nat 0) with 0%nat.
    rewrite splice_start, length_app. lia. }
  exists (head ++ body).
  split; [| split; [| split; [| split; [| split]]]].
  - rewrite Hin1, Hin2. now rewrite app_assoc.
  - rewrite length_app. lia.
  - lia.
  - rewrite Hobj2, Hobj1. change (Z.to_nat 0) with 0%nat.
    change (Z.to_nat 4) with 4%nat. rewrite <- Hhead4.
    destruct body as [| b body].
    + rewrite splice_nil, app_nil_r. apply splice_start.
    + change (length head) with (0 + length head)%nat at 1.
      rewrite splice_splice; [apply splice_start |].
      destruct Hfit as [Hnil | Hfit]; [discriminate Hnil |].
      rewrite Hlen1 in Hfit. cbn [length] in *. lia.
  - congruence.
  - eapply after_reads_trans; eassumption.
Qed.

Lemma recv_message_accepts_whole_frames_witness :
  running relay_state = true
  /\ exists bytes,
      incoming (mkWorld (frame x66 [x01; x02; x03] ++ [x09; x00])
                  [RecvAvail 4; RecvAvail 100] [] [] [] [])
      = bytes ++ incoming (mkWorld [x09; x00] [] [] [] [] [])
      /\ Z.of_nat (length bytes)
         = msg_length (frame x66 [x01; x02; x03] ++ skipn 8 zero_Message)
      /\ sizeof_u32
         <= msg_length (frame x66 [x01; x02; x03] ++ skipn 8 zero_Message)
      /\ frame x66 [x01; x02; x03] ++ skipn 8 zero_Message
         = bytes ++ skipn (length bytes) zero_Message
      /\ length (frame x66 [x01; x02; x03] ++ skipn 8 zero_Message)
         = length zero_Message
      /\ after_reads
           (mkWorld (frame x66 [x01; x02; x03] ++ [x09; x00])
              [RecvAvail 4; RecvAvail 100] [] [] [] [])
           (mkWorld [x09; x00] [] [] [] [] []).
Proof.
  apply (recv_message_accepts_whole_frames relay_state
           (mkWorld (frame x66 [x01; x02; x03] ++ [x09; x00])
              [RecvAvail 4; RecvAvail 100] [] [] [] [])
           zero_Message
           (frame x66 [x01; x02; x03] ++ skipn 8 zero_Message)
           (mkWorld [x09; x00] [] [] [] [] [])).
  vm_compute. reflexivity.
Defined.

(** A frame cut short by a peer that falls silent is refused, with the
    part that came left in the object. *)
Example recv_message_truncated :
  exists message' w',
    recv_message relay_state
      (mkWorld [x08; x00; x00; x00; x66; x01]
         [RecvAvail 4; RecvAvail 100; RecvFail; RecvFail; RecvFail] [] [] [] [])
      zero_Message
    = Ok (false, message', w')
    /\ incoming w' = [].
Proof. eexists; eexists. split; [vm_compute; reflexivity | reflexivity]. Qed.

(* ================================================================== *)
(** ** After [terminate] *)

(** X11.  Once [terminate] has cleared [running], and no address request
    is under way, nothing touches the kernel any more: [recv_raw] returns 0
    at once, [recv_message] returns false, the two senders return -1, a turn
    of [recv_thread] ends its loop and a tick returns the empty string, all
    of them with the world and the object they were given as they were. *)
Theorem terminate_silences (st : state) (w : world) (obj : list byte)
    (off len : Z) (message : Message) :
  ip_requesting st = false ->
  recv_raw (terminate st) w obj off len = Ok (0, obj, w)
  /\ recv_message (terminate st) w message = Ok (false, message, w)
  /\ send_heartbeat (terminate st) w = Ok (-1, w)
  /\ send_ip_request (terminate st) w = Ok (-1, w)
  /\ recv_thread_body (terminate st) w message
     = Ok (false, message, terminate st, w)
  /\ tik (terminate st) w = Ok (EmptyString, terminate st, w).
Proof.
  intros Hreq.
  assert (Hraw : forall obj off len,
             recv_raw (terminate st) w obj off len = Ok (0, obj, w)).
  { intros obj0 off0 len0. unfold recv_raw.
    destruct (recv_script w); cbn [recv_raw_loop];
      cbn [running ip_requesting Java_com_lyricz_a4over6vpn_VPNService_terminate
           set_running]; rewrite Hreq; reflexivity. }
  assert (Hmsg : recv_message (terminate st) w message = Ok (false, message, w)).
  { unfold recv_message. rewrite Hraw. reflexivity. }
  split; [apply Hraw | split; [exact Hmsg |]].
  split; [| split; [| split]].
  - unfold send_heartbeat, send_raw.
    cbn [running ip_requesting Java_com_lyricz_a4over6vpn_VPNService_terminate
         set_running]. now rewrite Hreq.
  - unfold send_ip_request, send_raw.
    cbn [running ip_requesting Java_com_lyricz_a4over6vpn_VPNService_terminate
         set_running]. now rewrite Hreq.
  - unfold recv_thread_body. rewrite Hmsg. reflexivity.
  - unfold Java_com_lyricz_a4over6vpn_VPNService_tik.
    cbn [running Java_com_lyricz_a4over6vpn_VPNService_terminate set_running
         negb]. now rewrite orb_true_r.
Qed.

Lemma terminate_silences_witness :
  recv_raw (terminate relay_state)
    (mkWorld [x01] [RecvAvail 1] [5] [] [] []) [x00; x00] 0 2
  = Ok (0, [x00; x00], mkWorld [x01] [RecvAvail 1] [5] [] [] [])
  /\ recv_message (terminate relay_state)
       (mkWorld [x01] [RecvAvail 1] [5] [] [] []) zero_Message
     = Ok (false, zero_Message, mkWorld [x01] [RecvAvail 1] [5] [] [] [])
  /\ send_heartbeat (terminate relay_state)
       (mkWorld [x01] [RecvAvail 1] [5] [] [] [])
     = Ok (-1, mkWorld [x01] [RecvAvail 1] [5] [] [] [])
  /\ send_ip_request (terminate relay_state)
       (mkWorld [x01] [RecvAvail 1] [5] [] [] [])
     = Ok (-1, mkWorld [x01] [RecvAvail 1] [5] [] [] [])
  /\ recv_thread_body (terminate relay_state)
       (mkWorld [x01] [RecvAvail 1] [5] [] [] []) zero_Message
     = Ok (false, zero_Message, terminate relay_state,
           mkWorld [x01] [RecvAvail 1] [5] [] [] [])
  /\ tik (terminate relay_state) (mkWorld [x01] [RecvAvail 1] [5] [] [] [])
     = Ok (EmptyString, terminate relay_state,
           mkWorld [x01] [RecvAvail 1] [5] [] [] []).
Proof.
  apply (terminate_silences relay_state
           (mkWorld [x01] [RecvAvail 1] [5] [] [] []) [x00; x00] 0 2
           zero_Message).
  reflexivity.
Defined.

(* ================================================================== *)
(** ** A turn of [send_thread] *)

(** X12.  A packet read from the tun that is not empty goes out as one
    [NET_REQUEST] frame in one [send]: its first 4096 bytes at most, behind
    the length (their number plus 5) and the type; the length of the frame
    is added to [bytes_sent] whatever [send] returns. *)
Theorem send_thread_sends_frame (st : state) (w : world) (packet : list byte)
    (rest : list tun_outcome) (sent : Z) (results : list Z) :
  session_active st = true ->
  tun_script w = TunPacket packet :: rest ->
  packet <> [] ->
  send_script w = sent :: results ->
  send_thread_body st w
  = Ok (set_bytes_sent st
          (to_u32 (bytes_sent st
                   + (Z.of_nat (length (firstn 4096 packet)) + 5))),
        emit (set_send_script (set_tun_script w rest) results)
          (SysSend (sockfd st) (frame x66 (firstn 4096 packet)) sent)).
Proof.
  intros Hact Htun Hsome Hsend.
  set (data := firstn 4096 packet).
  set (w0 := set_tun_script w (TunPacket data :: rest)).
  assert (Hsame : send_thread_body st w = send_thread_body st w0).
  { unfold send_thread_body. rewrite Htun. cbn [tun_script w0 set_tun_script].
    unfold sys_tun_read, data. change (Z.to_nat DATA_MAX_LENGTH) with 4096%nat.
    rewrite firstn_firstn, Nat.min_id. reflexivity. }
  rewrite Hsame.
  rewrite (send_thread_body_packet st w0 data rest sent results);
    try assumption; try reflexivity.
  unfold data. rewrite length_firstn.
  change (Z.to_nat DATA_MAX_LENGTH) with 4096%nat.
  destruct packet; [now destruct Hsome | cbn [length]; lia].
Qed.

Lemma send_thread_sends_frame_witness :
  send_thread_body relay_state
    (mkWorld [] [] [-1] [TunPacket (repeat xaa 5000)] [] [])
  = Ok (set_bytes_sent relay_state
          (to_u32 (bytes_sent relay_state
                   + (Z.of_nat (length (firstn 4096 (repeat xaa 5000))) + 5))),
        emit (set_send_script
                (set_tun_script
                   (mkWorld [] [] [-1] [TunPacket (repeat xaa 5000)] [] []) [])
                [])
          (SysSend (sockfd relay_state)
             (frame x66 (firstn 4096 (repeat xaa 5000))) (-1))).
Proof.
  apply (send_thread_sends_frame relay_state
           (mkWorld [] [] [-1] [TunPacket (repeat xaa 5000)] [] [])
           (repeat xaa 5000) [] (-1) []).
  - reflexivity.
  - reflexivity.
  - discriminate.
  - reflexivity.
Defined.

(** X13.  Whatever a turn of [send_thread] finds, it reads the tun once,
    calls [send] once at most and nothing else, leaves the stream of the
    socket alone, and changes no global but [bytes_sent]. *)
Theorem send_thread_touches_bytes_sent_only (st : state) (w : world)
    (st' : state) (w' : world) :
  send_thread_body st w = Ok (st', w') ->
  st' = set_bytes_sent st (bytes_sent st')
  /\ incoming w' = incoming w
  /\ recv_script w' = recv_script w
  /\ tun_write_script w' = tun_write_script w
  /\ (exists ev, tun_script w = ev :: tun_script w')
  /\ ((log w' = log w /\ send_script w' = send_script w)
      \/ exists bytes ret,
          log w' = log w ++ [SysSend (sockfd st) bytes ret]
          /\ send_script w = ret :: send_script w').
Proof.
  unfold send_thread_body.
  destruct (tun_script w) as [| ev rest] eqn:Htun; [discriminate |].
  destruct (sys_tun_read ev DATA_MAX_LENGTH) as [ret got].
  destruct (store zero_Message offset_data got) as [message | | | |];
    cbn [bind]; try discriminate.
  destruct (to_u32 ret >? 0).
  2:{ intros H; injection H as <- <-. cbn.
      split; [now destruct st |]. repeat split; try reflexivity; eauto. }
  unfold send_raw.
  destruct (negb (running st) && negb (ip_requesting st)).
  { cbn [bind]. intros H; inversion H; subst. cbn.
    repeat split; try reflexivity; eauto. }
  destruct (load _ 0 _) as [bytes | | | |]; cbn [bind]; try discriminate.
  cbn [send_script set_tun_script].
  destruct (send_script w) as [| sent results] eqn:Hsend; [discriminate |].
  destruct (to_u32 sent <? _); cbn [bind]; intros H; inversion H; subst; cbn;
    (split; [reflexivity |]); (split; [reflexivity |]);
    (split; [reflexivity |]); (split; [reflexivity |]);
    (split; [eauto |]); right; eauto.
Qed.

Lemma send_thread_touches_bytes_sent_only_witness :
  mkState 3 7 10 0 0 1008 0 true false
  = set_bytes_sent (mkState 3 7 10 0 0 1000 0 true false)
      (bytes_sent (mkState 3 7 10 0 0 1008 0 true false))
  /\ incoming (mkWorld [] [] [] [] []
                 [SysSend 3 [x08; x00; x00; x00; x66; x45; x00; x01] 8])
     = incoming (mkWorld [] [] [8] [TunPacket [x45; x00; x01]] [] [])
  /\ recv_script (mkWorld [] [] [] [] []
                    [SysSend 3 [x08; x00; x00; x00; x66; x45; x00; x01] 8])
     = recv_script (mkWorld [] [] [8] [TunPacket [x45; x00; x01]] [] [])
  /\ tun_write_script
       (mkWorld [] [] [] [] []
          [SysSend 3 [x08; x00; x00; x00; x66; x45; x00; x01] 8])
     = tun_write_script (mkWorld [] [] [8] [TunPacket [x45; x00; x01]] [] [])
  /\ (exists ev,
         tun_script (mkWorld [] [] [8] [TunPacket [x45; x00; x01]] [] [])
         = ev :: tun_script
                   (mkWorld [] [] [] [] []
                      [SysSend 3 [x08; x00; x00; x00; x66; x45; x00; x01] 8]))
  /\ ((log (mkWorld [] [] [] [] []
              [SysSend 3 [x08; x00; x00; x00; x66; x45; x00; x01] 8])
       = log (mkWorld [] [] [8] [TunPacket [x45; x00; x01]] [] [])
       /\ send_script
            (mkWorld [] [] [] [] []
               [SysSend 3 [x08; x00; x00; x00; x66; x45; x00; x01] 8])
          = send_script (mkWorld [] [] [8] [TunPacket [x45; x00; x01]] [] []))
      \/ exists bytes ret,
          log (mkWorld [] [] [] [] []
                 [SysSend 3 [x08; x00; x00; x00; x66; x45; x00; x01] 8])
          = log (mkWorld [] [] [8] [TunPacket [x45; x00; x01]] [] [])
            ++ [SysSend (sockfd (mkState 3 7 10 0 0 1000 0 true false))
                  bytes ret]
          /\ send_script (mkWorld [] [] [8] [TunPacket [x45; x00; x01]] [] [])
             = ret :: send_script
                        (mkWorld [] [] [] [] []
                           [SysSend 3
                              [x08; x00; x00; x00; x66; x45; x00; x01] 8])).
Proof.
  apply (send_thread_touches_bytes_sent_only
           (mkState 3 7 10 0 0 1000 0 true false)
           (mkWorld [] [] [8] [TunPacket [x45; x00; x01]] [] [])
           (mkState 3 7 10 0 0 1008 0 true false)
           (mkWorld [] [] [] [] []
              [SysSend 3 [x08; x00; x00; x00; x66; x45; x00; x01] 8])).
  vm_compute. reflexivity.
Defined.

(* ================================================================== *)
(** ** A turn of [recv_thread] on a frame *)

Lemma Z_of_byte_inj (a b : byte) : Z_of_byte a = Z_of_byte b -> a = b.
Proof.
  intros H. rewrite <- (byte_of_Z_of_byte a), <- (byte_of_Z_of_byte b).
  now rewrite H.
Qed.

(** What the receiver computes from a message object that starts with a
    frame: the length of the payload, and the payload. *)
Lemma payload_of_frame (type : byte) (payload : list byte) (message : Message) :
  (length payload <= Z.to_nat DATA_MAX_LENGTH)%nat ->
  length message = Z.to_nat sizeof_Message ->
  to_int (msg_length
            (frame type payload ++ skipn (length (frame type payload)) message)
          - sizeof_u32 - sizeof_u8)
  = Z.of_nat (length payload)
  /\ load (frame type payload ++ skipn (length (frame type payload)) message)
       offset_data (Z.of_nat (length payload))
     = Ok payload.
Proof.
  intros Hcap Hsize. rewrite msg_length_frame by exact Hcap.
  assert (Hcap' : (length payload <= 4096)%nat) by exact Hcap.
  split.
  - unfold sizeof_u32, sizeof_u8. rewrite to_int_id; simpl (2 ^ 31); lia.
  - apply load_data_frame; [exact Hcap |].
    rewrite length_app, length_skipn, frame_length, Hsize.
    change (Z.to_nat sizeof_Message) with 4104%nat. lia.
Qed.

(** X14.  A heartbeat frame on the stream of a relaying session: the turn
    of [recv_thread] takes it, sets [time_last_heartbeat] to the present
    [time_connected], changes no other global, writes nothing to the tun
    and goes on. *)
Theorem recv_thread_notes_heartbeat (payload : list byte)
    (st : state) (w : world) (message : Message) (tail : list byte)
    (middle rest : list recv_outcome) :
  (length payload <= Z.to_nat DATA_MAX_LENGTH)%nat ->
  running st = true ->
  length message = Z.to_nat sizeof_Message ->
  incoming w = frame x68 payload ++ tail ->
  delivers 0 4 (recv_script w) middle ->
  delivers 0 (S (length payload)) middle rest ->
  exists w',
    recv_thread_body st w message
    = Ok (true,
          frame x68 payload ++ skipn (length (frame x68 payload)) message,
          set_time_last_heartbeat st (time_connected st), w')
    /\ incoming w' = tail
    /\ recv_script w' = rest
    /\ after_reads w w'.
Proof.
  intros Hcap Hrun Hsize Hstream Dhead Dbody.
  destruct (recv_message_of_frame x68 payload st w message tail middle rest)
    as (w' & Hrecv & Hrest); try assumption.
  exists w'. split; [| exact Hrest].
  unfold recv_thread_body. rewrite Hrecv. reflexivity.
Qed.

Lemma recv_thread_notes_heartbeat_witness :
  exists w',
    recv_thread_body (mkState 3 7 42 10 5 0 0 true false)
      (mkWorld (frame x68 [] ++ [x09])
         [RecvAvail 3; RecvAvail 3; RecvAvail 3] [] [] [] [])
      zero_Message
    = Ok (true,
          frame x68 [] ++ skipn (length (frame x68 [])) zero_Message,
          set_time_last_heartbeat (mkState 3 7 42 10 5 0 0 true false)
            (time_connected (mkState 3 7 42 10 5 0 0 true false)), w')
    /\ incoming w' = [x09]
    /\ recv_script w' = []
    /\ after_reads
         (mkWorld (frame x68 [] ++ [x09])
            [RecvAvail 3; RecvAvail 3; RecvAvail 3] [] [] [] [])
         w'.
Proof.
  apply (recv_thread_notes_heartbeat [] (mkState 3 7 42 10 5 0 0 true false)
           (mkWorld (frame x68 [] ++ [x09])
              [RecvAvail 3; RecvAvail 3; RecvAvail 3] [] [] [] [])
           zero_Message [x09] [RecvAvail 3] []).
  - apply Nat.leb_le. vm_compute. reflexivity.
  - reflexivity.
  - apply repeat_length.
  - reflexivity.
  - cbn [recv_script]. delivery.
  - cbn [length]. delivery.
Defined.

(** X15.  A [NET_REPLY] frame on the stream of a relaying session: the turn
    of [recv_thread] takes it and writes its payload, and nothing else, to
    the tun in one [write].  When [write] returns the length of the
    payload, the length of the frame is added to [bytes_recv] and the loop
    goes on; when it returns anything else the loop is left with the
    globals as they were, [running] still set. *)
Theorem recv_thread_writes_payload (payload : list byte)
    (st : state) (w : world) (message : Message) (tail : list byte)
    (middle rest : list recv_outcome) (ret : Z) (results : list Z) :
  (length payload <= Z.to_nat DATA_MAX_LENGTH)%nat ->
  running st = true ->
  length message = Z.to_nat sizeof_Message ->
  incoming w = frame x67 payload ++ tail ->
  delivers 0 4 (recv_script w) middle ->
  delivers 0 (S (length payload)) middle rest ->
  tun_write_script w = ret :: results ->
  exists w',
    recv_thread_body st w message
    = Ok (ret =? Z.of_nat (length payload),
          frame x67 payload ++ skipn (length (frame x67 payload)) message,
          (if ret =? Z.of_nat (length payload)
           then set_bytes_recv st
                  (to_u32 (bytes_recv st + (Z.of_nat (length payload) + 5)))
           else st),
          emit (set_tun_write_script w' results)
            (SysTunWrite (tunfd st) payload ret))
    /\ incoming w' = tail
    /\ recv_script w' = rest
    /\ after_reads w w'.
Proof.
  intros Hcap Hrun Hsize Hstream Dhead Dbody Hwrite.
  destruct (recv_message_of_frame x67 payload st w message tail middle rest)
    as (w' & Hrecv & Hinc & Hscr & Hafter); try assumption.
  destruct (payload_of_frame x67 payload message Hcap Hsize) as [Hlen Hload].
  exists w'. split; [| auto].
  unfold recv_thread_body. rewrite Hrecv. cbn [bind negb].
  change (msg_type (frame x67 payload ++ _) =? NET_REPLY) with true.
  cbv iota. rewrite Hlen, Hload. cbn [bind].
  destruct Hafter as (_ & _ & -> & _). rewrite Hwrite.
  rewrite (msg_length_frame x67 payload Hcap).
  rewrite (Z.eqb_sym (Z.of_nat (length payload)) ret).
  destruct (ret =? Z.of_nat (length payload)); reflexivity.
Qed.

Lemma recv_thread_writes_payload_witness :
  exists w',
    recv_thread_body relay_state
      (mkWorld (frame x67 [x45; x00; x01] ++ [x09])
         [RecvAvail 4; RecvAvail 100] [] [] [3] [])
      zero_Message
    = Ok (3 =? Z.of_nat (length [x45; x00; x01]),
          frame x67 [x45; x00; x01]
          ++ skipn (length (frame x67 [x45; x00; x01])) zero_Message,
          (if 3 =? Z.of_nat (length [x45; x00; x01])
           then set_bytes_recv relay_state
                  (to_u32 (bytes_recv relay_state
                           + (Z.of_nat (length [x45; x00; x01]) + 5)))
           else relay_state),
          emit (set_tun_write_script w' [])
            (SysTunWrite (tunfd relay_state) [x45; x00; x01] 3))
    /\ incoming w' = [x09]
    /\ recv_script w' = []
    /\ after_reads
         (mkWorld (frame x67 [x45; x00; x01] ++ [x09])
            [RecvAvail 4; RecvAvail 100] [] [] [3] [])
         w'.
Proof.
  apply (recv_thread_writes_payload [x45; x00; x01] relay_state
           (mkWorld (frame x67 [x45; x00; x01] ++ [x09])
              [RecvAvail 4; RecvAvail 100] [] [] [3] [])
           zero_Message [x09] [RecvAvail 100] [] 3 []).
  - apply Nat.leb_le. vm_compute. reflexivity.
  - reflexivity.
  - apply repeat_length.
  - reflexivity.
  - cbn [recv_script]. delivery.
  - cbn [length]. delivery.
  - reflexivity.
Defined.

(** X16.  A frame of any other type on the stream of a relaying session,
    an [IP_REPLY] or a type that the protocol does not have: the turn of
    [recv_thread] takes the whole frame, changes no global, writes nothing
    to the tun and goes on. *)
Theorem recv_thread_drops_other_frames (type : byte) (payload : list byte)
    (st : state) (w : world) (message : Message) (tail : list byte)
    (middle rest : list recv_outcome) :
  type <> x67 ->
  type <> x68 ->
  (length payload <= Z.to_nat DATA_MAX_LENGTH)%nat ->
  running st = true ->
  length message = Z.to_nat sizeof_Message ->
  incoming w = frame type payload ++ tail ->
  delivers 0 4 (recv_script w) middle ->
  delivers 0 (S (length payload)) middle rest ->
  exists w',
    recv_thread_body st w message
    = Ok (true,
          frame type payload ++ skipn (length (frame type payload)) message,
          st, w')
    /\ incoming w' = tail
    /\ recv_script w' = rest
    /\ after_reads w w'.
Proof.
  intros Hdata Hbeat Hcap Hrun Hsize Hstream Dhead Dbody.
  destruct (recv_message_of_frame type payload st w message tail middle rest)
    as (w' & Hrecv & Hrest); try assumption.
  exists w'. split; [| exact Hrest].
  unfold recv_thread_body. rewrite Hrecv. cbn [bind negb].
  change (msg_type (frame type payload ++ _)) with (Z_of_byte type).
  destruct (Z.eqb_spec (Z_of_byte type) NET_REPLY) as [H103 | _].
  { destruct Hdata. apply Z_of_byte_inj. exact H103. }
  destruct (Z.eqb_spec (Z_of_byte type) HEARTBEAT) as [H104 | _].
  { destruct Hbeat. apply Z_of_byte_inj. exact H104. }
  reflexivity.
Qed.

Lemma recv_thread_drops_other_frames_witness :
  exists w',
    recv_thread_body relay_state
      (mkWorld (frame x65 address_10_0_0_2 ++ [x09])
         [RecvAvail 4; RecvAvail 100] [] [] [] [])
      zero_Message
    = Ok (true,
          frame x65 address_10_0_0_2
          ++ skipn (length (frame x65 address_10_0_0_2)) zero_Message,
          relay_state, w')
    /\ incoming w' = [x09]
    /\ recv_script w' = []
    /\ after_reads
         (mkWorld (frame x65 address_10_0_0_2 ++ [x09])
            [RecvAvail 4; RecvAvail 100] [] [] [] [])
         w'.
Proof.
  apply (recv_thread_drops_other_frames x65 address_10_0_0_2 relay_state
           (mkWorld (frame x65 address_10_0_0_2 ++ [x09])
              [RecvAvail 4; RecvAvail 100] [] [] [] [])
           zero_Message [x09] [RecvAvail 100] []).
  - discriminate.
  - discriminate.
  - apply Nat.leb_le. vm_compute. reflexivity.
  - reflexivity.
  - apply repeat_length.
  - reflexivity.
  - cbn [recv_script]. delivery.
  - cbn [length address_10_0_0_2]. delivery.
Defined.

(** X17.  Whatever a turn of [recv_thread] finds, it leaves [sockfd],
    [tunfd], [time_connected], [time_send_heartbeat], [bytes_sent] and
    [ip_requesting] as they were; it clears [running] only when it ends the
    loop, and never sets it; it sends nothing and reads no packet from the
    tun, and besides the sleeps and reconnections of its reads it makes one
    [write] to the tun at most. *)
Theorem recv_thread_frame (st : state) (w : world) (message : Message)
    (ok : bool) (message' : Message) (st' : state) (w' : world) :
  recv_thread_body st w message = Ok (ok, message', st', w') ->
  st' = set_running
          (set_bytes_recv
             (set_time_last_heartbeat st (time_last_heartbeat st'))
             (bytes_recv st'))
          (running st')
  /\ (running st' = running st \/ (ok = false /\ running st' = false))
  /\ send_script w' = send_script w
  /\ tun_script w' = tun_script w
  /\ exists waits writes,
      log w' = log w ++ waits ++ writes
      /\ forallb is_wait waits = true
      /\ (writes = []
          \/ exists bytes ret, writes = [SysTunWrite (tunfd st) bytes ret]).
Proof.
  unfold recv_thread_body.
  destruct (recv_message st w message) as [[[got message1] w1] | | | |] eqn:Hrecv;
    cbn [bind]; try discriminate.
  apply recv_message_after_reads in Hrecv.
  destruct Hrecv as (Hsend & Htun & Hwrite & waits & Hlog & Hwaits).
  assert (Hquiet : exists waits0 writes,
             log w1 = log w ++ waits0 ++ writes
             /\ forallb is_wait waits0 = true
             /\ (writes = []
                 \/ exists bytes ret,
                     writes = [SysTunWrite (tunfd st) bytes ret])).
  { exists waits, []. rewrite app_nil_r. auto. }
  destruct got; cbn [negb].
  2:{ intros H; injection H as <- <- <- <-.
      split; [now destruct st |]. cbn. auto 6. }
  destruct (msg_type message1 =? NET_REPLY).
  - destruct (load message1 offset_data _) as [bytes | | | |];
      cbn [bind]; try discriminate.
    destruct (tun_write_script w1) as [| ret rest]; [discriminate |].
    assert (Hwrote : exists waits0 writes,
               log (emit (set_tun_write_script w1 rest)
                      (SysTunWrite (tunfd st) bytes ret))
               = log w ++ waits0 ++ writes
               /\ forallb is_wait waits0 = true
               /\ (writes = []
                   \/ exists bytes0 ret0,
                       writes = [SysTunWrite (tunfd st) bytes0 ret0])).
    { exists waits, [SysTunWrite (tunfd st) bytes ret].
      cbn [log emit set_tun_write_script]. rewrite Hlog, <- app_assoc.
      eauto 6. }
    destruct (negb _); intros H; injection H as <- <- <- <-;
      (split; [now destruct st |]); cbn; auto 6.
  - destruct (msg_type message1 =? HEARTBEAT);
      intros H; injection H as <- <- <- <-;
      (split; [now destruct st |]); cbn; auto 6.
Qed.

Lemma recv_thread_frame_witness :
  set_running relay_state false
  = set_running
      (set_bytes_recv
         (set_time_last_heartbeat relay_state
            (time_last_heartbeat (set_running relay_state false)))
         (bytes_recv (set_running relay_state false)))
      (running (set_running relay_state false))
  /\ (running (set_running relay_state false) = running relay_state
      \/ (false = false /\ running (set_running relay_state false) = false))
  /\ send_script
       (mkWorld [] [] [] [] []
          [SysUsleep 100; SysConnect 3; SysUsleep 100; SysConnect 3])
     = send_script (mkWorld [] [RecvFail; RecvFail; RecvFail] [] [] [] [])
  /\ tun_script
       (mkWorld [] [] [] [] []
          [SysUsleep 100; SysConnect 3; SysUsleep 100; SysConnect 3])
     = tun_script (mkWorld [] [RecvFail; RecvFail; RecvFail] [] [] [] [])
  /\ exists waits writes,
      log (mkWorld [] [] [] [] []
             [SysUsleep 100; SysConnect 3; SysUsleep 100; SysConnect 3])
      = log (mkWorld [] [RecvFail; RecvFail; RecvFail] [] [] [] [])
        ++ waits ++ writes
      /\ forallb is_wait waits = true
      /\ (writes = []
          \/ exists bytes ret,
              writes = [SysTunWrite (tunfd relay_state) bytes ret]).
Proof.
  apply (recv_thread_frame relay_state
           (mkWorld [] [RecvFail; RecvFail; RecvFail] [] [] [] [])
           zero_Message false zero_Message (set_running relay_state false)
           (mkWorld [] [] [] [] []
              [SysUsleep 100; SysConnect 3; SysUsleep 100; SysConnect 3])).
  vm_compute. reflexivity.
Defined.

(* ================================================================== *)
(** ** Ticks after a heartbeat *)

(** Ticks on a session that stays within 60 of its last heartbeat: they
    all return, count the time, and take one result of [send] each time the
    heartbeat-send counter comes back to zero. *)
Lemma ticks_alive (n : nat) :
  forall st w,
    sockfd st <> -1 ->
    running st = true ->
    is_u32 (bytes_sent st) ->
    is_u32 (bytes_recv st) ->
    0 <= time_send_heartbeat st < 20 ->
    0 <= time_last_heartbeat st <= time_connected st ->
    time_connected st + Z.of_nat n - time_last_heartbeat st <= 60 ->
    time_connected st + Z.of_nat n < 2 ^ 32 ->
    (time_send_heartbeat st + Z.of_nat n) / 20
    <= Z.of_nat (length (send_script w)) ->
    exists st' w',
      ticks n st w = Ok (st', w')
      /\ st' = set_time_send_heartbeat
                 (set_time_connected st (time_connected st + Z.of_nat n))
                 ((time_send_heartbeat st + Z.of_nat n) mod 20)
      /\ Z.of_nat (length (send_script w'))
         = Z.of_nat (length (send_script w))
           - (time_send_heartbeat st + Z.of_nat n) / 20.
Proof.
  induction n as [| n IH];
    intros st w Hopen Hrun Hsent Hrecv Hcount Hlast Hgap Hwrap Hscript.
  - exists st, w. cbn [ticks Z.of_nat]. rewrite !Z.add_0_r.
    rewrite Z.mod_small, Z.div_small by lia.
    split; [reflexivity | split; [now destruct st | lia]].
  - rewrite Nat2Z.inj_succ in *. change (2 ^ 32) with 4294967296 in Hwrap.
    assert (Hgap1 : to_u32 (to_u32 (time_connected st + 1)
                            - time_last_heartbeat st) <= 60).
    { rewrite (to_u32_id (time_connected st + 1))
        by (change (2 ^ 32) with 4294967296; lia).
      rewrite to_u32_id by (change (2 ^ 32) with 4294967296; lia). lia. }
    assert (Hc1 : to_u32 (time_send_heartbeat st + 1)
                  = time_send_heartbeat st + 1)
      by (apply to_u32_id; change (2 ^ 32) with 4294967296; lia).
    destruct (tik_alive_returns st w) as (s & st1 & w1 & Htik);
      try assumption.
    { rewrite Hc1. intros H20 Hnil. rewrite Hnil in Hscript.
      cbn [length Z.of_nat] in Hscript.
      revert Hscript. Z.div_mod_to_equations. lia. }
    destruct (tik_alive_inv st w Hopen Hrun s st1 w1 Hgap1 Htik)
      as (Hst1 & _ & Hw1).
    rewrite Hc1 in Hw1. unfold next_send_count in Hst1. rewrite Hc1 in Hst1.
    rewrite (to_u32_id (time_connected st + 1)) in Hst1
      by (change (2 ^ 32) with 4294967296; lia).
    assert (Hscript1 :
              Z.of_nat (length (send_script w1))
              = Z.of_nat (length (send_script w))
                - (if time_send_heartbeat st + 1 =? 20 then 1 else 0)).
    { destruct (time_send_heartbeat st + 1 =? 20).
      - destruct Hw1 as (sent & rest & Hs & ->). rewrite Hs.
        cbn [send_script emit set_send_script length]. lia.
      - subst w1. lia. }
    destruct (IH st1 w1) as (st' & w' & Hticks & Hst' & Hleft);
      try (subst st1; cbn; assumption).
    + subst st1. cbn. destruct (Z.eqb_spec (time_send_heartbeat st + 1) 20); lia.
    + subst st1. cbn. lia.
    + subst st1. cbn. lia.
    + subst st1. cbn. change (2 ^ 32) with 4294967296. lia.
    + rewrite Hscript1. subst st1. cbn.
      destruct (Z.eqb_spec (time_send_heartbeat st + 1) 20) as [H20 | H20];
        revert Hscript; Z.div_mod_to_equations; lia.
    + exists st', w'. split; [| split].
      * cbn [ticks]. rewrite Htik. cbn [bind]. exact Hticks.
      * rewrite Hst'. subst st1.
        unfold set_time_send_heartbeat, set_time_connected.
        cbn [sockfd tunfd time_connected time_last_heartbeat
             time_send_heartbeat bytes_sent bytes_recv running ip_requesting].
        f_equal; try lia.
        destruct (Z.eqb_spec (time_send_heartbeat st + 1) 20) as [H20 | H20];
          Z.div_mod_to_equations; lia.
      * rewrite Hleft, Hscript1. subst st1. cbn.
        destruct (Z.eqb_spec (time_send_heartbeat st + 1) 20) as [H20 | H20];
          Z.div_mod_to_equations; lia.
Qed.

(** X18.  A heartbeat buys sixty ticks.  On an active session whose
    [time_last_heartbeat] is the present [time_connected], as [recv_thread]
    leaves it on a heartbeat, the next sixty ticks all leave the session
    running, as long as no other heartbeat is noted; the sixty-first
    returns the empty string and clears [running]. *)
Theorem heartbeat_buys_sixty_ticks (st : state) (w : world) :
  sockfd st <> -1 ->
  running st = true ->
  is_u32 (bytes_sent st) ->
  is_u32 (bytes_recv st) ->
  0 <= time_send_heartbeat st < 20 ->
  time_last_heartbeat st = time_connected st ->
  0 <= time_connected st ->
  time_connected st + 61 < 2 ^ 32 ->
  (3 <= length (send_script w))%nat ->
  (forall n,
      (n <= 60)%nat ->
      exists st' w',
        ticks n st w = Ok (st', w')
        /\ running st' = true
        /\ time_connected st' = time_connected st + Z.of_nat n
        /\ time_last_heartbeat st' = time_last_heartbeat st)
  /\ exists st60 w60,
      ticks 60 st w = Ok (st60, w60)
      /\ tik st60 w60
         = Ok (EmptyString,
               set_running
                 (set_time_connected st60 (time_connected st + 61)) false,
               w60).
Proof.
  intros Hopen Hrun Hsent Hrecv Hcount Hlast Hpos Hwrap Hscript.
  change (2 ^ 32) with 4294967296 in Hwrap.
  assert (Hticks : forall n,
             (n <= 60)%nat ->
             exists st' w',
               ticks n st w = Ok (st', w')
               /\ st' = set_time_send_heartbeat
                          (set_time_connected st
                             (time_connected st + Z.of_nat n))
                          ((time_send_heartbeat st + Z.of_nat n) mod 20)).
  { intros n Hn.
    destruct (ticks_alive n st w) as (st' & w' & H1 & H2 & _);
      try assumption; try lia;
      try (change (2 ^ 32) with 4294967296; lia);
      try (apply Z.le_trans with 3; [| lia];
           apply Z.lt_succ_r; apply Z.div_lt_upper_bound; lia).
    eauto. }
  split.
  - intros n Hn. destruct (Hticks n Hn) as (st' & w' & H1 & Hst).
    exists st', w'. split; [exact H1 |]. subst st'. cbn. auto.
  - destruct (Hticks 60%nat (Nat.le_refl 60)) as (st60 & w60 & H1 & Hst).
    exists st60, w60. split; [exact H1 |].
    assert (Htc : time_connected st60 = time_connected st + 60)
      by (subst st60; reflexivity).
    assert (Hlh : time_last_heartbeat st60 = time_connected st)
      by (subst st60; cbn; exact Hlast).
    rewrite tik_stale.
    + rewrite Htc. rewrite to_u32_id by (change (2 ^ 32) with 4294967296; lia).
      replace (time_connected st + 61) with (time_connected st + 60 + 1) by lia.
      reflexivity.
    + subst st60. exact Hopen.
    + subst st60. exact Hrun.
    + rewrite Htc, Hlh.
      rewrite (to_u32_id (time_connected st + 60 + 1))
        by (change (2 ^ 32) with 4294967296; lia).
      rewrite to_u32_id by (change (2 ^ 32) with 4294967296; lia). lia.
Qed.

Lemma heartbeat_buys_sixty_ticks_witness :
  (forall n,
      (n <= 60)%nat ->
      exists st' w',
        ticks n (mkState 3 7 100 100 7 0 0 true false)
          (set_send_script quiet_world [5; 5; 5])
        = Ok (st', w')
        /\ running st' = true
        /\ time_connected st'
           = time_connected (mkState 3 7 100 100 7 0 0 true false) + Z.of_nat n
        /\ time_last_heartbeat st'
           = time_last_heartbeat (mkState 3 7 100 100 7 0 0 true false))
  /\ exists st60 w60,
      ticks 60 (mkState 3 7 100 100 7 0 0 true false)
        (set_send_script quiet_world [5; 5; 5])
      = Ok (st60, w60)
      /\ tik st60 w60
         = Ok (EmptyString,
               set_running
                 (set_time_connected st60
                    (time_connected (mkState 3 7 100 100 7 0 0 true false) + 61))
                 false,
               w60).
Proof.
  apply (heartbeat_buys_sixty_ticks (mkState 3 7 100 100 7 0 0 true false)
           (set_send_script quiet_world [5; 5; 5])).
  - discriminate.
  - reflexivity.
  - unfold is_u32, u32_modulus. cbn. lia.
  - unfold is_u32, u32_modulus. cbn. lia.
  - cbn. lia.
  - reflexivity.
  - cbn. lia.
  - cbn. lia.
  - cbn. lia.
Defined.

(** X19.  What the string returned by a tick tells: it is empty exactly
    when there is no open socket, or [running] is clear, or the tick finds
    the session stale; and a tick that returns the empty string has sent
    nothing and has not counted towards the next heartbeat. *)
Theorem tik_empty_string (st : state) (w : world) (s : string) (st' : state)
    (w' : world) :
  tik st w = Ok (s, st', w') ->
  (s = EmptyString
   <-> sockfd st = -1 \/ running st = false
       \/ 60 < to_u32 (to_u32 (time_connected st + 1) - time_last_heartbeat st))
  /\ (s = EmptyString ->
      w' = w /\ time_send_heartbeat st' = time_send_heartbeat st).
Proof.
  intros Htik.
  destruct (Z.eq_dec (sockfd st) (-1)) as [Hclosed | Hopen].
  { unfold Java_com_lyricz_a4over6vpn_VPNService_tik in Htik.
    rewrite Hclosed in Htik. cbn [Z.eqb Pos.eqb orb] in Htik.
    injection Htik as <- <- <-. split; [tauto | auto]. }
  destruct (running st) eqn:Hrun.
  2:{ unfold Java_com_lyricz_a4over6vpn_VPNService_tik in Htik.
      rewrite Hrun in Htik. cbn [negb] in Htik. rewrite orb_true_r in Htik.
      injection Htik as <- <- <-. split; [tauto | auto]. }
  destruct (Z_le_gt_dec
              (to_u32 (to_u32 (time_connected st + 1) - time_last_heartbeat st))
              60) as [Halive | Hstale].
  - destruct (tik_alive_inv st w Hopen Hrun s st' w' Halive Htik)
      as (_ & Hs & _).
    split; [| intros He; now destruct Hs].
    split; [intros He; now destruct Hs |].
    intros [H | [H | H]]; [now destruct Hopen | discriminate H | lia].
  - rewrite tik_stale in Htik by (assumption || lia).
    injection Htik as <- <- <-. split; [| auto].
    split; [intros _; right; right; lia | reflexivity].
Qed.

Lemma tik_empty_string_witness :
  (EmptyString = EmptyString
   <-> sockfd (mkState 3 7 75 10 13 5000 7000 true false) = -1
       \/ running (mkState 3 7 75 10 13 5000 7000 true false) = false
       \/ 60 < to_u32 (to_u32 (time_connected
                                 (mkState 3 7 75 10 13 5000 7000 true false) + 1)
                       - time_last_heartbeat
                           (mkState 3 7 75 10 13 5000 7000 true false)))
  /\ (EmptyString = EmptyString ->
      quiet_world = quiet_world
      /\ time_send_heartbeat (mkState 3 7 76 10 13 5000 7000 false false)
         = time_send_heartbeat (mkState 3 7 75 10 13 5000 7000 true false)).
Proof.
  apply (tik_empty_string (mkState 3 7 75 10 13 5000 7000 true false)
           quiet_world EmptyString
           (mkState 3 7 76 10 13 5000 7000 false false) quiet_world).
  vm_compute. reflexivity.
Defined.

(* ================================================================== *)
(** ** The control frames and the reply to [request] *)

Lemma control_frames_lemma (st : state) (w : world) (sent : Z) (rest : list Z) :
  session_active st = true ->
  send_script w = sent :: rest ->
  send_heartbeat st w
  = Ok (if to_u32 sent <? 5 then -1 else sent,
        emit (set_send_script w rest) (SysSend (sockfd st) (frame x68 []) sent))
  /\ send_ip_request st w
     = Ok (if to_u32 sent <? 5 then -1 else sent,
           emit (set_send_script w rest)
             (SysSend (sockfd st) (frame x64 []) sent)).
Proof.
  intros Hact Hsend. unfold send_heartbeat, send_ip_request, send_raw.
  replace (negb (running st) && negb (ip_requesting st)) with false
    by (unfold session_active in Hact;
        destruct (running st), (ip_requesting st); simpl in *; congruence).
  change (load heartbeat 0 (msg_length heartbeat)) with (Ok (frame x68 [])).
  change (load ip_request 0 (msg_length ip_request)) with (Ok (frame x64 [])).
  cbn [bind]. rewrite Hsend.
  change (msg_length heartbeat) with 5. change (msg_length ip_request) with 5.
  destruct (to_u32 sent <? 5); split; reflexivity.
Qed.

(** X20.  On an active session each of the two senders makes one [send] of
    five bytes, the frame of its type with no payload: length 5 on four
    bytes, then [HEARTBEAT] for [send_heartbeat] and [IP_REQUEST] for
    [send_ip_request]; it returns what [send] returns when that is 5 or
    more, and -1 otherwise. *)
Theorem control_frames_on_the_wire (st : state) (w : world) (sent : Z)
    (rest : list Z) :
  session_active st = true ->
  send_script w = sent :: rest ->
  send_heartbeat st w
  = Ok (if to_u32 sent <? 5 then -1 else sent,
        emit (set_send_script w rest) (SysSend (sockfd st) (frame x68 []) sent))
  /\ send_ip_request st w
     = Ok (if to_u32 sent <? 5 then -1 else sent,
           emit (set_send_script w rest)
             (SysSend (sockfd st) (frame x64 []) sent)).
Proof. apply control_frames_lemma. Qed.

Lemma control_frames_on_the_wire_witness :
  send_heartbeat relay_state (set_send_script quiet_world [5; 2])
  = Ok (if to_u32 5 <? 5 then -1 else 5,
        emit (set_send_script (set_send_script quiet_world [5; 2]) [2])
          (SysSend (sockfd relay_state) (frame x68 []) 5))
  /\ send_ip_request relay_state (set_send_script quiet_world [5; 2])
     = Ok (if to_u32 5 <? 5 then -1 else 5,
           emit (set_send_script (set_send_script quiet_world [5; 2]) [2])
             (SysSend (sockfd relay_state) (frame x64 []) 5)).
Proof.
  apply (control_frames_on_the_wire relay_state
           (set_send_script quiet_world [5; 2]) 5 [2]).
  - reflexivity.
  - reflexivity.
Defined.

Lemma c_string_terminated (address rest : list byte) :
  Forall (fun b => b <> x00) address ->
  c_string (address ++ x00 :: rest) = Ok address.
Proof.
  induction 1 as [| b address Hb _ IH]; cbn [app c_string].
  - reflexivity.
  - destruct (Byte.eqb b x00) eqn:Heq.
    + apply Byte.byte_dec_bl in Heq. now destruct Hb.
    + now rewrite IH.
Qed.

(** X21.  When [request] is made on a session whose [running] flag is set
    and the first frame on the stream is an [IP_REPLY], [request] sends its
    [IP_REQUEST] frame, takes the reply and returns the bytes of its payload
    up to the first zero byte; it clears [ip_requesting], leaves the socket
    open and takes nothing after the frame. *)
Theorem request_returns_address (address extra : list byte)
    (st : state) (w : world) (message : Message) (tail : list byte)
    (middle rest : list recv_outcome) (sent : Z) (results : list Z) :
  Forall (fun b => b <> x00) address ->
  (length (address ++ x00 :: extra) <= Z.to_nat DATA_MAX_LENGTH)%nat ->
  sockfd st <> -1 ->
  running st = true ->
  length message = Z.to_nat sizeof_Message ->
  send_script w = sent :: results ->
  incoming w = frame x65 (address ++ x00 :: extra) ++ tail ->
  delivers 0 4 (recv_script w) middle ->
  delivers 0 (S (length (address ++ x00 :: extra))) middle rest ->
  exists w',
    request st w message
    = Ok (string_of_list_byte address, set_ip_requesting st false, w')
    /\ incoming w' = tail
    /\ recv_script w' = rest
    /\ send_script w' = results
    /\ exists waits,
        log w' = log w ++ SysSend (sockfd st) (frame x64 []) sent :: waits
        /\ forallb is_wait waits = true.
Proof.
  intros Hnul Hcap Hopen Hrun Hsize Hsend Hstream Dhead Dbody.
  set (st1 := set_ip_requesting st true).
  set (w1 := emit (set_send_script w results)
               (SysSend (sockfd st) (frame x64 []) sent)).
  destruct (recv_message_of_frame x65 (address ++ x00 :: extra) st1 w1 message
              tail middle rest)
    as (w' & Hrecv & Hinc & Hscr & Hafter); try assumption.
  destruct Hafter as (Hs & _ & _ & waits & Hlog & Hwaits).
  exists w'. split; [| split; [exact Hinc | split; [exact Hscr | split]]].
  - unfold Java_com_lyricz_a4over6vpn_VPNService_request.
    apply Z.eqb_neq in Hopen. rewrite Hopen.
    destruct (control_frames_lemma st1 w sent results) as [_ Hreq];
      [unfold session_active, st1; cbn; now rewrite Hrun | exact Hsend |].
    fold st1. rewrite Hreq. cbn [bind].
    change (emit (set_send_script w results)
              (SysSend (sockfd st1) (frame x64 []) sent)) with w1.
    change request_turns with (S (pred request_turns)).
    cbn [request_loop]. change (0 <? REQUEST_TIMEOUT_USEC) with true.
    cbv iota. rewrite Hrecv. cbn [bind negb].
    change (msg_type (frame x65 (address ++ x00 :: extra) ++ _) =? IP_REPLY)
      with true.
    cbv iota.
    change (skipn (Z.to_nat offset_data)
              (frame x65 (address ++ x00 :: extra)
               ++ skipn (length (frame x65 (address ++ x00 :: extra))) message))
      with ((address ++ x00 :: extra)
            ++ skipn (length (frame x65 (address ++ x00 :: extra))) message).
    rewrite <- app_assoc. cbn [app].
    rewrite c_string_terminated by exact Hnul. reflexivity.
  - exact Hs.
  - exists waits. split; [| exact Hwaits].
    rewrite Hlog. unfold w1. cbn [log emit set_send_script].
    now rewrite <- app_assoc.
Qed.

Lemma request_returns_address_witness :
  exists w',
    request relay_state
      (mkWorld (frame x65 address_10_0_0_2 ++ [x09])
         [RecvAvail 4; RecvAvail 100] [5] [] [] [])
      zero_Message
    = Ok (string_of_list_byte [x31; x30; x2e; x30; x2e; x30; x2e; x32],
          set_ip_requesting relay_state false, w')
    /\ incoming w' = [x09]
    /\ recv_script w' = []
    /\ send_script w' = []
    /\ exists waits,
        log w'
        = log (mkWorld (frame x65 address_10_0_0_2 ++ [x09])
                 [RecvAvail 4; RecvAvail 100] [5] [] [] [])
          ++ SysSend (sockfd relay_state) (frame x64 []) 5 :: waits
        /\ forallb is_wait waits = true.
Proof.
  apply (request_returns_address [x31; x30; x2e; x30; x2e; x30; x2e; x32] []
           relay_state
           (mkWorld (frame x65 address_10_0_0_2 ++ [x09])
              [RecvAvail 4; RecvAvail 100] [5] [] [] [])
           zero_Message [x09] [RecvAvail 100] [] 5 []).
  - repeat constructor; discriminate.
  - apply Nat.leb_le. vm_compute. reflexivity.
  - discriminate.
  - reflexivity.
  - apply repeat_length.
  - reflexivity.
  - reflexivity.
  - cbn [recv_script]. delivery.
  - cbn [length app]. delivery.
Defined.
